(** * Z-Mesh: chunked file transfer over a text-only mesh link

    A shallow embedding of [z_mesh.py] (class [MeshZApp]): the wire
    framing, the sender's stop-and-wait state machine with its watchdog,
    and the receiver's reassembly buffer.

    Conventions of the embedding.
    - A Python [str] is a Rocq [string]; a non-ASCII character stands for
      the bytes of its UTF-8 encoding, which is sound for [startswith],
      [split] on the ASCII delimiter, concatenation and comparison.
    - Python [bytes] are [list byte].
    - Python integers are [Z]; readings of [time.time()] are [Z] too, since
      the program only subtracts and compares them.
    - The dictionary [receive_buffer] is a [gmap Z (list byte)].
    - The attributes of [self] form the record [App]; everything the
      program touches outside of [self] (disk, radio link, log widget,
      progress bar, clock) forms the record [World].
    - A method is a computation in the monad [M]: it threads the pair of
      [App] and [World] and either returns or raises; what was mutated
      before a raise stays mutated, as in Python.

    What the embedding assumes of the libraries.
    - [interface.sendText] and the calls on the widgets return normally;
      they are recorded in the world in the order they are made.
    - [int()] is modelled on ASCII text: white space, sign, digits and
      single underscores between digits; digits and spaces outside ASCII
      count as errors, and the limit on the number of digits is left out.
    - [base64.b64decode] is the non-strict decoder of [binascii]: it
      skips characters outside the alphabet and checks the padding. *)

From Stdlib Require Import ZArith NArith List Lia Bool.
From Stdlib.Strings Require Import String Ascii Byte.
From stdpp Require Import base gmap strings list.

Local Open Scope string_scope.
Local Open Scope Z_scope.

(* Let [simpl] and [cbn] compute the concatenation of strings. *)
#[local] Arguments String.append !s1 s2 : simpl nomatch.

(** ** Python text primitives *)

Module Py.

(** [s.startswith(p)] *)
Definition startswith (s p : string) : bool := String.prefix p s.

(** [s.split(sep)] for a one-character separator: every occurrence of the
    separator cuts, so the result has one more part than separators. *)
Fixpoint split (sep : ascii) (s : string) : list string :=
  match s with
  | EmptyString => [EmptyString]
  | String c s' =>
      if Ascii.eqb c sep then EmptyString :: split sep s'
      else match split sep s' with
           | cur :: rest => String c cur :: rest
           | [] => [String c EmptyString]
           end
  end.

(** ASCII white space as [int()] skips it: tab, LF, VT, FF, CR, space. *)
Definition is_space (c : ascii) : bool :=
  let n := N_of_ascii c in
  ((9 <=? n) && (n <=? 13) || (n =? 32))%N.

Definition digit_of (c : ascii) : option Z :=
  let n := N_of_ascii c in
  if ((48 <=? n) && (n <=? 57))%N then Some (Z.of_N n - 48) else None.

Fixpoint lstrip (s : string) : string :=
  match s with
  | String c s' => if is_space c then lstrip s' else s
  | EmptyString => s
  end.

(** The digit scanner of [int()]: decimal digits, where single
    underscores may stand between two digits.  [prev] tells what the
    previous character was: [None] at the start, [Some true] after a
    digit, [Some false] after an underscore.  Returns the value and the
    unread rest, or [None] for a syntax error. *)
Fixpoint scan_digits (acc : Z) (prev : option bool) (s : string)
  : option (Z * string) :=
  match s with
  | EmptyString =>
      match prev with Some true => Some (acc, s) | _ => None end
  | String c s' =>
      match digit_of c with
      | Some d => scan_digits (acc * 10 + d) (Some true) s'
      | None =>
          if Ascii.eqb c "_"%char then
            match prev with
            | Some true => scan_digits acc (Some false) s'
            | _ => None
            end
          else
            match prev with Some true => Some (acc, s) | _ => None end
      end
  end.

(** [int(s)] on text: optional white space, optional sign, digits,
    optional white space, end of input.  [None] stands for [ValueError]. *)
Definition int (s : string) : option Z :=
  let s1 := lstrip s in
  let '(sign, s2) :=
    match s1 with
    | String "-"%char r => (-1, r)
    | String "+"%char r => (1, r)
    | _ => (1, s1)
    end in
  match scan_digits 0 None s2 with
  | Some (v, rest) =>
      match lstrip rest with
      | EmptyString => Some (sign * v)
      | _ => None
      end
  | None => None
  end.

Definition digit_char (d : Z) : ascii := ascii_of_N (Z.to_N (48 + d)).

(** Decimal digits of a non-negative number, most significant first.
    The fuel is the number of digits that may still be produced. *)
Fixpoint digits_fuel (fuel : nat) (n : Z) (acc : string) : string :=
  match fuel with
  | O => acc
  | S f =>
      let acc' := String (digit_char (n mod 10)) acc in
      if n / 10 =? 0 then acc' else digits_fuel f (n / 10) acc'
  end.

Definition str_nonneg (n : Z) : string :=
  digits_fuel (S (Z.to_nat (Z.log2 n))) n EmptyString.

(** [str(n)], which is also what an f-string field [{n}] renders. *)
Definition str (n : Z) : string :=
  if n <? 0 then String "-"%char (str_nonneg (- n)) else str_nonneg n.

End Py.

(** ** Base64, as [base64.b64encode] and [base64.b64decode] compute it *)

Module Base64.

Definition alphabet : string :=
  "ABCDEFGHIJKLMNOPQRSTUVWXYZabcdefghijklmnopqrstuvwxyz0123456789+/".

Definition table_b2a (n : N) : ascii :=
  match String.get (N.to_nat n) alphabet with
  | Some c => c
  | None => "="%char
  end.

Fixpoint index_of (c : ascii) (s : string) (i : N) : option N :=
  match s with
  | EmptyString => None
  | String d s' => if Ascii.eqb c d then Some i else index_of c s' (N.succ i)
  end.

(** The value of a character of the alphabet, [None] for any other. *)
Definition table_a2b (c : ascii) : option N := index_of c alphabet 0%N.

Definition byte_of_N (n : N) : byte :=
  match Byte.of_N (n mod 256)%N with
  | Some b => b
  | None => x00
  end.

Definition sextet1 (a : N) : N := N.shiftr a 2.
Definition sextet2 (a b : N) : N :=
  N.lor (N.shiftl (N.land a 3) 4) (N.shiftr b 4).
Definition sextet3 (b c : N) : N :=
  N.lor (N.shiftl (N.land b 15) 2) (N.shiftr c 6).
Definition sextet4 (c : N) : N := N.land c 63.

(** [binascii.b2a_base64] without the newline: three bytes give four
    characters; one or two left-over bytes are padded with [=]. *)
Fixpoint b2a (bs : list byte) : string :=
  match bs with
  | [] => EmptyString
  | [a] =>
      let a := Byte.to_N a in
      String (table_b2a (sextet1 a))
        (String (table_b2a (sextet2 a 0)) "==")
  | [a; b] =>
      let a := Byte.to_N a in
      let b := Byte.to_N b in
      String (table_b2a (sextet1 a))
        (String (table_b2a (sextet2 a b))
           (String (table_b2a (sextet3 b 0)) "="))
  | a :: b :: c :: rest =>
      let a := Byte.to_N a in
      let b := Byte.to_N b in
      let c := Byte.to_N c in
      String (table_b2a (sextet1 a))
        (String (table_b2a (sextet2 a b))
           (String (table_b2a (sextet3 b c))
              (String (table_b2a (sextet4 c)) (b2a rest))))
  end.

(** [base64.b64encode(raw).decode('utf-8')] *)
Definition b64encode (raw : list byte) : string := b2a raw.

(** The loop of [binascii.a2b_base64] in its default, non-strict mode.
    [quad_pos] counts the characters of the current group of four,
    [leftchar] holds the bits not yet written, [pads] the [=] seen since
    the last data character.  A character outside the alphabet is
    skipped.  [None] stands for [binascii.Error]. *)
Fixpoint a2b_loop (s : string) (quad_pos : N) (leftchar : N) (pads : N)
    (out : list byte) : option (list byte) :=
  match s with
  | EmptyString => if (quad_pos =? 0)%N then Some out else None
  | String ch s' =>
      if Ascii.eqb ch "="%char then
        if (2 <=? quad_pos)%N then
          if (4 <=? quad_pos + (pads + 1))%N then Some out
          else a2b_loop s' quad_pos leftchar (pads + 1)%N out
        else a2b_loop s' quad_pos leftchar pads out
      else
        match table_a2b ch with
        | None => a2b_loop s' quad_pos leftchar pads out
        | Some this_ch =>
            match quad_pos with
            | 0%N => a2b_loop s' 1%N this_ch 0%N out
            | 1%N =>
                a2b_loop s' 2%N (N.land this_ch 15) 0%N
                  (out ++ [byte_of_N
                     (N.lor (N.shiftl leftchar 2) (N.shiftr this_ch 4))])
            | 2%N =>
                a2b_loop s' 3%N (N.land this_ch 3) 0%N
                  (out ++ [byte_of_N
                     (N.lor (N.shiftl leftchar 4) (N.shiftr this_ch 2))])
            | _ =>
                a2b_loop s' 0%N 0%N 0%N
                  (out ++ [byte_of_N (N.lor (N.shiftl leftchar 6) this_ch)])
            end
        end
  end.

Definition is_ascii (c : ascii) : bool := (N_of_ascii c <? 128)%N.

Fixpoint all_ascii (s : string) : bool :=
  match s with
  | EmptyString => true
  | String c s' => is_ascii c && all_ascii s'
  end.

(** [base64.b64decode(s)] for a [str] argument: a non-ASCII character is
    a [ValueError], bad padding a [binascii.Error]; both are [None]. *)
Definition b64decode (s : string) : option (list byte) :=
  if all_ascii s then a2b_loop s 0%N 0%N 0%N [] else None.

End Base64.

(** ** The application state *)

Definition CHUNK_SIZE : Z := 120.
Definition MAX_RETRIES : Z := 5.
Definition TIMEOUT_SECONDS : Z := 30.

(** The attributes of [MeshZApp] that the transfer logic reads and
    writes, with the initial values of the class body. *)
Record App := {
  target_node_id : option string;
  selected_file_path : option string;
  current_chunk : Z;
  total_chunks : Z;
  transfer_active : bool;
  last_ack_time : Z;
  retry_count : Z;
  receiving_file_name : option string;
  receiving_total_chunks : Z;
  receive_buffer : gmap Z (list byte)
}.

Definition initial_app : App :=
  {| target_node_id := None; selected_file_path := None;
     current_chunk := 0; total_chunks := 0; transfer_active := false;
     last_ack_time := 0; retry_count := 0;
     receiving_file_name := None; receiving_total_chunks := 0;
     receive_buffer := ∅ |}.

(** The exceptions that the modelled operations raise. *)
Inductive Exn :=
| IndexError | KeyError | ValueError | Base64Error
| UnicodeDecodeError | TypeError | OSError.

(** The lines given to [log_message], by their format string. *)
Inductive LogLine :=
| LogTimeoutRetry (chunk retry : Z)
| LogMaxRetries
| LogReq (sender : option string) (name : string)
| LogTransferComplete
| LogPacketError (e : Exn)
| LogFileSaved (path : string)
| LogSaveError (e : Exn)
| LogTargetOrFileMissing
| LogSending (filename : string)
| LogError (e : Exn)
| LogChunkError (e : Exn).

(** What the progress display is told. *)
Inductive UiEvent :=
| Progress (current total : Z) (label : string)
| HideProgress.

(** Everything outside of [self]: the clock, the file system, whether a
    file can be created under the downloads directory, the texts handed
    to [interface.sendText] with their destination, the log, the
    progress display. *)
Record World := {
  now : Z;
  disk : gmap string (list byte);
  downloads_ok : bool;
  outbox : list (string * option string);
  log : list LogLine;
  ui : list UiEvent
}.

Definition set_target_node_id (v : option string) (x : App) : App :=
  {| target_node_id := v;
     selected_file_path := selected_file_path x;
     current_chunk := current_chunk x;
     total_chunks := total_chunks x;
     transfer_active := transfer_active x;
     last_ack_time := last_ack_time x;
     retry_count := retry_count x;
     receiving_file_name := receiving_file_name x;
     receiving_total_chunks := receiving_total_chunks x;
     receive_buffer := receive_buffer x |}.

Definition set_selected_file_path (v : option string) (x : App) : App :=
  {| target_node_id := target_node_id x;
     selected_file_path := v;
     current_chunk := current_chunk x;
     total_chunks := total_chunks x;
     transfer_active := transfer_active x;
     last_ack_time := last_ack_time x;
     retry_count := retry_count x;
     receiving_file_name := receiving_file_name x;
     receiving_total_chunks := receiving_total_chunks x;
     receive_buffer := receive_buffer x |}.

Definition set_current_chunk (v : Z) (x : App) : App :=
  {| target_node_id := target_node_id x;
     selected_file_path := selected_file_path x;
     current_chunk := v;
     total_chunks := total_chunks x;
     transfer_active := transfer_active x;
     last_ack_time := last_ack_time x;
     retry_count := retry_count x;
     receiving_file_name := receiving_file_name x;
     receiving_total_chunks := receiving_total_chunks x;
     receive_buffer := receive_buffer x |}.

Definition set_total_chunks (v : Z) (x : App) : App :=
  {| target_node_id := target_node_id x;
     selected_file_path := selected_file_path x;
     current_chunk := current_chunk x;
     total_chunks := v;
     transfer_active := transfer_active x;
     last_ack_time := last_ack_time x;
     retry_count := retry_count x;
     receiving_file_name := receiving_file_name x;
     receiving_total_chunks := receiving_total_chunks x;
     receive_buffer := receive_buffer x |}.

Definition set_transfer_active (v : bool) (x : App) : App :=
  {| target_node_id := target_node_id x;
     selected_file_path := selected_file_path x;
     current_chunk := current_chunk x;
     total_chunks := total_chunks x;
     transfer_active := v;
     last_ack_time := last_ack_time x;
     retry_count := retry_count x;
     receiving_file_name := receiving_file_name x;
     receiving_total_chunks := receiving_total_chunks x;
     receive_buffer := receive_buffer x |}.

Definition set_last_ack_time (v : Z) (x : App) : App :=
  {| target_node_id := target_node_id x;
     selected_file_path := selected_file_path x;
     current_chunk := current_chunk x;
     total_chunks := total_chunks x;
     transfer_active := transfer_active x;
     last_ack_time := v;
     retry_count := retry_count x;
     receiving_file_name := receiving_file_name x;
     receiving_total_chunks := receiving_total_chunks x;
     receive_buffer := receive_buffer x |}.

Definition set_retry_count (v : Z) (x : App) : App :=
  {| target_node_id := target_node_id x;
     selected_file_path := selected_file_path x;
     current_chunk := current_chunk x;
     total_chunks := total_chunks x;
     transfer_active := transfer_active x;
     last_ack_time := last_ack_time x;
     retry_count := v;
     receiving_file_name := receiving_file_name x;
     receiving_total_chunks := receiving_total_chunks x;
     receive_buffer := receive_buffer x |}.

Definition set_receiving_file_name (v : option string) (x : App) : App :=
  {| target_node_id := target_node_id x;
     selected_file_path := selected_file_path x;
     current_chunk := current_chunk x;
     total_chunks := total_chunks x;
     transfer_active := transfer_active x;
     last_ack_time := last_ack_time x;
     retry_count := retry_count x;
     receiving_file_name := v;
     receiving_total_chunks := receiving_total_chunks x;
     receive_buffer := receive_buffer x |}.

Definition set_receiving_total_chunks (v : Z) (x : App) : App :=
  {| target_node_id := target_node_id x;
     selected_file_path := selected_file_path x;
     current_chunk := current_chunk x;
     total_chunks := total_chunks x;
     transfer_active := transfer_active x;
     last_ack_time := last_ack_time x;
     retry_count := retry_count x;
     receiving_file_name := receiving_file_name x;
     receiving_total_chunks := v;
     receive_buffer := receive_buffer x |}.

Definition set_receive_buffer (v : gmap Z (list byte)) (x : App) : App :=
  {| target_node_id := target_node_id x;
     selected_file_path := selected_file_path x;
     current_chunk := current_chunk x;
     total_chunks := total_chunks x;
     transfer_active := transfer_active x;
     last_ack_time := last_ack_time x;
     retry_count := retry_count x;
     receiving_file_name := receiving_file_name x;
     receiving_total_chunks := receiving_total_chunks x;
     receive_buffer := v |}.

Definition set_now (v : Z) (x : World) : World :=
  {| now := v;
     disk := disk x;
     downloads_ok := downloads_ok x;
     outbox := outbox x;
     log := log x;
     ui := ui x |}.

Definition set_disk (v : gmap string (list byte)) (x : World) : World :=
  {| now := now x;
     disk := v;
     downloads_ok := downloads_ok x;
     outbox := outbox x;
     log := log x;
     ui := ui x |}.

Definition set_outbox (v : list (string * option string)) (x : World) : World :=
  {| now := now x;
     disk := disk x;
     downloads_ok := downloads_ok x;
     outbox := v;
     log := log x;
     ui := ui x |}.

Definition set_log (v : list LogLine) (x : World) : World :=
  {| now := now x;
     disk := disk x;
     downloads_ok := downloads_ok x;
     outbox := outbox x;
     log := v;
     ui := ui x |}.

Definition set_ui (v : list UiEvent) (x : World) : World :=
  {| now := now x;
     disk := disk x;
     downloads_ok := downloads_ok x;
     outbox := outbox x;
     log := log x;
     ui := v |}.

(** ** Computations that mutate [self] and the world, and may raise *)

Inductive Res (A : Type) :=
| Ret (a : A)
| Raise (e : Exn).
Arguments Ret {A} a.
Arguments Raise {A} e.

Definition State : Type := App * World.
Definition M (A : Type) : Type := State -> Res A * State.

Definition ret {A} (a : A) : M A := fun s => (Ret a, s).
Definition raise {A} (e : Exn) : M A := fun s => (Raise e, s).
Definition bind {A B} (c : M A) (k : A -> M B) : M B :=
  fun s => match c s with
           | (Ret a, s') => k a s'
           | (Raise e, s') => (Raise e, s')
           end.

(** [try: c except Exception as e: h e] *)
Definition try_except {A} (c : M A) (h : Exn -> M A) : M A :=
  fun s => match c s with
           | (Ret a, s') => (Ret a, s')
           | (Raise e, s') => h e s'
           end.

Notation "x <- c ;; k" := (bind c (fun x => k))
  (at level 100, c at next level, right associativity).
Notation "c ;; k" := (bind c (fun _ => k))
  (at level 100, right associativity).

Definition self {A} (f : App -> A) : M A := fun s => (Ret (f (fst s)), s).
Definition assign (f : App -> App) : M unit :=
  fun s => (Ret tt, (f (fst s), snd s)).
Definition env {A} (f : World -> A) : M A := fun s => (Ret (f (snd s)), s).
Definition effect (f : World -> World) : M unit :=
  fun s => (Ret tt, (fst s, f (snd s))).

(** An optional value, raising [e] when it is absent. *)
Definition orelse {A} (o : option A) (e : Exn) : M A :=
  match o with Some a => ret a | None => raise e end.

(** [l[i]] for a non-negative literal index. *)
Definition item {A} (l : list A) (i : nat) : M A :=
  orelse (nth_error l i) IndexError.

(** ** The collaborators *)

(** [time.time()] *)
Definition time : M Z := env now.

(** [self.interface.sendText(text, destinationId=dest)] *)
Definition sendText (text : string) (dest : option string) : M unit :=
  effect (fun w => set_outbox (outbox w ++ [(text, dest)]) w).

Definition log_message (l : LogLine) : M unit :=
  effect (fun w => set_log (log w ++ [l]) w).

Definition update_progress (current total : Z) (label : string) : M unit :=
  effect (fun w => set_ui (ui w ++ [Progress current total label]) w).

Definition hide_progress : M unit :=
  effect (fun w => set_ui (ui w ++ [HideProgress]) w).

(** [os.path.basename] *)
Definition basename (path : string) : string :=
  List.last (Py.split "/" path) EmptyString.

(** [str(Path.home() / "Downloads")] *)
Definition downloads_path : string := "~/Downloads".

(** How an f-string renders an attribute that is [None] or a [str]. *)
Definition render (o : option string) : string :=
  match o with Some s => s | None => "None" end.

(** [os.path.join(downloads_path, f"meshz_{name}")] *)
Definition save_path_of (name : option string) : string :=
  downloads_path ++ "/" ++ "meshz_" ++ render name.

(** A Python object is true unless it is [None] or the empty string. *)
Definition truthy (o : option string) : bool :=
  match o with
  | Some s => negb (String.eqb s EmptyString)
  | None => false
  end.

(** [sender == self.target_node_id] *)
Definition same_peer (a b : option string) : bool :=
  match a, b with
  | Some x, Some y => String.eqb x y
  | None, None => true
  | _, _ => false
  end.

(** ** The sender *)

(** [f.seek(offset); f.read(size)] on an open file with this content.
    A negative offset is refused. *)
Definition seek_read (content : list byte) (offset size : Z)
  : M (list byte) :=
  if offset <? 0 then raise OSError
  else ret (firstn (Z.to_nat size) (skipn (Z.to_nat offset) content)).

(** [open(path, "rb")] *)
Definition open_rb (path : option string) : M (list byte) :=
  p <- orelse path TypeError ;;
  d <- env disk ;;
  orelse (d !! p) OSError.

Definition chunk_frame (index : Z) (raw : list byte) : string :=
  "ZD|" ++ Py.str index ++ "|" ++ Base64.b64encode raw.

Definition send_next_chunk : M unit :=
  try_except
    (path <- self selected_file_path ;;
     f <- open_rb path ;;
     cur <- self current_chunk ;;
     raw_data <- seek_read f ((cur - 1) * CHUNK_SIZE) CHUNK_SIZE ;;
     cur <- self current_chunk ;;
     dest <- self target_node_id ;;
     sendText (chunk_frame cur raw_data) dest)
    (fun e =>
     log_message (LogChunkError e) ;;
     assign (set_transfer_active false)).

Definition handle_timeout : M unit :=
  rc <- self retry_count ;;
  if rc <? MAX_RETRIES then
    assign (set_retry_count (rc + 1)) ;;
    cur <- self current_chunk ;;
    rc' <- self retry_count ;;
    log_message (LogTimeoutRetry cur rc') ;;
    send_next_chunk
  else
    log_message LogMaxRetries ;;
    assign (set_transfer_active false) ;;
    hide_progress.

(** One round of [watch_loop], after its [time.sleep(1)]. *)
Definition watch_tick : M unit :=
  active <- self transfer_active ;;
  cur <- self current_chunk ;;
  if active && (0 <? cur) then
    t <- time ;;
    last <- self last_ack_time ;;
    if TIMEOUT_SECONDS <? t - last then handle_timeout else ret tt
  else ret tt.

Definition request_frame (filename : string) (filesize total : Z) : string :=
  "MESHZ_REQ|" ++ filename ++ "|" ++ Py.str filesize ++ "|" ++ Py.str total.

Definition handle_send_request : M unit :=
  tgt <- self target_node_id ;;
  path <- self selected_file_path ;;
  if negb (truthy tgt) || negb (bool_decide (is_Some path)) then
    log_message LogTargetOrFileMissing
  else
    try_except
      (p <- orelse path TypeError ;;
       let filename := basename p in
       d <- env disk ;;
       content <- orelse (d !! p) OSError ;;
       let filesize := Z.of_nat (length content) in
       assign (set_total_chunks (filesize / CHUNK_SIZE + 1)) ;;
       assign (set_current_chunk 0) ;;
       assign (set_transfer_active true) ;;
       t <- time ;;
       assign (set_last_ack_time t) ;;
       total <- self total_chunks ;;
       update_progress 0 total "Initiating" ;;
       dest <- self target_node_id ;;
       sendText (request_frame filename filesize total) dest ;;
       log_message (LogSending filename))
      (fun e => log_message (LogError e)).

(** ** The receiver *)

(** [for i in range(first, first + count): f.write(self.receive_buffer[i])]
    on the file at [path], already opened for writing.  A missing index
    raises [KeyError] and leaves what was written so far. *)
Fixpoint write_chunks (path : string) (first : Z) (count : nat) : M unit :=
  match count with
  | O => ret tt
  | S n =>
      buf <- self receive_buffer ;;
      data <- orelse (buf !! first) KeyError ;;
      effect (fun w =>
        set_disk (<[path := (default [] (disk w !! path) ++ data)%list]> (disk w)) w) ;;
      write_chunks path (first + 1) n
  end.

(** [open(path, "wb")]: the file is created, or emptied if it exists. *)
Definition open_wb (path : string) : M unit :=
  ok <- env downloads_ok ;;
  if ok then effect (fun w => set_disk (<[path := []]> (disk w)) w)
  else raise OSError.

Definition save_received_file : M unit :=
  try_except
    (name <- self receiving_file_name ;;
     let save_path := save_path_of name in
     open_wb save_path ;;
     total <- self receiving_total_chunks ;;
     write_chunks save_path 1 (Z.to_nat total) ;;
     log_message (LogFileSaved save_path))
    (fun e => log_message (LogSaveError e)).

(** ** Inbound packets *)

(** The payload of a decoded packet, after
    [if isinstance(msg, bytes): msg = msg.decode('utf-8')]: a text, or
    bytes that are not valid UTF-8. *)
Inductive Payload :=
| Text (msg : string)
| Undecodable.

(** [packet['decoded']], with the keys it may lack. *)
Record Decoded := {
  portnum : option string;
  payload : option Payload
}.

Record Packet := {
  decoded : option Decoded;
  fromId : option string
}.

Definition ack_frame : string := "MESHZ_ACK".
Definition chunk_ack_frame (index : Z) : string :=
  "MESHZ_GOCONT|" ++ Py.str index.

(** The four branches of the handler, each on the text [msg] from
    [sender]. *)
Definition on_request (sender : option string) (msg : string) : M unit :=
  let parts := Py.split "|" msg in
  name <- item parts 1 ;;
  assign (set_receiving_file_name (Some name)) ;;
  field <- item parts 3 ;;
  total <- orelse (Py.int field) ValueError ;;
  assign (set_receiving_total_chunks total) ;;
  assign (set_receive_buffer ∅) ;;
  name <- self receiving_file_name ;;
  log_message (LogReq sender (render name)) ;;
  total <- self receiving_total_chunks ;;
  update_progress 0 total "Receiving" ;;
  sendText ack_frame sender.

Definition on_data_chunk (sender : option string) (msg : string) : M unit :=
  let parts := Py.split "|" msg in
  field <- item parts 1 ;;
  c_num <- orelse (Py.int field) ValueError ;;
  c_data <- item parts 2 ;;
  raw <- orelse (Base64.b64decode c_data) Base64Error ;;
  assign (fun a => set_receive_buffer (<[c_num := raw]> (receive_buffer a)) a) ;;
  buf <- self receive_buffer ;;
  total <- self receiving_total_chunks ;;
  update_progress (Z.of_nat (size buf)) total "Receiving" ;;
  sendText (chunk_ack_frame c_num) sender ;;
  buf <- self receive_buffer ;;
  total <- self receiving_total_chunks ;;
  if Z.of_nat (size buf) =? total then
    save_received_file ;;
    hide_progress
  else ret tt.

Definition on_ack (sender : option string) : M unit :=
  active <- self transfer_active ;;
  tgt <- self target_node_id ;;
  if active && same_peer sender tgt then
    assign (set_current_chunk 1) ;;
    t <- time ;;
    assign (set_last_ack_time t) ;;
    assign (set_retry_count 0) ;;
    total <- self total_chunks ;;
    update_progress 1 total "Sending" ;;
    send_next_chunk
  else ret tt.

Definition on_chunk_ack (sender : option string) (msg : string) : M unit :=
  active <- self transfer_active ;;
  tgt <- self target_node_id ;;
  if active && same_peer sender tgt then
    field <- item (Py.split "|" msg) 1 ;;
    ack_num <- orelse (Py.int field) ValueError ;;
    cur <- self current_chunk ;;
    if ack_num =? cur then
      t <- time ;;
      assign (set_last_ack_time t) ;;
      assign (set_retry_count 0) ;;
      assign (fun a => set_current_chunk (current_chunk a + 1) a) ;;
      cur <- self current_chunk ;;
      total <- self total_chunks ;;
      if cur <=? total then
        update_progress cur total "Sending" ;;
        send_next_chunk
      else
        assign (set_transfer_active false) ;;
        log_message LogTransferComplete ;;
        hide_progress
    else ret tt
  else ret tt.

(** The chain of tests on the text of a message. *)
Definition on_text (sender : option string) (msg : string) : M unit :=
  if Py.startswith msg "MESHZ_REQ" then on_request sender msg
  else if Py.startswith msg "ZD|" then on_data_chunk sender msg
  else if String.eqb msg "MESHZ_ACK" then on_ack sender
  else if Py.startswith msg "MESHZ_GOCONT|" then on_chunk_ack sender msg
  else ret tt.

(** The body of the [try] of [on_packet_received]. *)
Definition packet_body (packet : Packet) : M unit :=
  match decoded packet with
  | None => ret tt
  | Some dec =>
      port <- orelse (portnum dec) KeyError ;;
      if String.eqb port "TEXT_MESSAGE_APP" then
        let sender := fromId packet in
        pl <- orelse (payload dec) KeyError ;;
        msg <- match pl with
               | Text m => ret m
               | Undecodable => raise UnicodeDecodeError
               end ;;
        on_text sender msg
      else ret tt
  end.

Definition on_packet_received (packet : Packet) : M unit :=
  try_except (packet_body packet)
    (fun e => log_message (LogPacketError e)).

(** A text message [msg] arriving from [sender]. *)
Definition text_packet (sender : string) (msg : string) : Packet :=
  {| decoded := Some {| portnum := Some "TEXT_MESSAGE_APP";
                        payload := Some (Text msg) |};
     fromId := Some sender |}.

(** ** The user's intents *)

Definition on_directory_tree_file_selected (path : string) : M unit :=
  assign (set_selected_file_path (Some path)).

Definition on_data_table_row_selected (node_id : string) : M unit :=
  assign (set_target_node_id (Some node_id)).

(** ** Running a sequence of events *)

(** The state after a computation, whatever it returned. *)
Definition exec {A} (c : M A) (s : State) : State := snd (c s).

(** Whether a computation ended by raising. *)
Definition raises {A} (c : M A) (s : State) : bool :=
  match fst (c s) with Raise _ => true | Ret _ => false end.

(** The inbound packets [ps], handled one after the other. *)
Definition deliver (ps : list Packet) (s : State) : State :=
  fold_left (fun st p => exec (on_packet_received p) st) ps s.

(** The clock showing [t]. *)
Definition at_time (t : Z) (s : State) : State :=
  (fst s, set_now t (snd s)).

(** Watchdog rounds at the clock readings [ts], nothing else happening
    in between. *)
Definition run_ticks (ts : list Z) (s : State) : State :=
  fold_left (fun st t => exec watch_tick (at_time t st)) ts s.

(** [n] expiries of the timeout in a row. *)
Definition timeouts (n : nat) (s : State) : State :=
  Nat.iter n (exec handle_timeout) s.

(** The [i]-th chunk of a file, counted from 1. *)
Definition chunk_of (content : list byte) (i : Z) : list byte :=
  firstn (Z.to_nat CHUNK_SIZE) (skipn (Z.to_nat ((i - 1) * CHUNK_SIZE)) content).

(** [ceil(s / c)] for a positive [c]. *)
Definition ceil_div (s c : Z) : Z := (s + c - 1) / c.

(** ** Auxiliary notions used in the statements *)

(** Whether the character [c] occurs in [s]. *)
Fixpoint has_char (c : ascii) (s : string) : bool :=
  match s with
  | EmptyString => false
  | String d s' => Ascii.eqb d c || has_char c s'
  end.

(** [P] holds of every number below [k]. *)
Fixpoint all_below (k : nat) (P : N -> bool) : bool :=
  match k with
  | O => true
  | S k' => P (N.of_nat k') && all_below k' P
  end.

(** The texts a computation hands to the link, with their destinations. *)
Definition emitted {A} (c : M A) (s : State) : list (string * option string) :=
  skipn (length (outbox (snd s))) (outbox (snd (exec c s))).

(** ** The handlers in closed form

    What each handler does to the state, written without the monad.
    The lemmas of the section on stepping prove that the handlers above
    compute exactly these. *)

(** What [send_next_chunk] reads from the file: the bytes of the current
    chunk, or the exception of [open], [seek] or [read]. *)
Definition read_current_chunk (s : State) : Res (list byte) :=
  match selected_file_path (fst s) with
  | None => Raise TypeError
  | Some p =>
      match disk (snd s) !! p with
      | None => Raise OSError
      | Some f =>
          if (current_chunk (fst s) - 1) * CHUNK_SIZE <? 0 then Raise OSError
          else Ret (chunk_of f (current_chunk (fst s)))
      end
  end.

(** The state after [send_next_chunk]: the chunk is on the link, or the
    failure is logged and the session stopped. *)
Definition after_send (s : State) : State :=
  match read_current_chunk s with
  | Ret raw =>
      (fst s,
       set_outbox (outbox (snd s) ++
                   [(chunk_frame (current_chunk (fst s)) raw,
                     target_node_id (fst s))]) (snd s))
  | Raise e =>
      (set_transfer_active false (fst s),
       set_log (log (snd s) ++ [LogChunkError e]) (snd s))
  end.

(** The state after [handle_timeout]. *)
Definition after_timeout (s : State) : State :=
  let rc := retry_count (fst s) in
  if rc <? MAX_RETRIES then
    after_send
      (set_retry_count (rc + 1) (fst s),
       set_log (log (snd s) ++
                [LogTimeoutRetry (current_chunk (fst s)) (rc + 1)]) (snd s))
  else
    (set_transfer_active false (fst s),
     set_ui (ui (snd s) ++ [HideProgress])
       (set_log (log (snd s) ++ [LogMaxRetries]) (snd s))).

(** Whether a round of the watchdog finds the timeout expired. *)
Definition expired (s : State) : bool :=
  transfer_active (fst s) && (0 <? current_chunk (fst s)) &&
  (TIMEOUT_SECONDS <? now (snd s) - last_ack_time (fst s)).

(** The bytes that the loop of [save_received_file] writes for the
    indices [first], [first + 1], ... ([count] of them), and whether it
    reached the end; it stops at the first index missing from the
    buffer. *)
Fixpoint gather (buf : gmap Z (list byte)) (first : Z) (count : nat)
  : list byte * bool :=
  match count with
  | O => ([], true)
  | S n =>
      match buf !! first with
      | None => ([], false)
      | Some data =>
          let '(rest, ok) := gather buf (first + 1) n in
          ((data ++ rest)%list, ok)
      end
  end.

(** The state after [save_received_file]. *)
Definition after_save (s : State) : State :=
  let path := save_path_of (receiving_file_name (fst s)) in
  if downloads_ok (snd s) then
    let '(bytes, ok) :=
      gather (receive_buffer (fst s)) 1
        (Z.to_nat (receiving_total_chunks (fst s))) in
    (fst s,
     set_log (log (snd s) ++
              [if ok then LogFileSaved path else LogSaveError KeyError])
       (set_disk (<[path := bytes]> (disk (snd s))) (snd s)))
  else
    (fst s, set_log (log (snd s) ++ [LogSaveError OSError]) (snd s)).

(** What the data branch reads from a message before it touches the
    state: the index and the decoded bytes, or the exception. *)
Definition parse_data_chunk (msg : string) : Res (Z * list byte) :=
  let parts := Py.split "|" msg in
  match nth_error parts 1 with
  | None => Raise IndexError
  | Some field =>
      match Py.int field with
      | None => Raise ValueError
      | Some c_num =>
          match nth_error parts 2 with
          | None => Raise IndexError
          | Some c_data =>
              match Base64.b64decode c_data with
              | None => Raise Base64Error
              | Some raw => Ret (c_num, raw)
              end
          end
      end
  end.

(** The state after the data branch stored chunk [c_num]. *)
Definition after_data_chunk (sender : option string) (c_num : Z)
    (raw : list byte) (s : State) : State :=
  let a1 := set_receive_buffer (<[c_num := raw]> (receive_buffer (fst s))) (fst s) in
  let n := Z.of_nat (size (receive_buffer a1)) in
  let total := receiving_total_chunks a1 in
  let w1 :=
    set_outbox (outbox (snd s) ++ [(chunk_ack_frame c_num, sender)])
      (set_ui (ui (snd s) ++ [Progress n total "Receiving"]) (snd s)) in
  if n =? total then
    let s2 := after_save (a1, w1) in
    (fst s2, set_ui (ui (snd s2) ++ [HideProgress]) (snd s2))
  else (a1, w1).

(** The request branch: its result and the state it leaves. *)
Definition after_request (sender : option string) (msg : string)
    (s : State) : Res unit * State :=
  let parts := Py.split "|" msg in
  match nth_error parts 1 with
  | None => (Raise IndexError, s)
  | Some name =>
      let a1 := set_receiving_file_name (Some name) (fst s) in
      match nth_error parts 3 with
      | None => (Raise IndexError, (a1, snd s))
      | Some field =>
          match Py.int field with
          | None => (Raise ValueError, (a1, snd s))
          | Some total =>
              (Ret tt,
               (set_receive_buffer ∅ (set_receiving_total_chunks total a1),
                set_outbox (outbox (snd s) ++ [(ack_frame, sender)])
                  (set_ui (ui (snd s) ++ [Progress 0 total "Receiving"])
                     (set_log (log (snd s) ++ [LogReq sender name])
                        (snd s)))))
          end
      end
  end.

(** Whether the sender accepts an acknowledgment from [sender]. *)
Definition accepts (sender : option string) (s : State) : bool :=
  transfer_active (fst s) && same_peer sender (target_node_id (fst s)).

(** The state after the branch for [MESHZ_ACK]. *)
Definition after_ack (sender : option string) (s : State) : State :=
  if accepts sender s then
    after_send
      (set_retry_count 0
         (set_last_ack_time (now (snd s)) (set_current_chunk 1 (fst s))),
       set_ui (ui (snd s) ++ [Progress 1 (total_chunks (fst s)) "Sending"])
         (snd s))
  else s.

(** The index a chunk acknowledgment carries, or the exception. *)
Definition parse_chunk_ack (msg : string) : Res Z :=
  match nth_error (Py.split "|" msg) 1 with
  | None => Raise IndexError
  | Some field =>
      match Py.int field with
      | None => Raise ValueError
      | Some ack_num => Ret ack_num
      end
  end.

(** The state after an accepted chunk acknowledgment for [ack_num]. *)
Definition after_chunk_ack (ack_num : Z) (s : State) : State :=
  let cur := current_chunk (fst s) in
  if ack_num =? cur then
    let a1 :=
      set_current_chunk (cur + 1)
        (set_retry_count 0 (set_last_ack_time (now (snd s)) (fst s))) in
    if cur + 1 <=? total_chunks (fst s) then
      after_send
        (a1,
         set_ui (ui (snd s) ++
                 [Progress (cur + 1) (total_chunks (fst s)) "Sending"])
           (snd s))
    else
      (set_transfer_active false a1,
       set_ui (ui (snd s) ++ [HideProgress])
         (set_log (log (snd s) ++ [LogTransferComplete]) (snd s)))
  else s.

(** ** Notions for the end-to-end statements *)

(** The packets in which a receiver sees what [send_next_chunk] emits
    when the sender, in state [s], is at chunk [i]. *)
Definition sent_chunk (from : string) (s : State) (i : Z) : list Packet :=
  map (fun m => text_packet from (fst m))
    (emitted send_next_chunk (set_current_chunk i (fst s), snd s)).

(** The same for the chunks [order], one after the other. *)
Definition sent_chunks (from : string) (s : State) (order : list Z)
  : list Packet :=
  flat_map (sent_chunk from s) order.

(** The buffer after the chunks [order] of [content] were stored. *)
Definition fill (content : list byte) (order : list Z)
    (buf : gmap Z (list byte)) : gmap Z (list byte) :=
  fold_left (fun b i => <[i := chunk_of content i]> b) order buf.

(** The bytes of a buffer at the indices [1..total], in index order,
    an absent index counting as empty. *)
Definition assemble (buf : gmap Z (list byte)) (total : Z) : list byte :=
  concat (map (fun k => default [] (buf !! k)) (seqZ 1 total)).

(** The text of an inbound packet, when it is a text message. *)
Definition text_of (p : Packet) : option string :=
  match decoded p with
  | Some dec =>
      match portnum dec, payload dec with
      | Some port, Some (Text m) =>
          if String.eqb port "TEXT_MESSAGE_APP" then Some m else None
      | _, _ => None
      end
  | None => None
  end.

(** Whether an inbound packet goes to the request branch. *)
Definition is_request (p : Packet) : bool :=
  match text_of p with
  | Some m => Py.startswith m "MESHZ_REQ"
  | None => false
  end.

(** A sender in the middle of a transfer of the file [content]: active,
    at a chunk index of at least 1, the selected file readable. *)
Definition sending (content : list byte) (s : State) : Prop :=
  transfer_active (fst s) = true /\
  1 <= current_chunk (fst s) /\
  exists path, selected_file_path (fst s) = Some path /\
               disk (snd s) !! path = Some content.

(** The frame that carries the current chunk of [content]. *)
Definition current_frame (content : list byte) (s : State)
  : string * option string :=
  (chunk_frame (current_chunk (fst s))
     (chunk_of content (current_chunk (fst s))),
   target_node_id (fst s)).

(** The data frames of the chunks [order] of a file. *)
Definition chunk_packets (from : string) (content : list byte)
    (order : list Z) : list Packet :=
  map (fun i => text_packet from (chunk_frame i (chunk_of content i))) order.

(** Every character the encoder writes is a plain one: ASCII, and not
    the field delimiter. *)
Definition plain (c : ascii) : bool :=
  Base64.is_ascii c && negb (Ascii.eqb c "|"%char).

Fixpoint all_plain (s : string) : bool :=
  match s with
  | EmptyString => true
  | String c s' => plain c && all_plain s'
  end.

(** ** Example states *)

(** A sender with two files on disk: one of 256 bytes, one of 240 bytes
    (twice the chunk size). *)
Definition ex_content : list byte :=
  list_byte_of_string
    (Base64.alphabet ++ Base64.alphabet ++ Base64.alphabet ++ Base64.alphabet).

Definition ex_exact : list byte := take 240 ex_content.

Definition ex_sender_world : World :=
  {| now := 100;
     disk := {[ "docs/a.bin" := ex_content; "docs/b.bin" := ex_exact ]};
     downloads_ok := true; outbox := []; log := []; ui := [] |}.

(** The user picked the 256-byte file and the peer [!r]. *)
Definition ex_sender : State :=
  exec (on_data_table_row_selected "!r")
    (exec (on_directory_tree_file_selected "docs/a.bin")
       (initial_app, ex_sender_world)).

(** ... pressed SEND ... *)
Definition ex_requested : State := exec handle_send_request ex_sender.

(** ... the peer acknowledged the request (chunk 1 is on its way) ... *)
Definition ex_sending1 : State :=
  exec (on_packet_received (text_packet "!r" ack_frame)) ex_requested.

(** ... and acknowledged chunk 1 (chunk 2 is on its way). *)
Definition ex_sending2 : State :=
  exec (on_packet_received (text_packet "!r" (chunk_ack_frame 1))) ex_sending1.

(** The state in which chunk 1 was sent for the first time: the state
    [ex_sending1] before the sending itself. *)
Definition ex_requested_acked : State :=
  (set_retry_count 0
     (set_last_ack_time 100 (set_current_chunk 1 (fst ex_requested))),
   snd ex_requested).

(** The same sender with the 240-byte file picked. *)
Definition ex_sender_exact : State :=
  exec (on_directory_tree_file_selected "docs/b.bin") ex_sender.

(** A receiver that has seen nothing yet. *)
Definition ex_receiver : State :=
  (initial_app,
   {| now := 100; disk := ∅; downloads_ok := true;
      outbox := []; log := []; ui := [] |}).

(** The receiver after the request of [ex_sender] reached it. *)
Definition ex_receiving3 : State :=
  deliver (map (fun m => text_packet "!s" (fst m))
             (emitted handle_send_request ex_sender)) ex_receiver.

(** The receiver after a request that declares two chunks. *)
Definition ex_receiving2 : State :=
  exec (on_packet_received (text_packet "!s" "MESHZ_REQ|f.bin|6|2")) ex_receiver.

(** ** Notions for the further properties *)

(** The attributes of the sending side of [self]. *)
Definition sender_part (a : App)
  : option string * option string * Z * Z * bool * Z * Z :=
  (target_node_id a, selected_file_path a, current_chunk a, total_chunks a,
   transfer_active a, last_ack_time a, retry_count a).

(** The attributes of the receiving side of [self]. *)
Definition receiver_part (a : App)
  : option string * Z * gmap Z (list byte) :=
  (receiving_file_name a, receiving_total_chunks a, receive_buffer a).

(** The texts among [frames] that are addressed to [peer]. *)
Definition addressed (peer : string) (frames : list (string * option string))
  : list string :=
  map fst (List.filter (fun m => same_peer (snd m) (Some peer)) frames).

(** One turn of a link that loses nothing, between a sending application
    [snd_st] known as [sid] and a receiving one [rcv_st] known as [rid]:
    the text [m] reaches the receiver; what the receiver answers to [sid]
    reaches the sender; the result holds the texts that the sender then
    addresses to [rid], and both states. *)
Definition turn (sid rid : string) (m : string) (snd_st rcv_st : State)
  : list string * State * State :=
  let inbound := on_packet_received (text_packet sid m) in
  let replies := addressed sid (emitted inbound rcv_st) in
  let answer : M unit :=
    fun st => (Ret tt, deliver (map (text_packet rid) replies) st) in
  (addressed rid (emitted answer snd_st), exec answer snd_st,
   exec inbound rcv_st).

(** Turns of the link until nothing is in flight, at most [fuel] of
    them. *)
Fixpoint exchange (fuel : nat) (sid rid : string) (inflight : list string)
    (snd_st rcv_st : State) : State * State :=
  match fuel, inflight with
  | S fuel', m :: rest =>
      let '(new, snd_st', rcv_st') := turn sid rid m snd_st rcv_st in
      exchange fuel' sid rid (rest ++ new)%list snd_st' rcv_st'
  | _, _ => (snd_st, rcv_st)
  end.

(** The user presses SEND, and the link carries the texts to and fro. *)
Definition transfer (fuel : nat) (sid rid : string) (snd_st rcv_st : State)
  : State * State :=
  exchange fuel sid rid
    (addressed rid (emitted handle_send_request snd_st))
    (exec handle_send_request snd_st) rcv_st.

(** The two applications in the middle of a transfer of the file at
    [path] with the bytes [content] to the peer [rid], chunk [k] being
    in flight: the sender is active at index [k]; the receiver knows the
    name and the count, holds the chunks before [k], and can write. *)
Definition in_step (rid path : string) (content : list byte) (k : Z)
    (snd_st rcv_st : State) : Prop :=
  let n := Z.of_nat (length content) / CHUNK_SIZE + 1 in
  transfer_active (fst snd_st) = true /\
  target_node_id (fst snd_st) = Some rid /\
  selected_file_path (fst snd_st) = Some path /\
  disk (snd snd_st) !! path = Some content /\
  total_chunks (fst snd_st) = n /\
  current_chunk (fst snd_st) = k /\
  receive_buffer (fst rcv_st) = fill content (seqZ 1 (k - 1)) ∅ /\
  receiving_total_chunks (fst rcv_st) = n /\
  receiving_file_name (fst rcv_st) = Some (basename path) /\
  downloads_ok (snd rcv_st) = true.

(** ** Further example states *)

(** The sender after the peer acknowledged chunk 2 as well (chunk 3, the
    last one, is on its way). *)
Definition ex_sending3 : State :=
  exec (on_packet_received (text_packet "!r" (chunk_ack_frame 2))) ex_sending2.

(** Another 256 bytes: those of [ex_content] back to front. *)
Definition ex_other : list byte := rev ex_content.

(** The state [s] with the bytes [content] in the file at [path]. *)
Definition with_file (path : string) (content : list byte) (s : State)
  : State :=
  (fst s, set_disk (<[path := content]> (disk (snd s))) (snd s)).

(** A receiver that cannot create its output file, after a request that
    declares two chunks and after chunk 2 of them. *)
Definition ex_unwritable : State :=
  deliver [text_packet "!s" "MESHZ_REQ|f.bin|6|2"; text_packet "!s" "ZD|2|REVG"]
    (initial_app,
     {| now := 100; disk := ∅; downloads_ok := false;
        outbox := []; log := []; ui := [] |}).

(** * Checks of the primitives on samples *)

Example split_three : Py.split "|" "ZD|12|QUJD" = ["ZD"; "12"; "QUJD"].
Proof. reflexivity. Qed.

Example int_samples :
  map Py.int ["12"; " -7 "; "1_000"; "1__0"; "_1"; "1_"; ""; "+"; "007"; "12a"]
  = [Some 12; Some (-7); Some 1000; None; None; None; None; None; Some 7; None].
Proof. reflexivity. Qed.

Example str_samples : map Py.str [0; 7; 10; 120; -35; 1000] = ["0"; "7"; "10"; "120"; "-35"; "1000"].
Proof. reflexivity. Qed.

Example b64_samples :
  map (fun s => Base64.b64encode (list_byte_of_string s)) [""; "A"; "AB"; "ABC"; "ABCD"; "EFGH"]
  = [""; "QQ=="; "QUI="; "QUJD"; "QUJDRA=="; "RUZHSA=="].
Proof. reflexivity. Qed.

Example b64dec_samples :
  map Base64.b64decode [""; "QQ=="; "QUI="; "QUJD"; "QUJDRA=="; "Q"; "QQ"; "QQ="; "@@@"; "QU JD"]
  = [Some []; Some (list_byte_of_string "A"); Some (list_byte_of_string "AB");
     Some (list_byte_of_string "ABC"); Some (list_byte_of_string "ABCD");
     None; None; None; Some []; Some (list_byte_of_string "ABC")].
Proof. reflexivity. Qed.

(** * Facts about the text primitives *)

Module PyFacts.

Lemma all_below_spec (P : N -> bool) (k : nat) :
  all_below k P = true -> forall n, (n < N.of_nat k)%N -> P n = true.
Proof.
  induction k as [|k IH]; intros Hall n Hn.
  - lia.
  - cbn [all_below] in Hall. apply andb_prop in Hall as [Hk Hrest].
    destruct (N.eq_dec n (N.of_nat k)) as [->|Hne]; [exact Hk|].
    apply IH; [exact Hrest|lia].
Qed.

Lemma split_no_sep (sep : ascii) (s : string) :
  has_char sep s = false -> Py.split sep s = [s].
Proof.
  induction s as [|c s IH]; cbn; [reflexivity|].
  intros H. apply orb_false_elim in H as [Hc Hs].
  rewrite Hc, (IH Hs). reflexivity.
Qed.

Lemma split_app_sep (sep : ascii) (s1 s2 : string) :
  has_char sep s1 = false ->
  Py.split sep (s1 ++ String sep s2) = s1 :: Py.split sep s2.
Proof.
  induction s1 as [|c s1 IH]; cbn.
  - intros _. rewrite Ascii.eqb_refl. reflexivity.
  - intros H. apply orb_false_elim in H as [Hc Hs].
    rewrite Hc, (IH Hs). reflexivity.
Qed.

Lemma digit_of_digit_char (d : Z) :
  0 <= d < 10 -> Py.digit_of (Py.digit_char d) = Some d.
Proof.
  intros H.
  assert (d = 0 \/ d = 1 \/ d = 2 \/ d = 3 \/ d = 4 \/ d = 5 \/ d = 6 \/
          d = 7 \/ d = 8 \/ d = 9) as Hd by lia.
  repeat (destruct Hd as [->|Hd]; [reflexivity|]). subst d. reflexivity.
Qed.

Lemma digit_char_not_sep (d : Z) :
  0 <= d < 10 -> Ascii.eqb (Py.digit_char d) "|"%char = false.
Proof.
  intros H.
  assert (d = 0 \/ d = 1 \/ d = 2 \/ d = 3 \/ d = 4 \/ d = 5 \/ d = 6 \/
          d = 7 \/ d = 8 \/ d = 9) as Hd by lia.
  repeat (destruct Hd as [->|Hd]; [reflexivity|]). subst d. reflexivity.
Qed.

(** A digit is neither white space nor a sign. *)
Lemma digit_plain (c : ascii) (d : Z) :
  Py.digit_of c = Some d ->
  Py.is_space c = false /\ c <> "-"%char /\ c <> "+"%char.
Proof.
  destruct c as [[] [] [] [] [] [] [] []]; cbv; intros H;
    try discriminate H; repeat split; discriminate.
Qed.

(** Scanning the digits that [digits_fuel] wrote shifts them into the
    accumulator. *)
Lemma scan_digits_fuel (fuel : nat) :
  forall n acc, 0 <= n < 10 ^ Z.of_nat (S fuel) ->
  exists k, 0 <= k /\ forall a p,
    Py.scan_digits a p (Py.digits_fuel (S fuel) n acc)
    = Py.scan_digits (a * 10 ^ k + n) (Some true) acc.
Proof.
  induction fuel as [|f IH]; intros n acc Hn;
    cbn [Py.digits_fuel];
    assert (0 <= n mod 10 < 10) as Hd by (apply Z.mod_pos_bound; lia);
    pose proof (Z.div_mod n 10 ltac:(lia)) as Hdm;
    destruct (n / 10 =? 0) eqn:Hq.
  - apply Z.eqb_eq in Hq. exists 1. split; [lia|]. intros a p.
    cbn [Py.scan_digits]. rewrite (digit_of_digit_char _ Hd). f_equal. lia.
  - apply Z.eqb_neq in Hq. change (10 ^ Z.of_nat 1) with 10 in Hn. lia.
  - apply Z.eqb_eq in Hq. exists 1. split; [lia|]. intros a p.
    cbn [Py.scan_digits]. rewrite (digit_of_digit_char _ Hd). f_equal. lia.
  - assert (0 <= n / 10 < 10 ^ Z.of_nat (S f)) as Hn'.
    { split; [apply Z.div_pos; lia|].
      apply Z.div_lt_upper_bound; [lia|].
      replace (10 * 10 ^ Z.of_nat (S f)) with (10 ^ Z.of_nat (S (S f)));
        [lia|].
      rewrite (Nat2Z.inj_succ (S f)), Z.pow_succ_r; lia. }
    destruct (IH (n / 10) (String (Py.digit_char (n mod 10)) acc) Hn')
      as (k & Hk & Hscan).
    exists (k + 1). split; [lia|]. intros a p.
    rewrite Hscan. cbn [Py.scan_digits].
    rewrite (digit_of_digit_char _ Hd). f_equal.
    rewrite Z.pow_add_r by lia. lia.
Qed.

Lemma fuel_enough (n : Z) :
  0 <= n -> 0 <= n < 10 ^ Z.of_nat (S (Z.to_nat (Z.log2 n))).
Proof.
  intros Hn. split; [exact Hn|].
  rewrite Nat2Z.inj_succ, Z2Nat.id by apply Z.log2_nonneg.
  destruct (Z.eq_dec n 0) as [->|Hne].
  - cbn. lia.
  - assert (n < 2 ^ Z.succ (Z.log2 n)) by (apply Z.log2_spec; lia).
    assert (2 ^ Z.succ (Z.log2 n) <= 10 ^ Z.succ (Z.log2 n)).
    { apply Z.pow_le_mono_l. lia. }
    lia.
Qed.

(** What [digits_fuel] writes starts with a digit, once it writes. *)
Lemma digits_fuel_head (fuel : nat) :
  forall n acc,
  (fuel <> O \/ exists c r d, acc = String c r /\ Py.digit_of c = Some d) ->
  exists c r d,
    Py.digits_fuel fuel n acc = String c r /\ Py.digit_of c = Some d.
Proof.
  induction fuel as [|f IH]; intros n acc H.
  - destruct H as [H|H]; [congruence|exact H].
  - cbn [Py.digits_fuel].
    assert (0 <= n mod 10 < 10) as Hd by (apply Z.mod_pos_bound; lia).
    destruct (n / 10 =? 0).
    + eexists _, _, _. split; [reflexivity|]. apply digit_of_digit_char, Hd.
    + apply IH. right. eexists _, _, _. split; [reflexivity|].
      apply digit_of_digit_char, Hd.
Qed.

Lemma int_str_nonneg (n : Z) : 0 <= n -> Py.int (Py.str_nonneg n) = Some n.
Proof.
  intros Hn. unfold Py.str_nonneg.
  destruct (scan_digits_fuel _ n EmptyString (fuel_enough n Hn))
    as (k & Hk & Hscan).
  destruct (digits_fuel_head (S (Z.to_nat (Z.log2 n))) n EmptyString)
    as (c & r & d & Heq & Hc); [left; discriminate|].
  unfold Py.int. rewrite Heq in *.
  destruct (digit_plain c d Hc) as (Hsp & Hm & Hp).
  cbn [Py.lstrip]. rewrite Hsp.
  assert ((let '(sign, s2) :=
             match String c r with
             | String "-"%char r0 => (-1, r0)
             | String "+"%char r0 => (1, r0)
             | _ => (1, String c r)
             end in
           match Py.scan_digits 0 None s2 with
           | Some (v, rest) =>
               match Py.lstrip rest with
               | EmptyString => Some (sign * v)
               | _ => None
               end
           | None => None
           end) = Some n) as Hgoal; [|exact Hgoal].
  assert (match String c r with
          | String "-"%char r0 => (-1, r0)
          | String "+"%char r0 => (1, r0)
          | _ => (1, String c r)
          end = (1, String c r)) as ->.
  { clear -Hm Hp. destruct c as [[] [] [] [] [] [] [] []];
      try reflexivity; congruence. }
  rewrite Hscan. cbn. f_equal. lia.
Qed.

(** [int(str(n)) == n]: the index written into a frame is the index read
    from it. *)
Lemma int_str (n : Z) : Py.int (Py.str n) = Some n.
Proof.
  unfold Py.str. destruct (n <? 0) eqn:Hneg.
  - apply Z.ltb_lt in Hneg.
    pose proof (int_str_nonneg (- n) ltac:(lia)) as H.
    unfold Py.int in *. cbn [Py.lstrip].
    change (Py.is_space "-"%char) with false. cbv iota.
    unfold Py.str_nonneg in *.
    destruct (digits_fuel_head (S (Z.to_nat (Z.log2 (- n)))) (- n) EmptyString)
      as (c & r & d & Heq & Hc); [left; discriminate|].
    rewrite Heq in *.
    destruct (digit_plain c d Hc) as (Hsp & Hm & Hp).
    cbn [Py.lstrip] in H. rewrite Hsp in H.
    assert (match String c r with
            | String "-"%char r0 => (-1, r0)
            | String "+"%char r0 => (1, r0)
            | _ => (1, String c r)
            end = (1, String c r)) as Hsign.
    { clear -Hm Hp. destruct c as [[] [] [] [] [] [] [] []];
        try reflexivity; congruence. }
    rewrite Hsign in H.
    destruct (Py.scan_digits 0 None (String c r)) as [[v rest]|];
      [|discriminate].
    destruct (Py.lstrip rest); [|discriminate].
    injection H as H. f_equal. lia.
  - apply Z.ltb_ge in Hneg. apply int_str_nonneg, Hneg.
Qed.

Lemma digits_fuel_no_sep (fuel : nat) :
  forall n acc,
  has_char "|" (Py.digits_fuel fuel n acc) = has_char "|" acc.
Proof.
  induction fuel as [|f IH]; intros n acc; [reflexivity|].
  cbn [Py.digits_fuel].
  assert (0 <= n mod 10 < 10) as Hd by (apply Z.mod_pos_bound; lia).
  destruct (n / 10 =? 0).
  - cbn [has_char]. rewrite (digit_char_not_sep _ Hd). reflexivity.
  - rewrite IH. cbn [has_char]. rewrite (digit_char_not_sep _ Hd). reflexivity.
Qed.

Lemma str_no_sep (n : Z) : has_char "|" (Py.str n) = false.
Proof.
  unfold Py.str, Py.str_nonneg.
  destruct (n <? 0); cbn [has_char]; rewrite digits_fuel_no_sep; reflexivity.
Qed.

End PyFacts.

(** * Facts about Base64 *)

Module Base64Facts.
Import Base64.

Lemma list_ind3 {A} (P : list A -> Prop) :
  P [] -> (forall a, P [a]) -> (forall a b, P [a; b]) ->
  (forall a b c l, P l -> P (a :: b :: c :: l)) ->
  forall l, P l.
Proof.
  intros H0 H1 H2 H3 l.
  assert (forall n (l : list A), (length l <= n)%nat -> P l) as Hall.
  { clear l. induction n as [|n IH]; intros l Hl.
    - destruct l; [exact H0|cbn in Hl; lia].
    - destruct l as [|a [|b [|c l]]]; auto.
      apply H3, IH. cbn in Hl. lia. }
  apply (Hall (length l)). lia.
Qed.

Lemma get_has_char (s : string) :
  forall k c, String.get k s = Some c -> has_char c s = true.
Proof.
  induction s as [|d s IH]; intros k c H; [destruct k; discriminate|].
  destruct k as [|k]; cbn in *.
  - injection H as ->. rewrite Ascii.eqb_refl. reflexivity.
  - rewrite (IH _ _ H). apply orb_true_r.
Qed.

Lemma all_plain_has_char (s : string) (c : ascii) :
  all_plain s = true -> has_char c s = true -> plain c = true.
Proof.
  induction s as [|d s IH]; cbn; [discriminate|].
  intros Hp Hc. apply andb_prop in Hp as [Hd Hs].
  apply orb_prop in Hc as [Hc|Hc]; [|exact (IH Hs Hc)].
  apply Ascii.eqb_eq in Hc. subst d. exact Hd.
Qed.

Lemma table_b2a_plain (n : N) : plain (table_b2a n) = true.
Proof.
  unfold table_b2a.
  destruct (String.get (N.to_nat n) alphabet) as [c|] eqn:Hget;
    [|reflexivity].
  apply (all_plain_has_char alphabet); [reflexivity|].
  exact (get_has_char _ _ _ Hget).
Qed.

Lemma all_plain_spec (s : string) :
  all_plain s = true -> all_ascii s = true /\ has_char "|" s = false.
Proof.
  induction s as [|c s IH]; cbn; [auto|].
  intros H. apply andb_prop in H as [Hc Hs].
  destruct (IH Hs) as [Ha Hn]. unfold plain in Hc.
  apply andb_prop in Hc as [Hc1 Hc2]. apply negb_true_iff in Hc2.
  rewrite Hc1, Ha, Hc2, Hn. auto.
Qed.

Lemma b2a_all_plain (bs : list byte) : all_plain (b2a bs) = true.
Proof.
  induction bs as [| a | a b | a b c l IH] using list_ind3;
    cbn [b2a all_plain]; rewrite ?table_b2a_plain, ?IH; reflexivity.
Qed.

Lemma b64encode_ascii (bs : list byte) : all_ascii (b64encode bs) = true.
Proof. apply all_plain_spec, b2a_all_plain. Qed.

Lemma b64encode_no_sep (bs : list byte) :
  has_char "|" (b64encode bs) = false.
Proof. apply all_plain_spec, b2a_all_plain. Qed.

(** The two tables are inverse on the sixty-four values, and no value is
    written as the padding character. *)
Lemma table_roundtrip (n : N) :
  (n < 64)%N ->
  table_a2b (table_b2a n) = Some n /\
  Ascii.eqb (table_b2a n) "="%char = false.
Proof.
  intros Hn.
  pose proof (PyFacts.all_below_spec
    (fun n => match table_a2b (table_b2a n) with
              | Some m => N.eqb m n
              | None => false
              end && negb (Ascii.eqb (table_b2a n) "="%char)) 64
    ltac:(vm_compute; reflexivity) n Hn) as H.
  cbv beta in H. apply andb_prop in H as [H1 H2].
  apply negb_true_iff in H2. split; [|exact H2].
  destruct (table_a2b (table_b2a n)) as [m|]; [|discriminate].
  apply N.eqb_eq in H1. congruence.
Qed.

(** The bit arithmetic, checked on all bytes. *)
Lemma sextet_bounds (a b : N) :
  (a < 256)%N -> (b < 256)%N ->
  (sextet1 a < 64 /\ sextet2 a b < 64 /\ sextet3 a b < 64 /\ sextet4 a < 64)%N.
Proof.
  intros Ha Hb.
  pose proof (PyFacts.all_below_spec
    (fun a => all_below 256 (fun b =>
       (sextet1 a <? 64) && (sextet2 a b <? 64) &&
       (sextet3 a b <? 64) && (sextet4 a <? 64))%N) 256
    ltac:(vm_compute; reflexivity) a Ha) as H.
  cbv beta in H. pose proof (PyFacts.all_below_spec _ _ H b Hb) as H'.
  cbv beta in H'.
  repeat (apply andb_prop in H' as [H' ?]).
  repeat split; apply N.ltb_lt; assumption.
Qed.

Lemma first_byte (a b : N) :
  (a < 256)%N -> (b < 256)%N ->
  N.lor (N.shiftl (sextet1 a) 2) (N.shiftr (sextet2 a b) 4) = a /\
  N.land (sextet2 a b) 15 = N.shiftr b 4.
Proof.
  intros Ha Hb.
  pose proof (PyFacts.all_below_spec
    (fun a => all_below 256 (fun b =>
       (N.lor (N.shiftl (sextet1 a) 2) (N.shiftr (sextet2 a b) 4) =? a) &&
       (N.land (sextet2 a b) 15 =? N.shiftr b 4))%N) 256
    ltac:(vm_compute; reflexivity) a Ha) as H.
  cbv beta in H. pose proof (PyFacts.all_below_spec _ _ H b Hb) as H'.
  cbv beta in H'. apply andb_prop in H' as [H1 H2].
  split; apply N.eqb_eq; assumption.
Qed.

Lemma second_byte (b c : N) :
  (b < 256)%N -> (c < 256)%N ->
  N.lor (N.shiftl (N.shiftr b 4) 4) (N.shiftr (sextet3 b c) 2) = b /\
  N.land (sextet3 b c) 3 = N.shiftr c 6.
Proof.
  intros Hb Hc.
  pose proof (PyFacts.all_below_spec
    (fun b => all_below 256 (fun c =>
       (N.lor (N.shiftl (N.shiftr b 4) 4) (N.shiftr (sextet3 b c) 2) =? b) &&
       (N.land (sextet3 b c) 3 =? N.shiftr c 6))%N) 256
    ltac:(vm_compute; reflexivity) b Hb) as H.
  cbv beta in H. pose proof (PyFacts.all_below_spec _ _ H c Hc) as H'.
  cbv beta in H'. apply andb_prop in H' as [H1 H2].
  split; apply N.eqb_eq; assumption.
Qed.

Lemma third_byte (c : N) :
  (c < 256)%N -> N.lor (N.shiftl (N.shiftr c 6) 6) (sextet4 c) = c.
Proof.
  intros Hc.
  pose proof (PyFacts.all_below_spec
    (fun c => N.lor (N.shiftl (N.shiftr c 6) 6) (sextet4 c) =? c)%N 256
    ltac:(vm_compute; reflexivity) c Hc) as H.
  apply N.eqb_eq. exact H.
Qed.

Lemma byte_of_to_N (x : byte) : byte_of_N (Byte.to_N x) = x.
Proof.
  unfold byte_of_N. pose proof (Byte.to_N_bounded x).
  rewrite N.mod_small by lia. rewrite Byte.of_to_N. reflexivity.
Qed.

(** One data character moves the decoder one place on in its group. *)
Lemma a2b_step (n : N) (rest : string) (quad_pos leftchar pads : N)
    (out : list byte) :
  (n < 64)%N ->
  a2b_loop (String (table_b2a n) rest) quad_pos leftchar pads out =
  match quad_pos with
  | 0%N => a2b_loop rest 1%N n 0%N out
  | 1%N =>
      a2b_loop rest 2%N (N.land n 15) 0%N
        (out ++ [byte_of_N (N.lor (N.shiftl leftchar 2) (N.shiftr n 4))])
  | 2%N =>
      a2b_loop rest 3%N (N.land n 3) 0%N
        (out ++ [byte_of_N (N.lor (N.shiftl leftchar 4) (N.shiftr n 2))])
  | _ =>
      a2b_loop rest 0%N 0%N 0%N
        (out ++ [byte_of_N (N.lor (N.shiftl leftchar 6) n)])
  end.
Proof.
  intros Hn. destruct (table_roundtrip n Hn) as [Hval Hpad].
  cbn [a2b_loop]. rewrite Hpad, Hval. reflexivity.
Qed.

(** Decoding what the encoder wrote gives the bytes back, from any state
    at a group boundary. *)
Lemma a2b_b2a (bs : list byte) :
  forall leftchar pads out,
  a2b_loop (b2a bs) 0%N leftchar pads out = Some (out ++ bs)%list.
Proof.
  induction bs as [| a | a b | a b c l IH] using list_ind3;
    intros leftchar pads out.
  - cbn. rewrite app_nil_r. reflexivity.
  - cbn [b2a].
    pose proof (Byte.to_N_bounded a) as Ha.
    destruct (sextet_bounds (Byte.to_N a) 0 ltac:(lia) ltac:(lia))
      as (H1 & H2 & _ & _).
    destruct (first_byte (Byte.to_N a) 0 ltac:(lia) ltac:(lia)) as [Hb1 _].
    rewrite (a2b_step _ _ _ _ _ _ H1), (a2b_step _ _ _ _ _ _ H2).
    rewrite Hb1, byte_of_to_N. reflexivity.
  - cbn [b2a].
    pose proof (Byte.to_N_bounded a) as Ha.
    pose proof (Byte.to_N_bounded b) as Hb.
    destruct (sextet_bounds (Byte.to_N a) (Byte.to_N b) ltac:(lia) ltac:(lia))
      as (H1 & H2 & _ & _).
    destruct (sextet_bounds (Byte.to_N b) 0 ltac:(lia) ltac:(lia))
      as (_ & _ & H3 & _).
    destruct (first_byte (Byte.to_N a) (Byte.to_N b) ltac:(lia) ltac:(lia))
      as [Hb1 Hl1].
    destruct (second_byte (Byte.to_N b) 0 ltac:(lia) ltac:(lia)) as [Hb2 _].
    rewrite (a2b_step _ _ _ _ _ _ H1), (a2b_step _ _ _ _ _ _ H2),
      (a2b_step _ _ _ _ _ _ H3).
    rewrite Hb1, Hl1, Hb2, !byte_of_to_N, <- app_assoc. reflexivity.
  - cbn [b2a].
    pose proof (Byte.to_N_bounded a) as Ha.
    pose proof (Byte.to_N_bounded b) as Hb.
    pose proof (Byte.to_N_bounded c) as Hc.
    destruct (sextet_bounds (Byte.to_N a) (Byte.to_N b) ltac:(lia) ltac:(lia))
      as (H1 & H2 & _ & _).
    destruct (sextet_bounds (Byte.to_N b) (Byte.to_N c) ltac:(lia) ltac:(lia))
      as (_ & _ & H3 & _).
    destruct (sextet_bounds (Byte.to_N c) 0 ltac:(lia) ltac:(lia))
      as (_ & _ & _ & H4).
    destruct (first_byte (Byte.to_N a) (Byte.to_N b) ltac:(lia) ltac:(lia))
      as [Hb1 Hl1].
    destruct (second_byte (Byte.to_N b) (Byte.to_N c) ltac:(lia) ltac:(lia))
      as [Hb2 Hl2].
    pose proof (third_byte (Byte.to_N c) ltac:(lia)) as Hb3.
    rewrite (a2b_step _ _ _ _ _ _ H1), (a2b_step _ _ _ _ _ _ H2),
      (a2b_step _ _ _ _ _ _ H3), (a2b_step _ _ _ _ _ _ H4).
    rewrite Hb1, Hl1, Hb2, Hl2, Hb3, !byte_of_to_N, IH, <- !app_assoc.
    reflexivity.
Qed.

(** [b64decode(b64encode(raw)) == raw] *)
Lemma b64decode_b64encode (raw : list byte) :
  b64decode (b64encode raw) = Some raw.
Proof.
  unfold b64decode. rewrite b64encode_ascii.
  unfold b64encode. rewrite a2b_b2a. reflexivity.
Qed.

End Base64Facts.

(** * The wire frames, written and read back *)

Module FrameFacts.

Lemma split_chunk_frame (i : Z) (raw : list byte) :
  Py.split "|" (chunk_frame i raw) = ["ZD"; Py.str i; Base64.b64encode raw].
Proof.
  unfold chunk_frame. cbn.
  rewrite PyFacts.split_app_sep by apply PyFacts.str_no_sep.
  rewrite PyFacts.split_no_sep by apply Base64Facts.b64encode_no_sep.
  reflexivity.
Qed.

Lemma split_chunk_ack_frame (i : Z) :
  Py.split "|" (chunk_ack_frame i) = ["MESHZ_GOCONT"; Py.str i].
Proof.
  unfold chunk_ack_frame. cbn.
  rewrite PyFacts.split_no_sep by apply PyFacts.str_no_sep.
  reflexivity.
Qed.

Lemma startswith_app (p s : string) : Py.startswith (p ++ s) p = true.
Proof.
  unfold Py.startswith. induction p as [|c p IH]; cbn.
  - destruct s; reflexivity.
  - destruct (ascii_dec c c) as [_|Hne]; [exact IH|congruence].
Qed.

Lemma chunk_frame_kind (i : Z) (raw : list byte) :
  Py.startswith (chunk_frame i raw) "MESHZ_REQ" = false /\
  Py.startswith (chunk_frame i raw) "ZD|" = true.
Proof. split; [reflexivity|apply startswith_app]. Qed.

Lemma chunk_ack_frame_kind (i : Z) :
  Py.startswith (chunk_ack_frame i) "MESHZ_REQ" = false /\
  Py.startswith (chunk_ack_frame i) "ZD|" = false /\
  String.eqb (chunk_ack_frame i) "MESHZ_ACK" = false /\
  Py.startswith (chunk_ack_frame i) "MESHZ_GOCONT|" = true.
Proof.
  repeat split; try reflexivity. apply startswith_app.
Qed.

End FrameFacts.

(** * Stepping through the handlers *)

#[local] Arguments Py.str : simpl never.
#[local] Arguments Py.int : simpl never.
#[local] Arguments Py.split : simpl never.
#[local] Arguments Base64.b64encode : simpl never.
#[local] Arguments Base64.b64decode : simpl never.

Lemma text_packet_body (sender msg : string) (s : State) :
  packet_body (text_packet sender msg) s = on_text (Some sender) msg s.
Proof. reflexivity. Qed.

Ltac mstep :=
  cbv [bind ret raise orelse item self assign env effect time sendText
       update_progress hide_progress log_message try_except];
  cbn [fst snd].

Lemma send_next_chunk_eq (s : State) :
  send_next_chunk s = (Ret tt, after_send s).
Proof.
  destruct s as [a w].
  unfold send_next_chunk, after_send, read_current_chunk, open_rb, seek_read,
    chunk_of.
  mstep.
  destruct (selected_file_path a) as [p|]; mstep; [|reflexivity].
  destruct (disk w !! p) as [f|]; mstep; [|reflexivity].
  destruct ((current_chunk a - 1) * CHUNK_SIZE <? 0); reflexivity.
Qed.

Lemma handle_timeout_eq (s : State) :
  handle_timeout s = (Ret tt, after_timeout s).
Proof.
  destruct s as [a w]. unfold handle_timeout, after_timeout.
  mstep. destruct (retry_count a <? MAX_RETRIES); mstep.
  - rewrite send_next_chunk_eq. destruct a, w. reflexivity.
  - destruct a, w. reflexivity.
Qed.

Lemma watch_tick_eq (s : State) :
  watch_tick s = (Ret tt, if expired s then after_timeout s else s).
Proof.
  destruct s as [a w]. unfold watch_tick, expired.
  mstep.
  destruct (transfer_active a); cbn [andb]; [|reflexivity].
  destruct (0 <? current_chunk a); cbn [andb]; [|reflexivity].
  mstep.
  destruct (TIMEOUT_SECONDS <? now w - last_ack_time a); [|reflexivity].
  apply handle_timeout_eq.
Qed.

Lemma write_chunks_eq (path : string) (count : nat) :
  forall first a w cur,
  disk w !! path = Some cur ->
  write_chunks path first count (a, w) =
  let '(bytes, ok) := gather (receive_buffer a) first count in
  (if ok then Ret tt else Raise KeyError,
   (a, set_disk (<[path := (cur ++ bytes)%list]> (disk w)) w)).
Proof.
  induction count as [|n IH]; intros first a w cur Hcur.
  - cbn. rewrite app_nil_r, insert_id by exact Hcur. destruct w; reflexivity.
  - cbn [write_chunks gather]. mstep.
    destruct (receive_buffer a !! first) as [data|]; mstep.
    + rewrite Hcur. cbn [default].
      rewrite (IH (first + 1) a _ (cur ++ data)%list).
      * destruct (gather (receive_buffer a) (first + 1) n) as [rest ok].
        destruct w; cbn. rewrite insert_insert_eq, app_assoc. reflexivity.
      * destruct w; cbn. apply lookup_insert_eq.
    + rewrite app_nil_r, insert_id by exact Hcur. destruct w; reflexivity.
Qed.

Lemma save_received_file_eq (s : State) :
  save_received_file s = (Ret tt, after_save s).
Proof.
  destruct s as [a w]. unfold save_received_file, after_save, open_wb.
  mstep. destruct (downloads_ok w); mstep; [|reflexivity].
  rewrite (write_chunks_eq _ _ _ _ _ []).
  - destruct (gather _ _ _) as [bytes [|]]; mstep;
      destruct w; cbn; rewrite insert_insert_eq; reflexivity.
  - destruct w; cbn. apply lookup_insert_eq.
Qed.

Lemma on_data_chunk_eq (sender : option string) (msg : string) (s : State) :
  on_data_chunk sender msg s =
  match parse_data_chunk msg with
  | Raise e => (Raise e, s)
  | Ret (c_num, raw) => (Ret tt, after_data_chunk sender c_num raw s)
  end.
Proof.
  destruct s as [a w]. unfold on_data_chunk, parse_data_chunk, after_data_chunk.
  mstep.
  destruct (nth_error (Py.split "|" msg) 1) as [field|]; mstep; [|reflexivity].
  destruct (Py.int field) as [c_num|]; mstep; [|reflexivity].
  destruct (nth_error (Py.split "|" msg) 2) as [c_data|]; mstep; [|reflexivity].
  destruct (Base64.b64decode c_data) as [raw|]; mstep; [|reflexivity].
  cbn [receive_buffer receiving_total_chunks set_receive_buffer].
  destruct (Z.of_nat (size (<[c_num:=raw]> (receive_buffer a)))
            =? receiving_total_chunks a); mstep; [|reflexivity].
  rewrite save_received_file_eq. reflexivity.
Qed.

Lemma on_request_eq (sender : option string) (msg : string) (s : State) :
  on_request sender msg s = after_request sender msg s.
Proof.
  destruct s as [a w]. unfold on_request, after_request.
  mstep.
  destruct (nth_error (Py.split "|" msg) 1) as [name|]; mstep; [|reflexivity].
  destruct (nth_error (Py.split "|" msg) 3) as [field|]; mstep; [|reflexivity].
  destruct (Py.int field) as [total|]; mstep; reflexivity.
Qed.

Lemma on_ack_eq (sender : option string) (s : State) :
  on_ack sender s = (Ret tt, after_ack sender s).
Proof.
  destruct s as [a w]. unfold on_ack, after_ack, accepts.
  mstep.
  destruct (transfer_active a && same_peer sender (target_node_id a));
    mstep; [|reflexivity].
  rewrite send_next_chunk_eq. reflexivity.
Qed.

Lemma on_chunk_ack_eq (sender : option string) (msg : string) (s : State) :
  on_chunk_ack sender msg s =
  if accepts sender s then
    match parse_chunk_ack msg with
    | Raise e => (Raise e, s)
    | Ret ack_num => (Ret tt, after_chunk_ack ack_num s)
    end
  else (Ret tt, s).
Proof.
  destruct s as [a w].
  unfold on_chunk_ack, accepts, parse_chunk_ack, after_chunk_ack.
  mstep.
  destruct (transfer_active a && same_peer sender (target_node_id a));
    mstep; [|reflexivity].
  destruct (nth_error (Py.split "|" msg) 1) as [field|]; mstep; [|reflexivity].
  destruct (Py.int field) as [ack_num|]; mstep; [|reflexivity].
  destruct (ack_num =? current_chunk a); mstep; [|reflexivity].
  cbn [current_chunk total_chunks set_current_chunk set_retry_count
       set_last_ack_time].
  destruct (current_chunk a + 1 <=? total_chunks a); mstep; [|reflexivity].
  rewrite send_next_chunk_eq. reflexivity.
Qed.

Lemma on_packet_received_returns (p : Packet) (s : State) :
  fst (on_packet_received p s) = Ret tt.
Proof.
  unfold on_packet_received, try_except.
  destruct (packet_body p s) as [[[]|e] s']; reflexivity.
Qed.

Lemma parse_chunk_frame (i : Z) (raw : list byte) :
  parse_data_chunk (chunk_frame i raw) = Ret (i, raw).
Proof.
  unfold parse_data_chunk. rewrite FrameFacts.split_chunk_frame.
  cbn [nth_error].
  rewrite PyFacts.int_str, Base64Facts.b64decode_b64encode. reflexivity.
Qed.

(** A data frame as the sender writes it is stored under its index. *)
Lemma deliver_chunk_frame (sender : string) (i : Z) (raw : list byte)
    (s : State) :
  on_packet_received (text_packet sender (chunk_frame i raw)) s =
  (Ret tt, after_data_chunk (Some sender) i raw s).
Proof.
  unfold on_packet_received, try_except.
  rewrite text_packet_body. unfold on_text.
  destruct (FrameFacts.chunk_frame_kind i raw) as [-> ->].
  rewrite on_data_chunk_eq, parse_chunk_frame. reflexivity.
Qed.

Lemma after_save_app (s : State) :
  fst (after_save s) = fst s /\
  outbox (snd (after_save s)) = outbox (snd s) /\
  ui (snd (after_save s)) = ui (snd s).
Proof.
  destruct s as [a w]. unfold after_save. cbn [fst snd].
  destruct (downloads_ok w); [|destruct w; auto].
  destruct (gather _ _ _) as [bytes ok]. destruct w; auto.
Qed.

Lemma after_data_chunk_app (sender : option string) (i : Z)
    (raw : list byte) (s : State) :
  fst (after_data_chunk sender i raw s)
  = set_receive_buffer (<[i := raw]> (receive_buffer (fst s))) (fst s).
Proof.
  unfold after_data_chunk.
  destruct (_ =? _); [|reflexivity].
  cbn [fst]. apply after_save_app.
Qed.

Lemma after_data_chunk_outbox (sender : option string) (i : Z)
    (raw : list byte) (s : State) :
  outbox (snd (after_data_chunk sender i raw s))
  = (outbox (snd s) ++ [(chunk_ack_frame i, sender)])%list.
Proof.
  unfold after_data_chunk.
  destruct (_ =? _).
  - cbn [snd]. destruct (after_save _) as [a' w'] eqn:Hsave.
    pose proof (after_save_app
      (set_receive_buffer (<[i := raw]> (receive_buffer (fst s))) (fst s),
       set_outbox (outbox (snd s) ++ [(chunk_ack_frame i, sender)])
         (set_ui (ui (snd s) ++
                  [Progress
                     (Z.of_nat (size (receive_buffer
                        (set_receive_buffer
                           (<[i := raw]> (receive_buffer (fst s))) (fst s)))))
                     (receiving_total_chunks
                        (set_receive_buffer
                           (<[i := raw]> (receive_buffer (fst s))) (fst s)))
                     "Receiving"]) (snd s)))) as (_ & Hout & _).
    rewrite Hsave in Hout. cbn [snd] in Hout.
    destruct w'; cbn in *. rewrite Hout. destruct s as [a [ ]]; reflexivity.
  - destruct s as [a [ ]]; reflexivity.
Qed.

Lemma emitted_app {A} (c : M A) (s : State) frames :
  outbox (snd (exec c s)) = (outbox (snd s) ++ frames)%list ->
  emitted c s = frames.
Proof.
  unfold emitted. intros ->. rewrite drop_app_length. reflexivity.
Qed.

(** ** Reassembly *)

Lemma concat_chunks (content : list byte) (n : nat) :
  concat (map (chunk_of content) (seqZ 1 (Z.of_nat n)))
  = take (n * Z.to_nat CHUNK_SIZE) content.
Proof.
  induction n as [|n IH]; [reflexivity|].
  rewrite seqZ_S, map_app, concat_app, IH. cbn [map concat].
  rewrite app_nil_r. unfold chunk_of.
  replace (Z.to_nat ((1 + Z.of_nat n - 1) * CHUNK_SIZE))
    with (n * Z.to_nat CHUNK_SIZE)%nat by (unfold CHUNK_SIZE; lia).
  rewrite take_take_drop. f_equal. lia.
Qed.

Lemma gather_complete (buf : gmap Z (list byte)) (n : nat) :
  forall first,
  (forall k, first <= k < first + Z.of_nat n -> is_Some (buf !! k)) ->
  gather buf first n
  = (concat (map (fun k => default [] (buf !! k)) (seqZ first (Z.of_nat n))),
     true).
Proof.
  induction n as [|n IH]; intros first Hall; [reflexivity|].
  cbn [gather].
  destruct (Hall first ltac:(lia)) as [data Hdata]. rewrite Hdata.
  rewrite IH by (intros k Hk; apply Hall; lia).
  rewrite (seqZ_cons first) by lia. cbn [map concat].
  rewrite Hdata. cbn [default].
  replace (Z.pred (Z.of_nat (S n))) with (Z.of_nat n) by lia.
  reflexivity.
Qed.

Lemma fill_snoc (content : list byte) (l : list Z) (i : Z) buf :
  fill content (l ++ [i]) buf = <[i := chunk_of content i]> (fill content l buf).
Proof. unfold fill. rewrite fold_left_app. reflexivity. Qed.

Lemma fill_lookup (content : list byte) (l : list Z) :
  forall buf i,
  fill content l buf !! i
  = if bool_decide (i ∈ l) then Some (chunk_of content i) else buf !! i.
Proof.
  induction l as [|x l IH] using rev_ind; intros buf i.
  - rewrite bool_decide_eq_false_2 by apply not_elem_of_nil. reflexivity.
  - rewrite fill_snoc, lookup_insert. case_decide as Hx.
    + subst x. rewrite bool_decide_eq_true_2; [reflexivity|].
      apply elem_of_app. right. apply list_elem_of_singleton. reflexivity.
    + rewrite IH. destruct (decide (i ∈ l)) as [Hin|Hnin].
      * rewrite !bool_decide_eq_true_2; [reflexivity| |assumption].
        apply elem_of_app. left. assumption.
      * rewrite !bool_decide_eq_false_2; [reflexivity| |assumption].
        rewrite elem_of_app, list_elem_of_singleton. intros [?|?]; congruence.
Qed.

Lemma fill_size (content : list byte) (l : list Z) :
  forall buf, NoDup l -> (forall i, i ∈ l -> buf !! i = None) ->
  size (fill content l buf) = (size buf + length l)%nat.
Proof.
  induction l as [|x l IH] using rev_ind; intros buf Hnd Hfresh.
  - cbn. lia.
  - apply NoDup_app in Hnd as (Hl & Hdisj & _).
    rewrite fill_snoc, map_size_insert_None.
    + rewrite IH, length_app; [cbn; lia|exact Hl|].
      intros i Hi. apply Hfresh, elem_of_app. left. exact Hi.
    + rewrite fill_lookup, bool_decide_eq_false_2.
      * apply Hfresh, elem_of_app. right.
        apply list_elem_of_singleton. reflexivity.
      * intros Hin. apply (Hdisj x Hin).
        apply list_elem_of_singleton. reflexivity.
Qed.

(** A delivery that completes the buffer writes the assembled file. *)
Lemma complete_delivery (sender : option string) (i : Z) (raw : list byte)
    (a : App) (w : World) :
  let buf := <[i := raw]> (receive_buffer a) in
  let total := receiving_total_chunks a in
  let path := save_path_of (receiving_file_name a) in
  Z.of_nat (size buf) = total ->
  (forall k, 1 <= k <= total -> is_Some (buf !! k)) ->
  downloads_ok w = true ->
  after_data_chunk sender i raw (a, w) =
  (set_receive_buffer buf a,
   set_ui (ui w ++ [Progress total total "Receiving"; HideProgress])
     (set_log (log w ++ [LogFileSaved path])
        (set_disk (<[path := assemble buf total]> (disk w))
           (set_outbox (outbox w ++ [(chunk_ack_frame i, sender)]) w)))).
Proof.
  intros buf total path Hsize Hall Hok.
  unfold after_data_chunk, after_save.
  cbn [fst snd receive_buffer receiving_total_chunks receiving_file_name
       set_receive_buffer].
  fold buf total path. rewrite Hsize, Z.eqb_refl.
  replace (downloads_ok (set_outbox _ _)) with true
    by (destruct w; cbn in *; congruence).
  rewrite gather_complete.
  - rewrite Z2Nat.id by (subst total; rewrite <- Hsize; lia).
    destruct w; cbn. rewrite <- app_assoc. reflexivity.
  - intros k Hk. apply Hall. lia.
Qed.

(** A delivery that does not bring the buffer to the declared count
    only stores and acknowledges. *)
Lemma incomplete_delivery (sender : option string) (i : Z) (raw : list byte)
    (a : App) (w : World) :
  let buf := <[i := raw]> (receive_buffer a) in
  Z.of_nat (size buf) <> receiving_total_chunks a ->
  after_data_chunk sender i raw (a, w) =
  (set_receive_buffer buf a,
   set_outbox (outbox w ++ [(chunk_ack_frame i, sender)])
     (set_ui (ui w ++ [Progress (Z.of_nat (size buf))
                         (receiving_total_chunks a) "Receiving"]) w)).
Proof.
  intros buf Hne. unfold after_data_chunk.
  cbn [fst snd receive_buffer receiving_total_chunks set_receive_buffer].
  fold buf. apply Z.eqb_neq in Hne. rewrite Hne. reflexivity.
Qed.

Lemma deliver_snoc (ps : list Packet) (p : Packet) (s : State) :
  deliver (ps ++ [p]) s = exec (on_packet_received p) (deliver ps s).
Proof. unfold deliver. rewrite fold_left_app. reflexivity. Qed.

Lemma deliver_chunks_partial (from : string) (content : list byte)
    (l : list Z) :
  forall a w,
  NoDup l ->
  (forall i, i ∈ l -> receive_buffer a !! i = None) ->
  Z.of_nat (size (receive_buffer a) + length l) < receiving_total_chunks a ->
  let s' := deliver (chunk_packets from content l) (a, w) in
  fst s' = set_receive_buffer (fill content l (receive_buffer a)) a /\
  disk (snd s') = disk w /\
  downloads_ok (snd s') = downloads_ok w /\
  log (snd s') = log w.
Proof.
  induction l as [|x l IH] using rev_ind; intros a w Hnd Hfresh Hlt s'.
  - subst s'. cbn. destruct a; auto.
  - subst s'. unfold chunk_packets. rewrite map_app. cbn [map].
    rewrite deliver_snoc. fold (chunk_packets from content l).
    pose proof Hnd as Hnd'. apply NoDup_app in Hnd' as (Hl & _ & _).
    rewrite length_app in Hlt. cbn [length] in Hlt.
    destruct (IH a w Hl) as (Hfst & Hdisk & Hok & Hlog).
    { intros i Hi. apply Hfresh, elem_of_app. left. exact Hi. }
    { lia. }
    destruct (deliver (chunk_packets from content l) (a, w)) as [a1 w1].
    cbn [fst snd] in *. subst a1.
    unfold exec. rewrite deliver_chunk_frame. cbn [snd].
    rewrite incomplete_delivery.
    + cbn [fst snd receive_buffer set_receive_buffer].
      rewrite fill_snoc. split; [destruct a; reflexivity|].
      destruct w1; cbn in *. auto.
    + cbn [receive_buffer receiving_total_chunks set_receive_buffer].
      rewrite <- fill_snoc, fill_size, length_app by assumption.
      cbn [length]. lia.
Qed.

Lemma sent_chunk_frame (from path : string) (content : list byte)
    (s : State) (i : Z) :
  selected_file_path (fst s) = Some path ->
  disk (snd s) !! path = Some content ->
  1 <= i ->
  sent_chunk from s i = [text_packet from (chunk_frame i (chunk_of content i))].
Proof.
  intros Hpath Hdisk Hi. unfold sent_chunk.
  rewrite (emitted_app _ _
    [(chunk_frame i (chunk_of content i), target_node_id (fst s))]);
    [reflexivity|].
  unfold exec. rewrite send_next_chunk_eq.
  unfold after_send, read_current_chunk.
  destruct s as [a w]. cbn [fst snd] in *.
  replace (selected_file_path (set_current_chunk i a)) with (Some path)
    by (destruct a; exact (eq_sym Hpath)).
  rewrite Hdisk.
  replace (current_chunk (set_current_chunk i a)) with i
    by (destruct a; reflexivity).
  replace ((i - 1) * CHUNK_SIZE <? 0) with false
    by (symmetry; apply Z.ltb_ge; unfold CHUNK_SIZE; lia).
  destruct a; reflexivity.
Qed.

Lemma sent_chunks_frames (from path : string) (content : list byte)
    (s : State) (order : list Z) :
  selected_file_path (fst s) = Some path ->
  disk (snd s) !! path = Some content ->
  (forall i, i ∈ order -> 1 <= i) ->
  sent_chunks from s order = chunk_packets from content order.
Proof.
  intros Hpath Hdisk. unfold sent_chunks, chunk_packets.
  induction order as [|i order IH]; intros Hpos; [reflexivity|].
  cbn [flat_map map].
  rewrite (sent_chunk_frame from path content) by
    (try assumption; apply Hpos; left).
  rewrite IH by (intros j Hj; apply Hpos; right; exact Hj).
  reflexivity.
Qed.

(** ** Timeouts *)

Lemma after_timeout_retry (content : list byte) (s : State) :
  sending content s ->
  retry_count (fst s) < MAX_RETRIES ->
  let s' := after_timeout s in
  sending content s' /\
  retry_count (fst s') = retry_count (fst s) + 1 /\
  current_frame content s' = current_frame content s /\
  last_ack_time (fst s') = last_ack_time (fst s) /\
  outbox (snd s') = (outbox (snd s) ++ [current_frame content s])%list.
Proof.
  intros (Hact & Hcur & path & Hpath & Hdisk) Hrc.
  destruct s as [a w]. cbn [fst snd] in *.
  unfold after_timeout, after_send, read_current_chunk, current_frame, sending.
  cbn [fst snd]. apply Z.ltb_lt in Hrc. rewrite Hrc.
  replace (selected_file_path (set_retry_count (retry_count a + 1) a))
    with (Some path) by (destruct a; exact (eq_sym Hpath)).
  replace (disk (set_log _ w) !! path) with (Some content)
    by (destruct w; exact (eq_sym Hdisk)).
  replace (current_chunk (set_retry_count (retry_count a + 1) a))
    with (current_chunk a) by (destruct a; reflexivity).
  replace ((current_chunk a - 1) * CHUNK_SIZE <? 0) with false
    by (symmetry; apply Z.ltb_ge; unfold CHUNK_SIZE; lia).
  destruct a, w; cbn in *. repeat split; try assumption; try reflexivity.
  exists path. split; assumption.
Qed.

Lemma after_send_keeps_chunk (s : State) :
  current_chunk (fst (after_send s)) = current_chunk (fst s).
Proof.
  unfold after_send. destruct (read_current_chunk s); [reflexivity|].
  destruct s as [[ ] ?]. reflexivity.
Qed.

Lemma after_timeout_keeps_chunk (s : State) :
  current_chunk (fst (after_timeout s)) = current_chunk (fst s).
Proof.
  unfold after_timeout. destruct (_ <? _).
  - rewrite after_send_keeps_chunk. destruct s as [[ ] ?]. reflexivity.
  - destruct s as [[ ] ?]. reflexivity.
Qed.

Lemma after_timeout_fail (s : State) :
  MAX_RETRIES <= retry_count (fst s) ->
  let s' := after_timeout s in
  transfer_active (fst s') = false /\
  retry_count (fst s') = retry_count (fst s) /\
  outbox (snd s') = outbox (snd s) /\
  log (snd s') = (log (snd s) ++ [LogMaxRetries])%list.
Proof.
  intros Hrc. destruct s as [a w]. cbn [fst snd] in *.
  unfold after_timeout. cbn [fst snd].
  apply Z.ltb_ge in Hrc. rewrite Hrc.
  destruct a, w; cbn. auto.
Qed.

Lemma timeouts_S (n : nat) (s : State) :
  timeouts (S n) s = after_timeout (timeouts n s).
Proof.
  change (timeouts (S n) s) with (exec handle_timeout (timeouts n s)).
  unfold exec. rewrite handle_timeout_eq. reflexivity.
Qed.

(** While retries remain, every expiry resends the chunk. *)
Lemma timeouts_retry (content : list byte) (s : State) (k : nat) :
  sending content s ->
  retry_count (fst s) + Z.of_nat k <= MAX_RETRIES ->
  let s' := timeouts k s in
  sending content s' /\
  retry_count (fst s') = retry_count (fst s) + Z.of_nat k /\
  current_frame content s' = current_frame content s /\
  last_ack_time (fst s') = last_ack_time (fst s) /\
  outbox (snd s') = (outbox (snd s) ++ repeat (current_frame content s) k)%list.
Proof.
  intros Hs. induction k as [|k IH]; intros Hrc s'; subst s'.
  - change (timeouts 0 s) with s. cbn [repeat]. rewrite app_nil_r.
    split; [exact Hs|]. repeat split. lia.
  - rewrite timeouts_S.
    destruct IH as (Hs' & Hrc' & Hfr & Hla & Hout); [lia|].
    destruct (after_timeout_retry content (timeouts k s) Hs')
      as (Hs2 & Hrc2 & Hfr2 & Hla2 & Hout2); [lia|].
    split; [exact Hs2|]. repeat split; try congruence; try lia.
    rewrite Hout2, Hout, Hfr, <- app_assoc. f_equal.
    change [current_frame content s] with (repeat (current_frame content s) 1).
    rewrite <- repeat_app. f_equal. lia.
Qed.

Lemma at_time_sending (content : list byte) (t : Z) (s : State) :
  sending content s -> sending content (at_time t s).
Proof.
  intros (Hact & Hcur & path & Hpath & Hdisk).
  destruct s as [a w]. unfold at_time, sending. cbn [fst snd] in *.
  repeat split; try assumption. exists path. split; [assumption|].
  destruct w; exact Hdisk.
Qed.

(** A round of the watchdog on a session that is not active does
    nothing. *)
Lemma watch_tick_inactive (s : State) :
  transfer_active (fst s) = false -> exec watch_tick s = s.
Proof.
  intros H. unfold exec. rewrite watch_tick_eq. unfold expired.
  rewrite H. reflexivity.
Qed.

Lemma run_ticks_cons (t : Z) (ts : list Z) (s : State) :
  run_ticks (t :: ts) s = run_ticks ts (exec watch_tick (at_time t s)).
Proof. reflexivity. Qed.

Lemma run_ticks_inactive (ts : list Z) :
  forall s, transfer_active (fst s) = false ->
  transfer_active (fst (run_ticks ts s)) = false /\
  outbox (snd (run_ticks ts s)) = outbox (snd s).
Proof.
  induction ts as [|t ts IH]; intros s H; [auto|].
  rewrite run_ticks_cons.
  rewrite watch_tick_inactive by (destruct s; exact H).
  destruct (IH (at_time t s)) as [H1 H2]; [destruct s; exact H|].
  rewrite H1, H2. destruct s as [a [ ]]. auto.
Qed.

(** A round of the watchdog after the timeout expired, on a session that
    is sending. *)
Lemma watch_tick_expired (content : list byte) (t : Z) (s : State) :
  sending content s ->
  TIMEOUT_SECONDS < t - last_ack_time (fst s) ->
  exec watch_tick (at_time t s) = after_timeout (at_time t s).
Proof.
  intros (Hact & Hcur & _) Ht. unfold exec. rewrite watch_tick_eq.
  unfold expired. destruct s as [a w]. cbn [fst snd at_time] in *.
  rewrite Hact.
  replace (0 <? current_chunk a) with true by (symmetry; apply Z.ltb_lt; lia).
  replace (now (set_now t w)) with t by (destruct w; reflexivity).
  apply Z.ltb_lt in Ht. rewrite Ht. reflexivity.
Qed.

(** Rounds of the watchdog at clock readings that are all past the
    timeout, with no acknowledgment in between: each of the first
    [MAX_RETRIES - retry_count] rounds resends, the next one fails the
    session, the later ones do nothing. *)
Lemma run_ticks_expired (content : list byte) (ts : list Z) :
  forall s,
  sending content s ->
  0 <= retry_count (fst s) <= MAX_RETRIES ->
  Forall (fun t => TIMEOUT_SECONDS < t - last_ack_time (fst s)) ts ->
  let s' := run_ticks ts s in
  let left := Z.to_nat (MAX_RETRIES - retry_count (fst s)) in
  transfer_active (fst s') = bool_decide (length ts <= left)%nat /\
  retry_count (fst s') = retry_count (fst s) + Z.of_nat (min (length ts) left) /\
  last_ack_time (fst s') = last_ack_time (fst s) /\
  outbox (snd s') =
    (outbox (snd s) ++ repeat (current_frame content s) (min (length ts) left))%list.
Proof.
  induction ts as [|t ts IH]; intros s Hs Hrc Hts s' left; subst s' left.
  - cbn. rewrite app_nil_r, Z.add_0_r.
    rewrite bool_decide_eq_true_2 by lia. destruct Hs as (-> & _). auto.
  - apply Forall_cons in Hts as [Ht Hts].
    rewrite run_ticks_cons.
    rewrite (watch_tick_expired content) by assumption.
    pose proof (at_time_sending content t s Hs) as Hs1.
    assert (retry_count (fst (at_time t s)) = retry_count (fst s)) as Hr1
      by (destruct s; reflexivity).
    assert (last_ack_time (fst (at_time t s)) = last_ack_time (fst s)) as Hl1
      by (destruct s; reflexivity).
    assert (outbox (snd (at_time t s)) = outbox (snd s)) as Ho1
      by (destruct s as [a [ ]]; reflexivity).
    assert (current_frame content (at_time t s) = current_frame content s)
      as Hf1 by (destruct s; reflexivity).
    destruct (Z_lt_le_dec (retry_count (fst s)) MAX_RETRIES) as [Hlt|Hge].
    + destruct (after_timeout_retry content (at_time t s) Hs1)
        as (Hs2 & Hrc2 & Hfr2 & Hla2 & Hout2); [lia|].
      destruct (IH (after_timeout (at_time t s)) Hs2)
        as (Hact & Hrc3 & Hla3 & Hout3); [lia| |].
      { rewrite Hla2, Hl1. exact Hts. }
      rewrite Hact, Hrc3, Hla3, Hout3, Hrc2, Hla2, Hout2, Hfr2, Hr1, Hl1,
        Ho1, Hf1.
      cbn [length].
      replace (Z.to_nat (MAX_RETRIES - retry_count (fst s)))
        with (S (Z.to_nat (MAX_RETRIES - (retry_count (fst s) + 1)))) by lia.
      cbn [min repeat]. rewrite <- app_assoc. cbn [app].
      repeat split; try lia.
      apply bool_decide_ext. lia.
    + destruct (after_timeout_fail (at_time t s))
        as (Hact & Hrc2 & Hout2 & _); [lia|].
      destruct (run_ticks_inactive ts _ Hact) as [Hact3 Hout3].
      assert (forall u, transfer_active (fst u) = false ->
                retry_count (fst (run_ticks ts u)) = retry_count (fst u) /\
                last_ack_time (fst (run_ticks ts u)) = last_ack_time (fst u))
        as Hkeep.
      { clear. induction ts as [|t' ts IH']; intros u Hu; [auto|].
        rewrite run_ticks_cons.
        rewrite watch_tick_inactive by (destruct u; exact Hu).
        destruct (IH' (at_time t' u)) as [-> ->]; destruct u; auto. }
      destruct (Hkeep _ Hact) as [Hrc3 Hla3].
      rewrite Hact3, Hout3, Hrc3, Hla3, Hrc2, Hout2, Hr1, Ho1.
      replace (Z.to_nat (MAX_RETRIES - retry_count (fst s))) with O by lia.
      rewrite Nat.min_0_r, app_nil_r, Z.add_0_r.
      rewrite bool_decide_eq_false_2 by (cbn [length]; lia).
      repeat split; try reflexivity.
      unfold after_timeout. replace (retry_count (fst (at_time t s)) <? MAX_RETRIES)
        with false by (symmetry; apply Z.ltb_ge; lia).
      destruct s as [[ ] ?]; reflexivity.
Qed.

Lemma send_next_chunk_emits (content : list byte) (s : State) :
  sending content s ->
  emitted send_next_chunk s = [current_frame content s].
Proof.
  intros (Hact & Hcur & path & Hpath & Hdisk).
  apply emitted_app. unfold exec. rewrite send_next_chunk_eq.
  unfold after_send, read_current_chunk, current_frame. cbn [snd].
  rewrite Hpath, Hdisk.
  replace ((current_chunk (fst s) - 1) * CHUNK_SIZE <? 0) with false
    by (symmetry; apply Z.ltb_ge; unfold CHUNK_SIZE; lia).
  destruct s as [a [ ]]. reflexivity.
Qed.

Lemma timeouts_failed (m : nat) (s : State) :
  MAX_RETRIES <= retry_count (fst s) ->
  retry_count (fst (timeouts m s)) = retry_count (fst s) /\
  outbox (snd (timeouts m s)) = outbox (snd s).
Proof.
  intros Hrc. induction m as [|m [IHr IHo]]; [auto|].
  rewrite timeouts_S.
  destruct (after_timeout_fail (timeouts m s)) as (_ & Hr & Ho & _); [lia|].
  rewrite Hr, Ho. auto.
Qed.

Lemma timeouts_add (m n : nat) (s : State) :
  timeouts (m + n) s = timeouts m (timeouts n s).
Proof. unfold timeouts. apply Nat.iter_add. Qed.

(** ** Acknowledgments *)

Lemma on_text_eq (sender : option string) (msg : string) (s : State) :
  on_text sender msg s =
  if Py.startswith msg "MESHZ_REQ" then after_request sender msg s
  else if Py.startswith msg "ZD|" then
    match parse_data_chunk msg with
    | Raise e => (Raise e, s)
    | Ret (c_num, raw) => (Ret tt, after_data_chunk sender c_num raw s)
    end
  else if String.eqb msg "MESHZ_ACK" then (Ret tt, after_ack sender s)
  else if Py.startswith msg "MESHZ_GOCONT|" then
    if accepts sender s then
      match parse_chunk_ack msg with
      | Raise e => (Raise e, s)
      | Ret ack_num => (Ret tt, after_chunk_ack ack_num s)
      end
    else (Ret tt, s)
  else (Ret tt, s).
Proof.
  unfold on_text.
  destruct (Py.startswith msg "MESHZ_REQ"); [apply on_request_eq|].
  destruct (Py.startswith msg "ZD|"); [apply on_data_chunk_eq|].
  destruct (String.eqb msg "MESHZ_ACK"); [apply on_ack_eq|].
  destruct (Py.startswith msg "MESHZ_GOCONT|"); [apply on_chunk_ack_eq|].
  reflexivity.
Qed.

Lemma deliver_ack (sender : string) (s : State) :
  exec (on_packet_received (text_packet sender ack_frame)) s
  = after_ack (Some sender) s.
Proof.
  unfold exec, on_packet_received, try_except.
  rewrite text_packet_body, on_text_eq. reflexivity.
Qed.

Lemma after_request_keeps_chunk (sender : option string) (msg : string)
    (s : State) :
  current_chunk (fst (snd (after_request sender msg s)))
  = current_chunk (fst s).
Proof.
  unfold after_request.
  destruct (nth_error _ 1); [|reflexivity].
  destruct (nth_error _ 3); [|destruct s as [[ ] ?]; reflexivity].
  destruct (Py.int _); destruct s as [[ ] ?]; reflexivity.
Qed.

Lemma after_chunk_ack_chunk (ack_num : Z) (s : State) :
  current_chunk (fst (after_chunk_ack ack_num s))
  = if ack_num =? current_chunk (fst s) then current_chunk (fst s) + 1
    else current_chunk (fst s).
Proof.
  unfold after_chunk_ack. destruct (_ =? _); [|reflexivity].
  destruct (_ <=? _).
  - rewrite after_send_keeps_chunk. destruct s as [[ ] ?]. reflexivity.
  - destruct s as [[ ] ?]. reflexivity.
Qed.

Lemma after_send_self (s : State) :
  fst (after_send s) = fst s \/
  fst (after_send s) = set_transfer_active false (fst s).
Proof.
  unfold after_send. destruct (read_current_chunk s); [left|right]; reflexivity.
Qed.

Lemma after_send_keeps_time (s : State) :
  last_ack_time (fst (after_send s)) = last_ack_time (fst s).
Proof.
  destruct (after_send_self s) as [-> | ->]; [reflexivity|].
  destruct s as [[ ] ?]. reflexivity.
Qed.

Lemma watch_tick_keeps_time (s : State) :
  last_ack_time (fst (exec watch_tick s)) = last_ack_time (fst s).
Proof.
  unfold exec. rewrite watch_tick_eq. cbn [snd].
  destruct (expired s); [|reflexivity].
  unfold after_timeout. destruct (_ <? _).
  - rewrite after_send_keeps_time. destruct s as [[ ] ?]. reflexivity.
  - destruct s as [[ ] ?]. reflexivity.
Qed.

(** Among the inbound packets, only an accepted [MESHZ_ACK] and an
    accepted [MESHZ_GOCONT] for the current chunk move the time of the
    last acknowledgment. *)
Lemma packet_keeps_time_unless_ack (p : Packet) (s : State) :
  last_ack_time (fst (exec (on_packet_received p) s)) = last_ack_time (fst s) \/
  (accepts (fromId p) s = true /\
   exists m, text_of p = Some m /\
     (m = ack_frame \/
      (Py.startswith m "MESHZ_GOCONT|" = true /\
       parse_chunk_ack m = Ret (current_chunk (fst s))))).
Proof.
  unfold exec, on_packet_received, try_except, packet_body, text_of.
  destruct p as [[[[port|] [[m|]|]]|] from]; cbn [decoded portnum payload fromId];
    mstep; try (left; destruct s as [? [ ]]; reflexivity).
  - destruct (String.eqb port "TEXT_MESSAGE_APP"); [|left; reflexivity].
    mstep. rewrite on_text_eq.
    destruct (Py.startswith m "MESHZ_REQ").
    { left. unfold after_request.
      destruct (nth_error _ 1); [|destruct s as [? [ ]]; reflexivity].
      destruct (nth_error _ 3); [|destruct s as [[ ] [ ]]; reflexivity].
      destruct (Py.int _); destruct s as [[ ] [ ]]; reflexivity. }
    destruct (Py.startswith m "ZD|").
    { left. destruct (parse_data_chunk m) as [[c raw]|e].
      - cbn [snd]. rewrite after_data_chunk_app.
        destruct s as [[ ] ?]. reflexivity.
      - destruct s as [? [ ]]. reflexivity. }
    destruct (String.eqb m "MESHZ_ACK") eqn:Hack.
    { apply String.eqb_eq in Hack. subst m. cbn [snd]. unfold after_ack.
      destruct (accepts from s) eqn:Hacc; [|left; reflexivity].
      right. split; [reflexivity|]. exists "MESHZ_ACK". split; [reflexivity|].
      left. reflexivity. }
    destruct (Py.startswith m "MESHZ_GOCONT|") eqn:Hgo; [|left; reflexivity].
    destruct (accepts from s) eqn:Hacc; [|left; reflexivity].
    destruct (parse_chunk_ack m) as [ack|e] eqn:Hparse.
    + cbn [snd]. unfold after_chunk_ack.
      destruct (ack =? current_chunk (fst s)) eqn:Heq; [|left; reflexivity].
      apply Z.eqb_eq in Heq. subst ack. right.
      split; [reflexivity|]. exists m. auto.
    + left. destruct s as [? [ ]]. reflexivity.
  - destruct (String.eqb port "TEXT_MESSAGE_APP");
      left; destruct s as [? [ ]]; reflexivity.
  - destruct (String.eqb port "TEXT_MESSAGE_APP");
      left; destruct s as [? [ ]]; reflexivity.
Qed.

(** ** Requests *)

Lemma has_char_app (c : ascii) (s1 s2 : string) :
  has_char c (s1 ++ s2) = has_char c s1 || has_char c s2.
Proof.
  induction s1 as [|d s1 IH]; cbn; [reflexivity|].
  rewrite IH. apply orb_assoc.
Qed.

Lemma split_request_frame (name : string) (size total : Z) :
  has_char "|" name = false ->
  Py.split "|" (request_frame name size total)
  = ["MESHZ_REQ"; name; Py.str size; Py.str total].
Proof.
  intros Hname.
  change (request_frame name size total)
    with ("MESHZ_REQ" ++
          String "|" (name ++
            String "|" (Py.str size ++ String "|" (Py.str total)))).
  rewrite PyFacts.split_app_sep by reflexivity.
  rewrite PyFacts.split_app_sep by exact Hname.
  rewrite PyFacts.split_app_sep by apply PyFacts.str_no_sep.
  rewrite PyFacts.split_no_sep by apply PyFacts.str_no_sep.
  reflexivity.
Qed.

(** A request as the sender writes it replaces the receive session. *)
Lemma deliver_request_frame (from name : string) (size total : Z)
    (s : State) :
  has_char "|" name = false ->
  exec (on_packet_received (text_packet from (request_frame name size total))) s
  = (set_receive_buffer ∅
       (set_receiving_total_chunks total
          (set_receiving_file_name (Some name) (fst s))),
     set_outbox (outbox (snd s) ++ [(ack_frame, Some from)])
       (set_ui (ui (snd s) ++ [Progress 0 total "Receiving"])
          (set_log (log (snd s) ++ [LogReq (Some from) name]) (snd s)))).
Proof.
  intros Hname. unfold exec, on_packet_received, try_except.
  rewrite text_packet_body, on_text_eq.
  replace (Py.startswith (request_frame name size total) "MESHZ_REQ")
    with true by reflexivity.
  unfold after_request. rewrite split_request_frame by exact Hname.
  cbn [nth_error]. rewrite PyFacts.int_str. reflexivity.
Qed.

(** ** Initiating a transfer *)

(** What [handle_send_request] sets up when a target is selected and the
    selected file can be read: the session is active at chunk 0, the
    declared count is [size // CHUNK_SIZE + 1], the retry count is left
    as it was, and the request is on the link. *)
Lemma handle_send_request_ok (a : App) (w : World) (path : string)
    (content : list byte) :
  truthy (target_node_id a) = true ->
  selected_file_path a = Some path ->
  disk w !! path = Some content ->
  let size := Z.of_nat (length content) in
  let total := size / CHUNK_SIZE + 1 in
  exec handle_send_request (a, w) =
  (set_last_ack_time (now w)
     (set_transfer_active true
        (set_current_chunk 0 (set_total_chunks total a))),
   set_log (log w ++ [LogSending (basename path)])
     (set_outbox (outbox w ++
                  [(request_frame (basename path) size total, target_node_id a)])
        (set_ui (ui w ++ [Progress 0 total "Initiating"]) w))).
Proof.
  intros Htgt Hpath Hdisk size total. subst size total.
  unfold exec, handle_send_request. mstep.
  rewrite Htgt, Hpath. cbn [negb orb].
  rewrite bool_decide_eq_true_2 by eauto. cbn [negb]. mstep.
  rewrite Hdisk. mstep. destruct a, w. reflexivity.
Qed.

(** The count of the code against the ceiling: they agree except on the
    exact multiples of the chunk size, where the code has one more. *)
Lemma floor_plus_one_vs_ceil (size : Z) :
  0 <= size ->
  size / CHUNK_SIZE + 1
  = ceil_div size CHUNK_SIZE + (if size mod CHUNK_SIZE =? 0 then 1 else 0).
Proof.
  intros Hsize. unfold ceil_div, CHUNK_SIZE.
  pose proof (Z.div_mod size 120 ltac:(lia)) as Hdm.
  pose proof (Z.mod_pos_bound size 120 ltac:(lia)) as Hb.
  destruct (size mod 120 =? 0) eqn:Hm.
  - apply Z.eqb_eq in Hm.
    assert ((size + 120 - 1) / 120 = size / 120) as ->; [|lia].
    symmetry. apply (Z.div_unique _ _ _ 119); lia.
  - apply Z.eqb_neq in Hm.
    assert ((size + 120 - 1) / 120 = size / 120 + 1) as ->; [|lia].
    symmetry. apply (Z.div_unique _ _ _ (size mod 120 - 1)); lia.
Qed.

(** ** When the file is written *)

(** No delivery writes unless it brings the buffer to the declared
    count. *)
Lemma no_write_below_count (sender : string) (i : Z) (raw : list byte)
    (a : App) (w : World) :
  Z.of_nat (size (<[i := raw]> (receive_buffer a))) <> receiving_total_chunks a ->
  disk (snd (exec (on_packet_received (text_packet sender (chunk_frame i raw)))
                (a, w)))
  = disk w.
Proof.
  intros Hne. unfold exec. rewrite deliver_chunk_frame. cbn [snd].
  rewrite incomplete_delivery by exact Hne. destruct w; reflexivity.
Qed.

(** If every stored index lies in [1..total], a buffer with [total]
    entries holds them all. *)
Lemma count_in_range_complete (buf : gmap Z (list byte)) (total : Z) :
  (forall k, is_Some (buf !! k) -> 1 <= k <= total) ->
  Z.of_nat (size buf) = total ->
  forall k, 1 <= k <= total -> is_Some (buf !! k).
Proof.
  intros Hrange Hsize k Hk.
  assert (dom buf = list_to_set (seqZ 1 total)) as Hdom.
  { apply set_subseteq_size_eq.
    - intros j Hj. apply elem_of_dom in Hj.
      apply elem_of_list_to_set, elem_of_seqZ.
      specialize (Hrange j Hj). lia.
    - rewrite size_list_to_set by apply NoDup_seqZ.
      rewrite length_seqZ, size_dom. lia. }
  apply elem_of_dom. rewrite Hdom.
  apply elem_of_list_to_set, elem_of_seqZ. lia.
Qed.

(** * Concrete runs *)

Example ex_requested_frame :
  outbox (snd ex_requested) = [("MESHZ_REQ|a.bin|256|3", Some "!r")] /\
  total_chunks (fst ex_requested) = 3 /\
  current_chunk (fst ex_sending1) = 1 /\
  current_chunk (fst ex_sending2) = 2.
Proof. vm_compute. auto. Qed.

(** The request branch stores the name before it reads the count: a
    request whose count is not a number is reported, and yet the name of
    the file being received is replaced. *)
Example request_name_replaced_before_failure :
  let s' := exec (on_packet_received (text_packet "!x" "MESHZ_REQ|evil|8|x"))
              ex_receiving2 in
  log (snd s') = [LogReq (Some "!s") "f.bin"; LogPacketError ValueError] /\
  receiving_file_name (fst ex_receiving2) = Some "f.bin" /\
  receiving_file_name (fst s') = Some "evil".
Proof. vm_compute. auto. Qed.

Lemma ex_sending1_is_sending : sending ex_content ex_sending1.
Proof.
  split; [vm_compute; reflexivity|]. split; [vm_compute; discriminate|].
  exists "docs/a.bin". split; vm_compute; reflexivity.
Qed.

(** A chunk acknowledgment as the receiver writes it is read back as
    its index. *)
Lemma parse_chunk_ack_frame (k : Z) : parse_chunk_ack (chunk_ack_frame k) = Ret k.
Proof.
  unfold parse_chunk_ack. rewrite FrameFacts.split_chunk_ack_frame.
  cbn [nth_error]. rewrite PyFacts.int_str. reflexivity.
Qed.

(** * The claims *)

(** C1.  The code computes [filesize // CHUNK_SIZE + 1].  For the file of
    240 bytes, an exact multiple of the chunk size, that is 3, while
    [ceil(240 / 120)] is 2; the request on the wire declares 3 chunks. *)
Theorem C1_exact_multiple_declares_extra_chunk :
  Z.of_nat (length ex_exact) = 240 /\
  240 mod CHUNK_SIZE = 0 /\
  ceil_div 240 CHUNK_SIZE = 2 /\
  total_chunks (fst (exec handle_send_request ex_sender_exact)) = 3 /\
  emitted handle_send_request ex_sender_exact
  = [("MESHZ_REQ|b.bin|240|3", Some "!r")].
Proof. vm_compute. auto. Qed.

(** C2. Round trip.  Let the sender hold a readable file with the bytes
    [content], and let [n >= 1] chunks of 120 bytes cover it.  Let the
    receiver have an empty buffer, the declared count [n], and a writable
    downloads directory.  If the frames that [send_next_chunk] emits for
    the chunks 1..n reach the receiver in any order (a permutation of
    1..n), the file the receiver writes holds exactly [content], and it
    is written once, by the delivery that completes the buffer. *)
Theorem C2_round_trip (content : list byte) (n : Z) (order : list Z)
    (from path : string) (sender_state : State) (ra : App) (rw : World) :
  selected_file_path (fst sender_state) = Some path ->
  disk (snd sender_state) !! path = Some content ->
  1 <= n ->
  Z.of_nat (length content) <= n * CHUNK_SIZE ->
  order ≡ₚ seqZ 1 n ->
  receive_buffer ra = ∅ ->
  receiving_total_chunks ra = n ->
  downloads_ok rw = true ->
  let r' := deliver (sent_chunks from sender_state order) (ra, rw) in
  disk (snd r') !! save_path_of (receiving_file_name ra) = Some content /\
  log (snd r') = (log rw ++ [LogFileSaved (save_path_of (receiving_file_name ra))])%list.
Proof.
  intros Hpath Hdisk Hn Hlen Hperm Hbuf Htotal Hok r'. subst r'.
  assert (forall i, i ∈ order <-> 1 <= i < 1 + n) as Hmem.
  { intros i. rewrite Hperm. apply elem_of_seqZ. }
  assert (NoDup order) as Hnd by (rewrite Hperm; apply NoDup_seqZ).
  assert (length order = Z.to_nat n) as Hlo
    by (rewrite Hperm; apply length_seqZ).
  rewrite (sent_chunks_frames from path content)
    by (try assumption; intros i Hi; apply Hmem in Hi; lia).
  destruct order as [|x l _] using rev_ind; [cbn in Hlo; lia|].
  rewrite length_app in Hlo. cbn [length] in Hlo.
  pose proof Hnd as Hnd'. apply NoDup_app in Hnd' as (Hl & _ & _).
  unfold chunk_packets. rewrite map_app. cbn [map].
  rewrite deliver_snoc. fold (chunk_packets from content l).
  destruct (deliver_chunks_partial from content l ra rw Hl)
    as (Hfst & Hdisk' & Hok' & Hlog').
  { intros i _. rewrite Hbuf. apply lookup_empty. }
  { rewrite Hbuf, map_size_empty. lia. }
  destruct (deliver (chunk_packets from content l) (ra, rw)) as [a1 w1].
  cbn [fst snd] in *. subst a1.
  unfold exec. rewrite deliver_chunk_frame. cbn [snd].
  assert (<[x := chunk_of content x]>
            (receive_buffer
               (set_receive_buffer (fill content l (receive_buffer ra)) ra))
          = fill content (l ++ [x]) ∅) as Hfill.
  { cbn [receive_buffer set_receive_buffer].
    rewrite fill_snoc, Hbuf. reflexivity. }
  assert (forall k, 1 <= k <= n ->
            fill content (l ++ [x]) ∅ !! k = Some (chunk_of content k))
    as Hget.
  { intros k Hk. rewrite fill_lookup, bool_decide_eq_true_2; [reflexivity|].
    apply Hmem. lia. }
  rewrite complete_delivery.
  - cbn [receive_buffer receiving_total_chunks receiving_file_name
         set_receive_buffer] in *.
    rewrite Hfill, Htotal.
    assert (assemble (fill content (l ++ [x]) ∅) n = content) as ->.
    { unfold assemble.
      rewrite (map_ext_in _ (chunk_of content)).
      - replace n with (Z.of_nat (Z.to_nat n)) by lia.
        rewrite concat_chunks. apply take_ge. unfold CHUNK_SIZE in *. lia.
      - intros k Hk. apply list_elem_of_In, elem_of_seqZ in Hk.
        rewrite Hget by lia. reflexivity. }
    destruct w1, ra; cbn in *. rewrite lookup_insert_eq.
    split; [reflexivity|congruence].
  - rewrite Hfill. cbn [receiving_total_chunks set_receive_buffer].
    rewrite fill_size by (try assumption; intros; apply lookup_empty).
    rewrite map_size_empty, length_app. cbn [length]. lia.
  - rewrite Hfill. cbn [receiving_total_chunks set_receive_buffer].
    intros k Hk. rewrite Hget by lia. eauto.
  - rewrite Hok'. exact Hok.
Qed.

Lemma C2_round_trip_witness :
  let r' := deliver (sent_chunks "!s" ex_sender [3; 1; 2])
              (fst ex_receiving3, snd ex_receiving3) in
  disk (snd r') !! save_path_of (receiving_file_name (fst ex_receiving3))
  = Some ex_content /\
  log (snd r')
  = (log (snd ex_receiving3) ++
     [LogFileSaved (save_path_of (receiving_file_name (fst ex_receiving3)))])%list.
Proof.
  apply (C2_round_trip ex_content 3 [3; 1; 2] "!s" "docs/a.bin" ex_sender
           (fst ex_receiving3) (snd ex_receiving3)).
  - vm_compute. reflexivity.
  - vm_compute. reflexivity.
  - lia.
  - vm_compute. discriminate.
  - apply (Permutation_cons_append [1; 2] 3).
  - vm_compute. reflexivity.
  - vm_compute. reflexivity.
  - vm_compute. reflexivity.
Defined.



(** Counterexample to C4 as stated: after exactly [MAX_RETRIES] expiries
    in a row the session is still active, and each of them, the last one
    too, sent the chunk. *)
Lemma C4_still_active_after_max_retries :
  let s := timeouts (Z.to_nat MAX_RETRIES) ex_sending1 in
  retry_count (fst ex_sending1) = 0 /\
  retry_count (fst s) = MAX_RETRIES /\
  outbox (snd s)
  = (outbox (snd ex_sending1) ++
     repeat (current_frame ex_content ex_sending1) 5)%list /\
  ~ (transfer_active (fst s) = false).
Proof.
  vm_compute. repeat split. discriminate.
Qed.

(** C4, as the code has it.  On a sending session with a fresh retry
    count, each of the first [MAX_RETRIES] expiries of the timeout
    resends the chunk and leaves the session active; it is the next
    expiry, number [MAX_RETRIES + 1], that stops the session
    ([transfer_active = false]), logs the failure and sends nothing.
    After that neither further expiries nor rounds of the watchdog send
    a chunk. *)
Theorem C4_fails_on_expiry_after_max_retries (content : list byte)
    (s : State) :
  sending content s ->
  retry_count (fst s) = 0 ->
  let max := Z.to_nat MAX_RETRIES in
  (forall k, (k <= max)%nat ->
     transfer_active (fst (timeouts k s)) = true /\
     retry_count (fst (timeouts k s)) = Z.of_nat k /\
     outbox (snd (timeouts k s)) =
       (outbox (snd s) ++ repeat (current_frame content s) k)%list) /\
  transfer_active (fst (timeouts (S max) s)) = false /\
  log (snd (timeouts (S max) s)) =
    (log (snd (timeouts max s)) ++ [LogMaxRetries])%list /\
  (forall m,
     outbox (snd (timeouts (m + S max) s)) =
       (outbox (snd s) ++ repeat (current_frame content s) max)%list) /\
  (forall ts,
     outbox (snd (run_ticks ts (timeouts (S max) s))) =
       (outbox (snd s) ++ repeat (current_frame content s) max)%list).
Proof.
  intros Hs Hrc max. subst max.
  assert (forall k, (k <= Z.to_nat MAX_RETRIES)%nat ->
            sending content (timeouts k s) /\
            retry_count (fst (timeouts k s)) = Z.of_nat k /\
            outbox (snd (timeouts k s)) =
              (outbox (snd s) ++ repeat (current_frame content s) k)%list)
    as Hk.
  { intros k Hle.
    destruct (timeouts_retry content s k Hs) as (H1 & H2 & _ & _ & H5).
    - rewrite Hrc. unfold MAX_RETRIES in *. lia.
    - split; [exact H1|]. split; [lia|exact H5]. }
  destruct (Hk (Z.to_nat MAX_RETRIES) (le_n _)) as (Hs5 & Hr5 & Ho5).
  destruct (after_timeout_fail (timeouts (Z.to_nat MAX_RETRIES) s))
    as (Hact & Hr6 & Ho6 & Hlog6); [rewrite Hr5; unfold MAX_RETRIES; lia|].
  rewrite <- timeouts_S in Hact, Hr6, Ho6, Hlog6.
  split; [|split; [exact Hact|split; [exact Hlog6|split]]].
  - intros k Hle. destruct (Hk k Hle) as ((Ha & _) & Hr & Ho). auto.
  - intros m. rewrite timeouts_add.
    destruct (timeouts_failed m (timeouts (S (Z.to_nat MAX_RETRIES)) s))
      as [_ Ho].
    { rewrite Hr6, Hr5. unfold MAX_RETRIES. lia. }
    rewrite Ho, Ho6. exact Ho5.
  - intros ts.
    destruct (run_ticks_inactive ts _ Hact) as [_ Ho].
    rewrite Ho, Ho6. exact Ho5.
Qed.

Lemma C4_fails_on_expiry_after_max_retries_witness :
  transfer_active (fst (timeouts 5 ex_sending1)) = true /\
  transfer_active (fst (timeouts (S (Z.to_nat MAX_RETRIES)) ex_sending1)) = false /\
  outbox (snd (timeouts (3 + S (Z.to_nat MAX_RETRIES)) ex_sending1)) =
    (outbox (snd ex_sending1) ++
     repeat (current_frame ex_content ex_sending1) (Z.to_nat MAX_RETRIES))%list.
Proof.
  assert (retry_count (fst ex_sending1) = 0) as Hrc
    by (vm_compute; reflexivity).
  destruct (C4_fails_on_expiry_after_max_retries ex_content ex_sending1
              ex_sending1_is_sending Hrc) as (H5 & H6 & _ & Hm & _).
  split; [apply (H5 5%nat), le_n|].
  split; [exact H6|exact (Hm 3%nat)].
Defined.

(** Counterexample to C5 as stated: a request whose size field is not a
    number is not dropped.  No error is logged, the declared count
    changes and the request is acknowledged. *)
Lemma C5_non_numeric_size_accepted :
  let p := text_packet "!s" "MESHZ_REQ|f.bin|xyz|3" in
  let s' := exec (on_packet_received p) ex_receiver in
  Py.int "xyz" = None /\
  log (snd s') = [LogReq (Some "!s") "f.bin"] /\
  receiving_total_chunks (fst ex_receiver) = 0 /\
  receiving_total_chunks (fst s') = 3 /\
  emitted (on_packet_received p) ex_receiver = [(ack_frame, Some "!s")] /\
  ~ ((exists e, In (LogPacketError e) (log (snd s'))) /\
     fst s' = fst ex_receiver).
Proof.
  vm_compute. repeat split. intros [_ H]. discriminate H.
Qed.

(** C5, as the code has it.  Whenever the body of the handler raises
    (a key or field is missing, the text is not valid UTF-8, an index or
    a chunk count is not a number, the payload is not Base64), the
    handler itself returns normally, the only change to the world is one
    more log line reporting the error, nothing is sent and nothing is
    written, and the attributes of [self] other than
    [receiving_file_name] are as before; unless the text went to the
    request branch, [self] is unchanged altogether. *)
Theorem C5_parse_failure_is_dropped (p : Packet) (s : State) :
  raises (packet_body p) s = true ->
  let s' := exec (on_packet_received p) s in
  raises (on_packet_received p) s = false /\
  (exists e, snd s' = set_log (log (snd s) ++ [LogPacketError e]) (snd s)) /\
  set_receiving_file_name None (fst s') = set_receiving_file_name None (fst s) /\
  (is_request p = false -> fst s' = fst s).
Proof.
  intros Hraise s'. subst s'. split.
  { unfold raises. rewrite on_packet_received_returns. reflexivity. }
  revert Hraise.
  unfold raises, exec, on_packet_received, try_except, packet_body,
    is_request, text_of.
  destruct p as [[[[port|] [[m|]|]]|] from];
    cbn [decoded portnum payload fromId]; mstep;
    try discriminate;
    try (intros _; split; [eexists; reflexivity|split; intros; reflexivity]).
  - destruct (String.eqb port "TEXT_MESSAGE_APP"); mstep; [|discriminate].
    rewrite on_text_eq.
    destruct (Py.startswith m "MESHZ_REQ").
    { unfold after_request.
      destruct (nth_error _ 1) as [name|]; cbn [fst snd].
      - destruct (nth_error _ 3) as [field|]; cbn [fst snd].
        + destruct (Py.int field); cbn [fst snd]; [discriminate|].
          intros _. split; [eexists; reflexivity|].
          split; [destruct s as [[ ] ?]; reflexivity|discriminate].
        + intros _. split; [eexists; reflexivity|].
          split; [destruct s as [[ ] ?]; reflexivity|discriminate].
      - intros _. split; [eexists; reflexivity|].
        split; [reflexivity|discriminate]. }
    destruct (Py.startswith m "ZD|").
    { destruct (parse_data_chunk m) as [[c raw]|e]; cbn [fst snd];
        [discriminate|].
      intros _. split; [eexists; reflexivity|split; intros; reflexivity]. }
    destruct (String.eqb m "MESHZ_ACK"); [discriminate|].
    destruct (Py.startswith m "MESHZ_GOCONT|"); [|discriminate].
    destruct (accepts from s); [|discriminate].
    destruct (parse_chunk_ack m) as [ack|e]; cbn [fst snd]; [discriminate|].
    intros _. split; [eexists; reflexivity|split; intros; reflexivity].
  - destruct (String.eqb port "TEXT_MESSAGE_APP"); mstep; [|discriminate].
    intros _. split; [eexists; reflexivity|split; intros; reflexivity].
  - destruct (String.eqb port "TEXT_MESSAGE_APP"); mstep; [|discriminate].
    intros _. split; [eexists; reflexivity|split; intros; reflexivity].
Qed.

Lemma C5_parse_failure_is_dropped_witness :
  let p := text_packet "!s" "ZD|x|QUJD" in
  let s' := exec (on_packet_received p) ex_receiving2 in
  raises (on_packet_received p) ex_receiving2 = false /\
  (exists e, snd s' = set_log (log (snd ex_receiving2) ++ [LogPacketError e])
                        (snd ex_receiving2)) /\
  set_receiving_file_name None (fst s')
  = set_receiving_file_name None (fst ex_receiving2) /\
  (is_request p = false -> fst s' = fst ex_receiving2).
Proof.
  apply (C5_parse_failure_is_dropped (text_packet "!s" "ZD|x|QUJD")
           ex_receiving2).
  vm_compute. reflexivity.
Defined.

(** C6.  The receiver was told of two chunks and then got the indices 1
    and 5.  The buffer holds two entries, so the file is opened and the
    bytes of chunk 1 are written before index 2 is found missing: a
    partial file is on disk. *)
Theorem C6_partial_file_on_stray_index :
  let s := deliver [text_packet "!s" "ZD|1|QUJD"; text_packet "!s" "ZD|5|REVG"]
             ex_receiving2 in
  receiving_total_chunks (fst s) = 2 /\
  receive_buffer (fst s) !! 2 = None /\
  disk (snd ex_receiving2) !! "~/Downloads/meshz_f.bin" = None /\
  disk (snd s) !! "~/Downloads/meshz_f.bin" = Some (list_byte_of_string "ABC") /\
  log (snd s) = [LogReq (Some "!s") "f.bin"; LogSaveError KeyError].
Proof. vm_compute. auto. Qed.

(** Counterexample to C7 as stated: both chunks arrived, the file was
    written, and the buffer is not empty. *)
Lemma C7_buffer_not_cleared :
  let s := deliver [text_packet "!s" "ZD|2|REVG"; text_packet "!s" "ZD|1|QUJD"]
             ex_receiving2 in
  disk (snd s) !! "~/Downloads/meshz_f.bin"
  = Some (list_byte_of_string "ABCDEF") /\
  log (snd s)
  = [LogReq (Some "!s") "f.bin"; LogFileSaved "~/Downloads/meshz_f.bin"] /\
  receive_buffer (fst s) !! 1 = Some (list_byte_of_string "ABC") /\
  ~ (receive_buffer (fst s) = ∅).
Proof.
  vm_compute. repeat split. intros H. discriminate H.
Qed.

(** C7, as the code has it.  When a data frame completes the buffer (it
    then holds the declared number of entries, all of 1..total among
    them) and the downloads directory is writable, the file is written
    with the chunks 1..total in order, the success is logged and the
    progress display hidden; but the receive session is not destroyed:
    [self] differs from before only by the stored chunk, so the buffer
    keeps every chunk and the declared name and count stay.  The buffer
    is emptied by the next request. *)
Theorem C7_session_kept_after_save (sender : string) (i : Z)
    (raw : list byte) (a : App) (w : World) :
  let buf := <[i := raw]> (receive_buffer a) in
  let total := receiving_total_chunks a in
  let path := save_path_of (receiving_file_name a) in
  Z.of_nat (size buf) = total ->
  (forall k, 1 <= k <= total -> is_Some (buf !! k)) ->
  downloads_ok w = true ->
  let s' := exec (on_packet_received (text_packet sender (chunk_frame i raw)))
              (a, w) in
  disk (snd s') !! path = Some (assemble buf total) /\
  log (snd s') = (log w ++ [LogFileSaved path])%list /\
  ui (snd s') = (ui w ++ [Progress total total "Receiving"; HideProgress])%list /\
  fst s' = set_receive_buffer buf a /\
  receive_buffer (fst s') !! i = Some raw /\
  forall from name size n,
    has_char "|" name = false ->
    receive_buffer
      (fst (exec (on_packet_received
                    (text_packet from (request_frame name size n))) s'))
    = ∅.
Proof.
  intros buf total path Hsize Hall Hok s'. subst s'.
  unfold exec at 1 2 3 4 5. rewrite deliver_chunk_frame. cbn [snd].
  rewrite complete_delivery by assumption.
  fold buf total path. cbn [fst snd].
  split; [destruct w; cbn; apply lookup_insert_eq|].
  split; [destruct w; reflexivity|].
  split; [destruct w; reflexivity|].
  split; [reflexivity|].
  split; [destruct a; cbn; apply lookup_insert_eq|].
  intros from name size n Hname.
  rewrite deliver_request_frame by exact Hname. reflexivity.
Qed.

Lemma C7_session_kept_after_save_witness :
  let s := exec (on_packet_received (text_packet "!s" "ZD|2|REVG"))
             ex_receiving2 in
  let raw := list_byte_of_string "ABC" in
  let s' := exec (on_packet_received (text_packet "!s" (chunk_frame 1 raw)))
              (fst s, snd s) in
  disk (snd s') !! save_path_of (receiving_file_name (fst s))
  = Some (assemble (<[1 := raw]> (receive_buffer (fst s)))
            (receiving_total_chunks (fst s))) /\
  fst s' = set_receive_buffer (<[1 := raw]> (receive_buffer (fst s))) (fst s) /\
  receive_buffer (fst s') !! 1 = Some raw.
Proof.
  intros s raw.
  destruct (C7_session_kept_after_save "!s" 1 raw (fst s) (snd s))
    as (Hdisk & _ & _ & Hfst & Hbuf & _).
  - vm_compute. reflexivity.
  - intros k Hk.
    assert (receiving_total_chunks (fst s) = 2) as Htotal
      by (vm_compute; reflexivity).
    rewrite Htotal in Hk.
    assert (k = 1 \/ k = 2) as [-> | ->] by lia; vm_compute; eauto.
  - vm_compute. reflexivity.
  - split; [exact Hdisk|]. split; [exact Hfst|exact Hbuf].
Defined.

(** C8. Idempotence of the receiver: the data frame [ZD|i|base64(p)],
    delivered twice to a receiver in any state, leaves
    [receive_buffer[i] = p] after the first and after the second
    delivery, the second delivery changes nothing in the buffer, and each
    delivery sends exactly one text back to the sender of the frame: the
    text [MESHZ_GOCONT|] followed by the decimal of [i], which the sending
    side of the handler recognises and reads back as the index [i].  The
    state before is arbitrary, so the index may arrive in any order. *)
Theorem C8_data_chunk_idempotent (sender : string) (i : Z) (p : list byte)
    (s : State) :
  let frame :=
    text_packet sender ("ZD|" ++ Py.str i ++ "|" ++ Base64.b64encode p) in
  let ack := "MESHZ_GOCONT|" ++ Py.str i in
  let s1 := exec (on_packet_received frame) s in
  let s2 := exec (on_packet_received frame) s1 in
  receive_buffer (fst s1) !! i = Some p /\
  receive_buffer (fst s2) !! i = Some p /\
  receive_buffer (fst s2) = receive_buffer (fst s1) /\
  emitted (on_packet_received frame) s = [(ack, Some sender)] /\
  emitted (on_packet_received frame) s1 = [(ack, Some sender)] /\
  Py.startswith ack "MESHZ_GOCONT|" = true /\
  parse_chunk_ack ack = Ret i.
Proof.
  intros frame ack s1 s2. subst frame ack s1 s2.
  change ("ZD|" ++ Py.str i ++ "|" ++ Base64.b64encode p)
    with (chunk_frame i p).
  change ("MESHZ_GOCONT|" ++ Py.str i) with (chunk_ack_frame i).
  unfold exec.
  rewrite !deliver_chunk_frame. cbn [snd].
  assert (forall t, emitted (on_packet_received
            (text_packet sender (chunk_frame i p))) t
          = [(chunk_ack_frame i, Some sender)]) as Hemit.
  { intros t. apply emitted_app. unfold exec.
    rewrite deliver_chunk_frame. apply after_data_chunk_outbox. }
  rewrite !after_data_chunk_app. cbn [receive_buffer set_receive_buffer].
  rewrite insert_insert_eq.
  split; [apply lookup_insert_eq|]. split; [apply lookup_insert_eq|].
  split; [reflexivity|]. split; [apply Hemit|]. split; [apply Hemit|].
  split; [apply (FrameFacts.chunk_ack_frame_kind i)|].
  apply parse_chunk_ack_frame.
Qed.

(** C9, as the spec has it, fails.  The retry reads the chunk again from
    the file that is selected when the watchdog fires.  Chunk 3 of
    [docs/a.bin] went out first as [ZD|3|d3h5ejAxMjM0NTY3ODkrLw==]; the user
    then picked [docs/c.bin]; the retry of the still active session, 31
    seconds after the last acknowledgment, sends other bytes under the
    same index.  And the time of the last acknowledgment is also set when
    no acknowledgment arrived: pressing SEND at clock reading 250 moves it
    from 0 to 250. *)
Lemma C9_retry_after_reselection_differs :
  let original :=
    emitted (on_packet_received (text_packet "!r" "MESHZ_GOCONT|2"))
      ex_sending2 in
  let s := at_time 131
             (exec (on_directory_tree_file_selected "docs/c.bin")
                (with_file "docs/c.bin" ex_other ex_sending3)) in
  original = [("ZD|3|d3h5ejAxMjM0NTY3ODkrLw==", Some "!r")] /\
  (transfer_active (fst s) = true /\ current_chunk (fst s) = 3 /\
   retry_count (fst s) = 0 /\ last_ack_time (fst s) = 100 /\
   expired s = true) /\
  emitted watch_tick s = [("ZD|3|UE9OTUxLSklIR0ZFRENCQQ==", Some "!r")] /\
  retry_count (fst (exec watch_tick s)) = 1 /\
  emitted watch_tick s <> original /\
  last_ack_time (fst ex_sender) = 0 /\
  last_ack_time (fst (exec handle_send_request (at_time 250 ex_sender))) = 250.
Proof.
  vm_compute. repeat split; discriminate.
Qed.

(** C9, amended.  When the watchdog fires on a sending session whose
    retry count is below [MAX_RETRIES], it adds one to the retry count,
    leaves the chunk index and the time of the last acknowledgment as they
    were, and puts on the link exactly one frame: [ZD|], the decimal of
    the current index, [|], and the base64 text of the bytes that the
    selected file holds at the offset of that index when the watchdog
    fires (the receiver reads the index and these bytes back from it).
    Against the frame that [send_next_chunk] emitted for this index in
    the first place (in a state [s0] with the same index and target, the
    selected file then holding [content0]) the index is the same, and the
    whole frame is the same exactly when the two files agree on the bytes
    of this chunk.  No round of the watchdog, in any state, moves the time
    of the last acknowledgment; among the inbound packets only an accepted
    [MESHZ_ACK] and an accepted [MESHZ_GOCONT] for the current chunk do;
    and [handle_send_request], when it opens a session, sets it to the
    clock reading. *)
Theorem C9_retry_resends_current_chunk (content content0 : list byte)
    (s s0 : State) :
  sending content s ->
  expired s = true ->
  retry_count (fst s) < MAX_RETRIES ->
  sending content0 s0 ->
  current_chunk (fst s0) = current_chunk (fst s) ->
  target_node_id (fst s0) = target_node_id (fst s) ->
  let cur := current_chunk (fst s) in
  let frame_of := fun raw : list byte =>
    "ZD|" ++ Py.str cur ++ "|" ++ Base64.b64encode raw in
  let s' := exec watch_tick s in
  retry_count (fst s') = retry_count (fst s) + 1 /\
  current_chunk (fst s') = cur /\
  last_ack_time (fst s') = last_ack_time (fst s) /\
  emitted watch_tick s
  = [(frame_of (chunk_of content cur), target_node_id (fst s))] /\
  emitted send_next_chunk s0
  = [(frame_of (chunk_of content0 cur), target_node_id (fst s))] /\
  parse_data_chunk (frame_of (chunk_of content cur))
  = Ret (cur, chunk_of content cur) /\
  (emitted watch_tick s = emitted send_next_chunk s0 <->
   chunk_of content cur = chunk_of content0 cur) /\
  (forall u, last_ack_time (fst (exec watch_tick u)) = last_ack_time (fst u)) /\
  (forall p u,
     last_ack_time (fst (exec (on_packet_received p) u)) = last_ack_time (fst u) \/
     (accepts (fromId p) u = true /\
      exists m, text_of p = Some m /\
        (m = "MESHZ_ACK" \/
         (Py.startswith m "MESHZ_GOCONT|" = true /\
          parse_chunk_ack m = Ret (current_chunk (fst u)))))) /\
  (forall u path bytes,
     truthy (target_node_id (fst u)) = true ->
     selected_file_path (fst u) = Some path ->
     disk (snd u) !! path = Some bytes ->
     last_ack_time (fst (exec handle_send_request u)) = now (snd u)).
Proof.
  intros Hs Hexp Hrc Hs0 Hcur0 Htgt0 cur frame_of s'. subst s'.
  assert (forall raw, frame_of raw = chunk_frame cur raw) as Hframe
    by reflexivity.
  assert (emitted watch_tick s
          = [(frame_of (chunk_of content cur), target_node_id (fst s))])
    as Hemit.
  { apply emitted_app. unfold exec. rewrite watch_tick_eq, Hexp. cbn [snd].
    apply (after_timeout_retry content s Hs Hrc). }
  assert (emitted send_next_chunk s0
          = [(frame_of (chunk_of content0 cur), target_node_id (fst s))])
    as Hemit0.
  { rewrite (send_next_chunk_emits content0 s0 Hs0).
    unfold current_frame. rewrite Hcur0, Htgt0. reflexivity. }
  split.
  { unfold exec. rewrite watch_tick_eq, Hexp. cbn [snd].
    apply (after_timeout_retry content s Hs Hrc). }
  split.
  { unfold exec. rewrite watch_tick_eq, Hexp. cbn [snd].
    apply after_timeout_keeps_chunk. }
  split; [apply watch_tick_keeps_time|].
  split; [exact Hemit|]. split; [exact Hemit0|].
  split; [rewrite Hframe; apply parse_chunk_frame|].
  split.
  { rewrite Hemit, Hemit0, !Hframe. split.
    - intros Heq.
      assert (parse_data_chunk (chunk_frame cur (chunk_of content cur))
              = parse_data_chunk (chunk_frame cur (chunk_of content0 cur)))
        as Hparse by congruence.
      rewrite !parse_chunk_frame in Hparse. congruence.
    - intros ->. reflexivity. }
  split; [exact watch_tick_keeps_time|].
  split; [exact packet_keeps_time_unless_ack|].
  intros [a w] path bytes Htgt Hpath Hdisk. cbn [fst snd] in *.
  rewrite (handle_send_request_ok a w path bytes Htgt Hpath Hdisk).
  destruct a. reflexivity.
Qed.

Lemma C9_retry_resends_current_chunk_witness :
  let s := at_time 131
             (exec (on_directory_tree_file_selected "docs/c.bin")
                (with_file "docs/c.bin" ex_other ex_sending3)) in
  let s0 := (fst ex_sending3, snd ex_sending2) in
  let s' := exec watch_tick s in
  retry_count (fst s') = retry_count (fst s) + 1 /\
  current_chunk (fst s') = 3 /\
  last_ack_time (fst s') = last_ack_time (fst s) /\
  emitted watch_tick s
  = [("ZD|" ++ Py.str 3 ++ "|" ++ Base64.b64encode (chunk_of ex_other 3),
      Some "!r")] /\
  emitted send_next_chunk s0
  = [("ZD|" ++ Py.str 3 ++ "|" ++ Base64.b64encode (chunk_of ex_content 3),
      Some "!r")] /\
  (emitted watch_tick s = emitted send_next_chunk s0 <->
   chunk_of ex_other 3 = chunk_of ex_content 3).
Proof.
  destruct (C9_retry_resends_current_chunk ex_other ex_content
              (at_time 131
                 (exec (on_directory_tree_file_selected "docs/c.bin")
                    (with_file "docs/c.bin" ex_other ex_sending3)))
              (fst ex_sending3, snd ex_sending2))
    as (H1 & H2 & H3 & H4 & H5 & _ & H7 & _).
  - split; [vm_compute; reflexivity|]. split; [vm_compute; discriminate|].
    exists "docs/c.bin". split; vm_compute; reflexivity.
  - vm_compute. reflexivity.
  - vm_compute. reflexivity.
  - split; [vm_compute; reflexivity|]. split; [vm_compute; discriminate|].
    exists "docs/a.bin". split; vm_compute; reflexivity.
  - vm_compute. reflexivity.
  - vm_compute. reflexivity.
  - exact (conj H1 (conj H2 (conj H3 (conj H4 (conj H5 H7))))).
Defined.

(** C10. A retry does not move the time of the last acknowledgment.  So
    once a round of the watchdog, at clock reading [t0], finds a sending
    session past its timeout, every later round (at a reading no earlier
    than [t0], no acknowledgment arriving) finds it expired too: the
    rounds [t0 :: ts] resend the chunk once each until the retry count
    reaches [MAX_RETRIES], the round after that fails the session, and
    the session stays failed.  With a fresh retry count that is five
    resends on five rounds in a row and the failure on the sixth. *)
Theorem C10_retries_on_consecutive_ticks (content : list byte) (s : State)
    (t0 : Z) (ts : list Z) :
  sending content s ->
  0 <= retry_count (fst s) <= MAX_RETRIES ->
  TIMEOUT_SECONDS < t0 - last_ack_time (fst s) ->
  Forall (fun t => t0 <= t) ts ->
  let rounds := length (t0 :: ts) in
  let left := Z.to_nat (MAX_RETRIES - retry_count (fst s)) in
  let s' := run_ticks (t0 :: ts) s in
  transfer_active (fst s') = bool_decide (rounds <= left)%nat /\
  retry_count (fst s') = retry_count (fst s) + Z.of_nat (min rounds left) /\
  last_ack_time (fst s') = last_ack_time (fst s) /\
  outbox (snd s') =
    (outbox (snd s) ++ repeat (current_frame content s) (min rounds left))%list.
Proof.
  intros Hs Hrc Ht0 Hts rounds left s'. subst rounds left s'.
  apply (run_ticks_expired content (t0 :: ts) s Hs Hrc).
  apply Forall_cons. split; [exact Ht0|].
  eapply Forall_impl; [exact Hts|]. cbv beta. intros t Ht. lia.
Qed.

Lemma C10_retries_on_consecutive_ticks_witness :
  let ts := [132; 133; 134; 135; 136] in
  let rounds := length (131 :: ts) in
  let left := Z.to_nat (MAX_RETRIES - retry_count (fst ex_sending1)) in
  let s' := run_ticks (131 :: ts) ex_sending1 in
  transfer_active (fst s') = bool_decide (rounds <= left)%nat /\
  retry_count (fst s') = retry_count (fst ex_sending1) + Z.of_nat (min rounds left) /\
  last_ack_time (fst s') = last_ack_time (fst ex_sending1) /\
  outbox (snd s') =
    (outbox (snd ex_sending1) ++
     repeat (current_frame ex_content ex_sending1) (min rounds left))%list.
Proof.
  apply (C10_retries_on_consecutive_ticks ex_content ex_sending1 131
           [132; 133; 134; 135; 136]).
  - apply ex_sending1_is_sending.
  - vm_compute. split; discriminate.
  - vm_compute. reflexivity.
  - repeat constructor; lia.
Defined.

(** * Further properties of the code *)

(** ** Starting a transfer *)

(** X1. Without a selected target (none, or an empty id) or without a
    selected file, [handle_send_request] only writes the log line
    "Target or File missing": no attribute changes, no session starts,
    nothing is sent. *)
Theorem X1_send_request_needs_target_and_file (s : State) :
  truthy (target_node_id (fst s)) = false \/
  selected_file_path (fst s) = None ->
  handle_send_request s =
  (Ret tt,
   (fst s, set_log (log (snd s) ++ [LogTargetOrFileMissing]) (snd s))).
Proof.
  intros H. destruct s as [a w]. cbn [fst snd] in *.
  unfold handle_send_request. mstep.
  destruct H as [H|H]; rewrite H; cbn [negb orb]; [reflexivity|].
  rewrite bool_decide_eq_false_2 by (intros [x Hx]; discriminate Hx).
  cbn [negb]. rewrite orb_true_r. reflexivity.
Qed.

Lemma X1_send_request_needs_target_and_file_witness :
  handle_send_request (initial_app, ex_sender_world) =
  (Ret tt,
   (initial_app,
    set_log (log ex_sender_world ++ [LogTargetOrFileMissing]) ex_sender_world)).
Proof.
  apply (X1_send_request_needs_target_and_file (initial_app, ex_sender_world)).
  left. reflexivity.
Defined.

(** X2. When the selected file cannot be read ([os.path.getsize]
    raises), [handle_send_request] catches the exception and logs it;
    the attributes of [self] are untouched (the session is not marked
    active, an earlier chunk count stays) and nothing is sent. *)
Theorem X2_send_request_unreadable_file (s : State) (path : string) :
  truthy (target_node_id (fst s)) = true ->
  selected_file_path (fst s) = Some path ->
  disk (snd s) !! path = None ->
  handle_send_request s =
  (Ret tt, (fst s, set_log (log (snd s) ++ [LogError OSError]) (snd s))).
Proof.
  intros Htgt Hpath Hdisk. destruct s as [a w]. cbn [fst snd] in *.
  unfold handle_send_request. mstep.
  rewrite Htgt, Hpath. cbn [negb orb].
  rewrite bool_decide_eq_true_2 by eauto. cbn [negb]. mstep.
  rewrite Hdisk. mstep. reflexivity.
Qed.

Lemma X2_send_request_unreadable_file_witness :
  let s := exec (on_directory_tree_file_selected "docs/gone.bin") ex_sender in
  handle_send_request s =
  (Ret tt, (fst s, set_log (log (snd s) ++ [LogError OSError]) (snd s))).
Proof.
  apply (X2_send_request_unreadable_file
           (exec (on_directory_tree_file_selected "docs/gone.bin") ex_sender)
           "docs/gone.bin");
    vm_compute; reflexivity.
Defined.

(** X3. With a target and a readable file, [handle_send_request] starts
    a session at chunk 0 that is active and stamped with the current
    time, leaves the retry count as it was, and puts one request on the
    link.  The declared count [n] is at least 1, also for an empty file,
    and the chunks 1..n cover the file with fewer than 120 bytes (maybe
    none) in the last one: [(n - 1) * 120 <= size < n * 120]. *)
Theorem X3_send_request_starts_session (s : State) (path : string)
    (content : list byte) :
  truthy (target_node_id (fst s)) = true ->
  selected_file_path (fst s) = Some path ->
  disk (snd s) !! path = Some content ->
  let size := Z.of_nat (length content) in
  let s' := exec handle_send_request s in
  let n := total_chunks (fst s') in
  1 <= n /\
  (n - 1) * CHUNK_SIZE <= size < n * CHUNK_SIZE /\
  current_chunk (fst s') = 0 /\
  transfer_active (fst s') = true /\
  last_ack_time (fst s') = now (snd s) /\
  retry_count (fst s') = retry_count (fst s) /\
  emitted handle_send_request s
  = [(request_frame (basename path) size n, target_node_id (fst s))].
Proof.
  intros Htgt Hpath Hdisk size s' n. subst s' n.
  destruct s as [a w]. cbn [fst snd] in *.
  assert (emitted handle_send_request (a, w)
          = [(request_frame (basename path) size (size / CHUNK_SIZE + 1),
              target_node_id a)]) as Hemit.
  { apply emitted_app.
    rewrite (handle_send_request_ok a w path content Htgt Hpath Hdisk).
    destruct w; reflexivity. }
  rewrite (handle_send_request_ok a w path content Htgt Hpath Hdisk).
  fold size. cbn [fst snd].
  replace (total_chunks (set_last_ack_time _ _)) with (size / CHUNK_SIZE + 1)
    by (destruct a; reflexivity).
  pose proof (Z.div_mod size 120 ltac:(lia)) as Hdm.
  pose proof (Z.mod_pos_bound size 120 ltac:(lia)) as Hb.
  assert (0 <= size / 120) by (apply Z.div_pos; subst size; lia).
  unfold CHUNK_SIZE in *.
  split; [lia|]. split; [lia|].
  destruct a; cbn. auto.
Qed.

Lemma X3_send_request_starts_session_witness :
  let size := Z.of_nat (length ex_content) in
  let s' := exec handle_send_request ex_sender in
  let n := total_chunks (fst s') in
  1 <= n /\
  (n - 1) * CHUNK_SIZE <= size < n * CHUNK_SIZE /\
  current_chunk (fst s') = 0 /\
  transfer_active (fst s') = true /\
  last_ack_time (fst s') = now (snd ex_sender) /\
  retry_count (fst s') = retry_count (fst ex_sender) /\
  emitted handle_send_request ex_sender
  = [(request_frame (basename "docs/a.bin") size n,
      target_node_id (fst ex_sender))].
Proof.
  apply (X3_send_request_starts_session ex_sender "docs/a.bin" ex_content);
    vm_compute; reflexivity.
Defined.

(** X4. The request survives the wire.  When the name of the selected
    file holds no [|], the request that [handle_send_request] emits,
    handed to the handler of a receiver in any state, makes the receiver
    store that name and the sender's chunk count, empty its buffer
    (whatever it held) and answer [MESHZ_ACK] to the sender. *)
Theorem X4_request_round_trip (s r : State) (from path : string)
    (content : list byte) :
  truthy (target_node_id (fst s)) = true ->
  selected_file_path (fst s) = Some path ->
  disk (snd s) !! path = Some content ->
  has_char "|" (basename path) = false ->
  let n := total_chunks (fst (exec handle_send_request s)) in
  let r' := deliver (map (fun m => text_packet from (fst m))
                       (emitted handle_send_request s)) r in
  receiver_part (fst r') = (Some (basename path), n, ∅) /\
  sender_part (fst r') = sender_part (fst r) /\
  emitted (on_packet_received
             (text_packet from
                (request_frame (basename path) (Z.of_nat (length content)) n)))
    r
  = [(ack_frame, Some from)].
Proof.
  intros Htgt Hpath Hdisk Hname n r'. subst n r'.
  assert (emitted handle_send_request s
          = [(request_frame (basename path) (Z.of_nat (length content))
                (total_chunks (fst (exec handle_send_request s))),
              target_node_id (fst s))]) as Hemit.
  { destruct s as [a w]. cbn [fst snd] in *. apply emitted_app.
    rewrite (handle_send_request_ok a w path content Htgt Hpath Hdisk).
    destruct a, w; reflexivity. }
  rewrite Hemit. cbn [map fst]. unfold deliver. cbn [fold_left].
  split; [|split].
  - rewrite deliver_request_frame by exact Hname.
    destruct r as [[ ] ?]. reflexivity.
  - rewrite deliver_request_frame by exact Hname.
    destruct r as [[ ] ?]. reflexivity.
  - apply emitted_app. rewrite deliver_request_frame by exact Hname.
    destruct r as [? [ ]]. reflexivity.
Qed.

Lemma X4_request_round_trip_witness :
  let n := total_chunks (fst (exec handle_send_request ex_sender)) in
  let r' := deliver (map (fun m => text_packet "!s" (fst m))
                       (emitted handle_send_request ex_sender))
              ex_receiving2 in
  receiver_part (fst r') = (Some (basename "docs/a.bin"), n, ∅) /\
  sender_part (fst r') = sender_part (fst ex_receiving2) /\
  emitted (on_packet_received
             (text_packet "!s"
                (request_frame (basename "docs/a.bin")
                   (Z.of_nat (length ex_content)) n)))
    ex_receiving2
  = [(ack_frame, Some "!s")].
Proof.
  apply (X4_request_round_trip ex_sender ex_receiving2 "!s" "docs/a.bin"
           ex_content);
    vm_compute; reflexivity.
Defined.

(** ** Chunk acknowledgments *)

Lemma deliver_chunk_ack (sender : string) (k : Z) (s : State) :
  on_packet_received (text_packet sender (chunk_ack_frame k)) s =
  (Ret tt, if accepts (Some sender) s then after_chunk_ack k s else s).
Proof.
  unfold on_packet_received, try_except.
  rewrite text_packet_body, on_text_eq.
  destruct (FrameFacts.chunk_ack_frame_kind k) as (-> & -> & -> & ->).
  rewrite parse_chunk_ack_frame. destruct (accepts (Some sender) s); reflexivity.
Qed.

Lemma after_send_ok (content : list byte) (path : string) (s : State) :
  selected_file_path (fst s) = Some path ->
  disk (snd s) !! path = Some content ->
  1 <= current_chunk (fst s) ->
  after_send s =
  (fst s, set_outbox (outbox (snd s) ++ [current_frame content s]) (snd s)).
Proof.
  intros Hpath Hdisk Hcur. unfold after_send, read_current_chunk, current_frame.
  rewrite Hpath, Hdisk.
  replace ((current_chunk (fst s) - 1) * CHUNK_SIZE <? 0) with false
    by (symmetry; apply Z.ltb_ge; unfold CHUNK_SIZE; lia).
  reflexivity.
Qed.

(** An accepted acknowledgment of the current chunk that is not the last
    one, the file being readable. *)
Lemma chunk_ack_next (sender path : string) (content : list byte) (s : State) :
  accepts (Some sender) s = true ->
  selected_file_path (fst s) = Some path ->
  disk (snd s) !! path = Some content ->
  0 <= current_chunk (fst s) < total_chunks (fst s) ->
  let cur := current_chunk (fst s) in
  exec (on_packet_received (text_packet sender (chunk_ack_frame cur))) s =
  (set_current_chunk (cur + 1)
     (set_retry_count 0 (set_last_ack_time (now (snd s)) (fst s))),
   set_outbox (outbox (snd s) ++
               [(chunk_frame (cur + 1) (chunk_of content (cur + 1)),
                 target_node_id (fst s))])
     (set_ui (ui (snd s) ++
              [Progress (cur + 1) (total_chunks (fst s)) "Sending"]) (snd s))).
Proof.
  intros Hacc Hpath Hdisk Hcur cur. subst cur.
  unfold exec. rewrite deliver_chunk_ack, Hacc. cbn [snd].
  unfold after_chunk_ack. rewrite Z.eqb_refl.
  replace (current_chunk (fst s) + 1 <=? total_chunks (fst s)) with true
    by (symmetry; apply Z.leb_le; lia).
  rewrite (after_send_ok content path).
  - destruct s as [[ ] [ ]]; reflexivity.
  - destruct s as [[ ] ?]; exact Hpath.
  - destruct s as [? [ ]]; exact Hdisk.
  - destruct s as [[ ] ?]; cbn in *. lia.
Qed.

(** X5. A chunk acknowledgment that is not accepted (the session is not
    active, or the frame is not from the selected target) or whose index
    is not the current chunk index (stale or premature) changes nothing:
    the state is the same and nothing is sent. *)
Theorem X5_stale_chunk_ack_ignored (sender : string) (k : Z) (s : State) :
  accepts (Some sender) s = false \/ k <> current_chunk (fst s) ->
  on_packet_received (text_packet sender (chunk_ack_frame k)) s = (Ret tt, s).
Proof.
  intros H. rewrite deliver_chunk_ack.
  destruct (accepts (Some sender) s); [|reflexivity].
  destruct H as [H|H]; [discriminate H|].
  unfold after_chunk_ack. apply Z.eqb_neq in H. rewrite H. reflexivity.
Qed.

Lemma X5_stale_chunk_ack_ignored_witness :
  on_packet_received (text_packet "!r" (chunk_ack_frame 1)) ex_sending2
  = (Ret tt, ex_sending2).
Proof.
  apply (X5_stale_chunk_ack_ignored "!r" 1 ex_sending2).
  right. vm_compute. discriminate.
Defined.

(** X6. An accepted acknowledgment of the current chunk, when that is
    not the last chunk and the selected file is readable, moves the
    session to the next index, clears the retry count, stamps the time
    of the last acknowledgment with the current time, keeps the session
    active and sends exactly the frame of the next chunk. *)
Theorem X6_chunk_ack_sends_next_chunk (sender path : string)
    (content : list byte) (s : State) :
  accepts (Some sender) s = true ->
  selected_file_path (fst s) = Some path ->
  disk (snd s) !! path = Some content ->
  0 <= current_chunk (fst s) < total_chunks (fst s) ->
  let cur := current_chunk (fst s) in
  let ack := on_packet_received (text_packet sender (chunk_ack_frame cur)) in
  let s' := exec ack s in
  current_chunk (fst s') = cur + 1 /\
  retry_count (fst s') = 0 /\
  last_ack_time (fst s') = now (snd s) /\
  transfer_active (fst s') = true /\
  emitted ack s
  = [(chunk_frame (cur + 1) (chunk_of content (cur + 1)),
      target_node_id (fst s))].
Proof.
  intros Hacc Hpath Hdisk Hcur cur ack s'. subst cur ack s'.
  assert (transfer_active (fst s) = true) as Hact
    by (unfold accepts in Hacc; apply andb_prop in Hacc; tauto).
  unfold emitted.
  rewrite (chunk_ack_next sender path content s Hacc Hpath Hdisk Hcur).
  destruct s as [[ ] [ ]]; cbn in *.
  rewrite drop_app_length. auto.
Qed.

Lemma X6_chunk_ack_sends_next_chunk_witness :
  let cur := current_chunk (fst ex_sending1) in
  let ack := on_packet_received (text_packet "!r" (chunk_ack_frame cur)) in
  let s' := exec ack ex_sending1 in
  current_chunk (fst s') = cur + 1 /\
  retry_count (fst s') = 0 /\
  last_ack_time (fst s') = now (snd ex_sending1) /\
  transfer_active (fst s') = true /\
  emitted ack ex_sending1
  = [(chunk_frame (cur + 1) (chunk_of ex_content (cur + 1)),
      target_node_id (fst ex_sending1))].
Proof.
  apply (X6_chunk_ack_sends_next_chunk "!r" "docs/a.bin" ex_content ex_sending1).
  - vm_compute. reflexivity.
  - vm_compute. reflexivity.
  - vm_compute. reflexivity.
  - vm_compute. split; [discriminate|reflexivity].
Defined.

(** X7. An accepted acknowledgment of the current chunk, when that is
    the last chunk (or beyond the declared count), ends the session: the
    index still moves on by one, the session is no longer active, the
    completion is logged, the progress display is hidden, and nothing is
    sent; the file is not read. *)
Theorem X7_last_chunk_ack_completes (sender : string) (s : State) :
  accepts (Some sender) s = true ->
  total_chunks (fst s) <= current_chunk (fst s) ->
  let cur := current_chunk (fst s) in
  let ack := on_packet_received (text_packet sender (chunk_ack_frame cur)) in
  exec ack s =
  (set_transfer_active false
     (set_current_chunk (cur + 1)
        (set_retry_count 0 (set_last_ack_time (now (snd s)) (fst s)))),
   set_ui (ui (snd s) ++ [HideProgress])
     (set_log (log (snd s) ++ [LogTransferComplete]) (snd s))) /\
  emitted ack s = [].
Proof.
  intros Hacc Hlast cur ack. subst cur ack.
  assert (exec (on_packet_received
                  (text_packet sender (chunk_ack_frame (current_chunk (fst s)))))
            s
          = (set_transfer_active false
               (set_current_chunk (current_chunk (fst s) + 1)
                  (set_retry_count 0
                     (set_last_ack_time (now (snd s)) (fst s)))),
             set_ui (ui (snd s) ++ [HideProgress])
               (set_log (log (snd s) ++ [LogTransferComplete]) (snd s))))
    as Hexec.
  { unfold exec. rewrite deliver_chunk_ack, Hacc. cbn [snd].
    unfold after_chunk_ack. rewrite Z.eqb_refl.
    replace (current_chunk (fst s) + 1 <=? total_chunks (fst s)) with false
      by (symmetry; apply Z.leb_gt; lia).
    reflexivity. }
  split; [exact Hexec|].
  apply emitted_app. rewrite Hexec. destruct s as [? [ ]]. cbn.
  rewrite app_nil_r. reflexivity.
Qed.

Lemma X7_last_chunk_ack_completes_witness :
  let s := exec (on_packet_received (text_packet "!r" (chunk_ack_frame 2)))
             ex_sending2 in
  let cur := current_chunk (fst s) in
  let ack := on_packet_received (text_packet "!r" (chunk_ack_frame cur)) in
  exec ack s =
  (set_transfer_active false
     (set_current_chunk (cur + 1)
        (set_retry_count 0 (set_last_ack_time (now (snd s)) (fst s)))),
   set_ui (ui (snd s) ++ [HideProgress])
     (set_log (log (snd s) ++ [LogTransferComplete]) (snd s))) /\
  emitted ack s = [].
Proof.
  apply (X7_last_chunk_ack_completes "!r"
           (exec (on_packet_received (text_packet "!r" (chunk_ack_frame 2)))
              ex_sending2)).
  - vm_compute. reflexivity.
  - vm_compute. discriminate.
Defined.

(** X8. The session does not pin the file.  If the user selects another
    readable file while a transfer is active, the next accepted
    acknowledgment of the current chunk sends the next chunk of the newly
    selected file, under the index of the running session. *)
Theorem X8_selecting_file_redirects_transfer (sender path2 : string)
    (other : list byte) (s : State) :
  accepts (Some sender) s = true ->
  disk (snd s) !! path2 = Some other ->
  0 <= current_chunk (fst s) < total_chunks (fst s) ->
  let cur := current_chunk (fst s) in
  let s2 := exec (on_directory_tree_file_selected path2) s in
  emitted (on_packet_received (text_packet sender (chunk_ack_frame cur))) s2
  = [(chunk_frame (cur + 1) (chunk_of other (cur + 1)),
      target_node_id (fst s))].
Proof.
  intros Hacc Hdisk Hcur cur s2. subst cur s2.
  apply emitted_app.
  pose proof (chunk_ack_next sender path2 other
                (exec (on_directory_tree_file_selected path2) s)) as H.
  destruct s as [[ ] [ ]]. cbn in *.
  rewrite H; auto.
Qed.

Lemma X8_selecting_file_redirects_transfer_witness :
  let s := with_file "docs/c.bin" ex_other ex_sending2 in
  let cur := current_chunk (fst s) in
  let s2 := exec (on_directory_tree_file_selected "docs/c.bin") s in
  emitted (on_packet_received (text_packet "!r" (chunk_ack_frame cur))) s2
  = [(chunk_frame (cur + 1) (chunk_of ex_other (cur + 1)),
      target_node_id (fst s))] /\
  cur = 2 /\
  chunk_frame 3 (chunk_of ex_other 3) = "ZD|3|UE9OTUxLSklIR0ZFRENCQQ==" /\
  emitted (on_packet_received (text_packet "!r" (chunk_ack_frame cur))) s
  = [("ZD|3|d3h5ejAxMjM0NTY3ODkrLw==", Some "!r")].
Proof.
  split.
  - apply (X8_selecting_file_redirects_transfer "!r" "docs/c.bin" ex_other
             (with_file "docs/c.bin" ex_other ex_sending2)).
    + vm_compute. reflexivity.
    + vm_compute. reflexivity.
    + vm_compute. split; [discriminate|reflexivity].
  - vm_compute. auto.
Defined.

(** ** Sending a chunk *)

(** X9. When no file is selected, or the selected file cannot be opened,
    or the chunk index is 0 or less (the seek position is negative),
    [send_next_chunk] catches the exception: it sends nothing, logs a
    chunk error and stops the session ([transfer_active = False]); no
    other attribute changes. *)
Theorem X9_send_failure_stops_session (s : State) :
  selected_file_path (fst s) = None \/
  (exists path, selected_file_path (fst s) = Some path /\
                disk (snd s) !! path = None) \/
  current_chunk (fst s) <= 0 ->
  exists e,
    send_next_chunk s =
    (Ret tt,
     (set_transfer_active false (fst s),
      set_log (log (snd s) ++ [LogChunkError e]) (snd s))).
Proof.
  intros H. rewrite send_next_chunk_eq. unfold after_send, read_current_chunk.
  destruct (selected_file_path (fst s)) as [p|] eqn:Hp; [|eauto].
  destruct (disk (snd s) !! p) as [f|] eqn:Hd; [|eauto].
  destruct H as [H|[(path & Hpath & Hnone)|H]]; [discriminate H| |].
  - injection Hpath as <-. congruence.
  - replace ((current_chunk (fst s) - 1) * CHUNK_SIZE <? 0) with true
      by (symmetry; apply Z.ltb_lt; unfold CHUNK_SIZE; lia).
    eauto.
Qed.

Lemma X9_send_failure_stops_session_witness :
  exists e,
    send_next_chunk ex_requested =
    (Ret tt,
     (set_transfer_active false (fst ex_requested),
      set_log (log (snd ex_requested) ++ [LogChunkError e]) (snd ex_requested))).
Proof.
  apply (X9_send_failure_stops_session ex_requested).
  right. right. vm_compute. discriminate.
Defined.

Lemma b2a_length (bs : list byte) :
  Z.of_nat (String.length (Base64.b2a bs))
  = 4 * ((Z.of_nat (length bs) + 2) / 3).
Proof.
  induction bs as [| a | a b | a b c l IH] using Base64Facts.list_ind3;
    try reflexivity.
  cbn [Base64.b2a String.length length].
  rewrite !Nat2Z.inj_succ, IH.
  Z.div_mod_to_equations. lia.
Qed.


(** ** The watchdog when nothing is due *)

Lemma run_ticks_quiet (ts : list Z) :
  forall s,
  Forall (fun t => expired (at_time t s) = false) ts ->
  fst (run_ticks ts s) = fst s /\
  outbox (snd (run_ticks ts s)) = outbox (snd s) /\
  log (snd (run_ticks ts s)) = log (snd s) /\
  disk (snd (run_ticks ts s)) = disk (snd s).
Proof.
  induction ts as [|t ts IH]; intros s Hq; [auto|].
  apply Forall_cons in Hq as [Ht Hts].
  rewrite run_ticks_cons. unfold exec. rewrite watch_tick_eq, Ht. cbn [snd].
  destruct (IH (at_time t s)) as (H1 & H2 & H3 & H4).
  - eapply Forall_impl; [exact Hts|]. cbv beta. intros u Hu.
    destruct s as [a [ ]]. exact Hu.
  - rewrite H1, H2, H3, H4. destruct s as [a [ ]]. auto.
Qed.

(** X11. The watchdog never repeats the request.  While the chunk index
    is 0 (the request is out, its [MESHZ_ACK] has not come), rounds of
    the watchdog at any clock readings, however late, leave [self], the
    log and the disk as they are and send nothing. *)
Theorem X11_watchdog_idle_before_first_ack (ts : list Z) (s : State) :
  current_chunk (fst s) <= 0 ->
  fst (run_ticks ts s) = fst s /\
  outbox (snd (run_ticks ts s)) = outbox (snd s) /\
  log (snd (run_ticks ts s)) = log (snd s) /\
  disk (snd (run_ticks ts s)) = disk (snd s).
Proof.
  intros Hcur. apply run_ticks_quiet.
  apply Forall_forall. intros t _. unfold expired.
  destruct s as [a w]. cbn [fst snd at_time].
  replace (0 <? current_chunk a) with false
    by (symmetry; apply Z.ltb_ge; exact Hcur).
  rewrite andb_false_r. reflexivity.
Qed.

Lemma X11_watchdog_idle_before_first_ack_witness :
  let ts := [131; 1000; 100000] in
  fst (run_ticks ts ex_requested) = fst ex_requested /\
  outbox (snd (run_ticks ts ex_requested)) = outbox (snd ex_requested) /\
  log (snd (run_ticks ts ex_requested)) = log (snd ex_requested) /\
  disk (snd (run_ticks ts ex_requested)) = disk (snd ex_requested).
Proof.
  apply (X11_watchdog_idle_before_first_ack [131; 1000; 100000] ex_requested).
  vm_compute. discriminate.
Defined.

(** X12. The timeout is strict.  Rounds of the watchdog at clock readings
    that are at most [TIMEOUT_SECONDS] after the last acknowledgment,
    the reading exactly 30 seconds after it included, do nothing: no
    retry is counted and nothing is sent. *)
Theorem X12_watchdog_quiet_within_timeout (ts : list Z) (s : State) :
  Forall (fun t => t - last_ack_time (fst s) <= TIMEOUT_SECONDS) ts ->
  fst (run_ticks ts s) = fst s /\
  outbox (snd (run_ticks ts s)) = outbox (snd s) /\
  log (snd (run_ticks ts s)) = log (snd s) /\
  disk (snd (run_ticks ts s)) = disk (snd s).
Proof.
  intros Hts. apply run_ticks_quiet.
  eapply Forall_impl; [exact Hts|]. cbv beta. intros t Ht.
  unfold expired. destruct s as [a [ ]]. cbn [fst snd at_time now set_now] in *.
  replace (TIMEOUT_SECONDS <? t - last_ack_time a) with false
    by (symmetry; apply Z.ltb_ge; exact Ht).
  apply andb_false_r.
Qed.

Lemma X12_watchdog_quiet_within_timeout_witness :
  let ts := [101; 115; 130] in
  fst (run_ticks ts ex_sending1) = fst ex_sending1 /\
  outbox (snd (run_ticks ts ex_sending1)) = outbox (snd ex_sending1) /\
  log (snd (run_ticks ts ex_sending1)) = log (snd ex_sending1) /\
  disk (snd (run_ticks ts ex_sending1)) = disk (snd ex_sending1).
Proof.
  apply (X12_watchdog_quiet_within_timeout [101; 115; 130] ex_sending1).
  repeat constructor; vm_compute; discriminate.
Defined.

(** ** Saving the received file *)

Lemma gather_partial (buf : gmap Z (list byte)) (k : nat) :
  forall first n,
  (forall j, first <= j < first + Z.of_nat k -> is_Some (buf !! j)) ->
  buf !! (first + Z.of_nat k) = None ->
  (k < n)%nat ->
  gather buf first n
  = (concat (map (fun j => default [] (buf !! j)) (seqZ first (Z.of_nat k))),
     false).
Proof.
  induction k as [|k IH]; intros first n Hall Hnone Hlt.
  - destruct n as [|n]; [lia|]. cbn [gather].
    rewrite Z.add_0_r in Hnone. rewrite Hnone. reflexivity.
  - destruct n as [|n]; [lia|]. cbn [gather].
    destruct (Hall first ltac:(lia)) as [data Hdata]. rewrite Hdata.
    rewrite (IH (first + 1) n).
    + rewrite (seqZ_cons first) by lia. cbn [map concat].
      rewrite Hdata. cbn [default].
      replace (Z.pred (Z.of_nat (S k))) with (Z.of_nat k) by lia.
      reflexivity.
    + intros j Hj. apply Hall. lia.
    + rewrite <- Hnone. f_equal. lia.
    + lia.
Qed.

(** X13. [save_received_file] stops at the first missing index.  If the
    downloads directory is writable, the buffer holds the indices
    1..k-1 and lacks k, and k is within the declared count, the output
    file is created (or emptied) and receives exactly the chunks 1..k-1
    in order; the [KeyError] is caught and logged as a save error;
    [self] is unchanged and the file stays as written. *)
Theorem X13_save_stops_at_first_missing_index (a : App) (w : World) (k : Z) :
  let buf := receive_buffer a in
  let path := save_path_of (receiving_file_name a) in
  downloads_ok w = true ->
  1 <= k <= receiving_total_chunks a ->
  (forall j, 1 <= j < k -> is_Some (buf !! j)) ->
  buf !! k = None ->
  save_received_file (a, w) =
  (Ret tt,
   (a, set_log (log w ++ [LogSaveError KeyError])
         (set_disk (<[path := assemble buf (k - 1)]> (disk w)) w))).
Proof.
  intros buf path Hok Hk Hall Hnone.
  rewrite save_received_file_eq. unfold after_save. cbn [fst snd].
  rewrite Hok.
  rewrite (gather_partial _ (Z.to_nat (k - 1))).
  - unfold assemble. rewrite Z2Nat.id by lia. reflexivity.
  - intros j Hj. apply Hall. lia.
  - replace (1 + Z.of_nat (Z.to_nat (k - 1))) with k by lia. exact Hnone.
  - lia.
Qed.

Lemma X13_save_stops_at_first_missing_index_witness :
  let s := deliver [text_packet "!s" "ZD|1|QUJD"] ex_receiving2 in
  save_received_file (fst s, snd s) =
  (Ret tt,
   (fst s,
    set_log (log (snd s) ++ [LogSaveError KeyError])
      (set_disk
         (<[save_path_of (receiving_file_name (fst s))
            := assemble (receive_buffer (fst s)) (2 - 1)]> (disk (snd s)))
         (snd s)))).
Proof.
  intros s.
  apply (X13_save_stops_at_first_missing_index (fst s) (snd s) 2).
  - vm_compute. reflexivity.
  - vm_compute. split; discriminate.
  - intros j Hj. assert (j = 1) as -> by lia. vm_compute. eauto.
  - vm_compute. reflexivity.
Defined.

(** X14. When the output file cannot be created, a data frame is still
    stored and acknowledged, with the text [MESHZ_GOCONT|] followed by
    the decimal of its index, to the sender of the frame; the failure of
    [open] is caught inside [save_received_file], so the disk is
    untouched, and when the frame completed the buffer a save error is
    logged. *)
Theorem X14_unwritable_downloads (sender : string) (i : Z) (raw : list byte)
    (s : State) :
  downloads_ok (snd s) = false ->
  let frame :=
    on_packet_received
      (text_packet sender ("ZD|" ++ Py.str i ++ "|" ++ Base64.b64encode raw)) in
  let buf := <[i := raw]> (receive_buffer (fst s)) in
  let s' := exec frame s in
  receive_buffer (fst s') = buf /\
  disk (snd s') = disk (snd s) /\
  emitted frame s = [("MESHZ_GOCONT|" ++ Py.str i, Some sender)] /\
  log (snd s') =
    (if Z.of_nat (size buf) =? receiving_total_chunks (fst s)
     then log (snd s) ++ [LogSaveError OSError] else log (snd s))%list.
Proof.
  intros Hok frame buf s'. subst frame buf s'.
  change ("ZD|" ++ Py.str i ++ "|" ++ Base64.b64encode raw)
    with (chunk_frame i raw).
  change ("MESHZ_GOCONT|" ++ Py.str i) with (chunk_ack_frame i).
  assert (emitted (on_packet_received (text_packet sender (chunk_frame i raw))) s
          = [(chunk_ack_frame i, Some sender)]) as Hemit.
  { apply emitted_app. unfold exec. rewrite deliver_chunk_frame.
    apply after_data_chunk_outbox. }
  unfold exec. rewrite deliver_chunk_frame. cbn [snd].
  split; [rewrite after_data_chunk_app; destruct s as [[ ] ?]; reflexivity|].
  unfold after_data_chunk, after_save.
  destruct s as [a [ ]]. cbn in *. subst.
  destruct (_ =? _); cbn; auto.
Qed.

Lemma X14_unwritable_downloads_witness :
  let s := ex_unwritable in
  let raw := list_byte_of_string "ABC" in
  let frame :=
    on_packet_received
      (text_packet "!s" ("ZD|" ++ Py.str 1 ++ "|" ++ Base64.b64encode raw)) in
  let buf := <[1 := raw]> (receive_buffer (fst s)) in
  let s' := exec frame s in
  (receive_buffer (fst s') = buf /\
   disk (snd s') = disk (snd s) /\
   emitted frame s = [("MESHZ_GOCONT|" ++ Py.str 1, Some "!s")] /\
   log (snd s') =
     (if Z.of_nat (size buf) =? receiving_total_chunks (fst s)
      then log (snd s) ++ [LogSaveError OSError] else log (snd s))%list) /\
  Z.of_nat (size buf) = receiving_total_chunks (fst s) /\
  log (snd s') = [LogReq (Some "!s") "f.bin"; LogSaveError OSError] /\
  disk (snd s') = ∅.
Proof.
  split.
  - apply (X14_unwritable_downloads "!s" 1 (list_byte_of_string "ABC")
             ex_unwritable).
    vm_compute. reflexivity.
  - vm_compute. auto.
Defined.

(** The data frames of a list of chunks, each with its sender. *)
Lemma deliver_cons (p : Packet) (ps : list Packet) (s : State) :
  deliver (p :: ps) s = deliver ps (exec (on_packet_received p) s).
Proof. reflexivity. Qed.

(** X15. A receiver whose declared chunk count is 0 or negative (as
    before any request, or after a request that declares such a count)
    never writes a file: whatever data frames arrive, from whomever, in
    whatever order, each is stored and the disk stays as it is. *)
Theorem X15_no_file_without_positive_count
    (chunks : list (string * Z * list byte)) (s : State) :
  receiving_total_chunks (fst s) <= 0 ->
  let frames :=
    map (fun c => text_packet (fst (fst c)) (chunk_frame (snd (fst c)) (snd c)))
      chunks in
  disk (snd (deliver frames s)) = disk (snd s) /\
  log (snd (deliver frames s)) = log (snd s).
Proof.
  intros Htotal frames. subst frames. revert s Htotal.
  induction chunks as [|[[from i] raw] chunks IH]; intros s Htotal; [auto|].
  cbn [map fst snd]. rewrite deliver_cons.
  assert (exec (on_packet_received (text_packet from (chunk_frame i raw))) s
          = (set_receive_buffer (<[i := raw]> (receive_buffer (fst s))) (fst s),
             set_outbox (outbox (snd s) ++ [(chunk_ack_frame i, Some from)])
               (set_ui (ui (snd s) ++
                        [Progress
                           (Z.of_nat (size (<[i := raw]> (receive_buffer (fst s)))))
                           (receiving_total_chunks (fst s)) "Receiving"])
                  (snd s)))) as Hstep.
  { unfold exec. rewrite deliver_chunk_frame. cbn [snd].
    destruct s as [a w]. apply incomplete_delivery.
    cbn [fst] in *.
    assert (size (<[i := raw]> (receive_buffer a)) <> 0%nat) as Hsz.
    { intros H0. apply map_size_empty_inv in H0.
      exact (insert_non_empty _ _ _ H0). }
    lia. }
  rewrite Hstep.
  destruct (IH (set_receive_buffer (<[i := raw]> (receive_buffer (fst s))) (fst s),
                set_outbox (outbox (snd s) ++ [(chunk_ack_frame i, Some from)])
                  (set_ui (ui (snd s) ++
                           [Progress
                              (Z.of_nat (size (<[i := raw]> (receive_buffer (fst s)))))
                              (receiving_total_chunks (fst s)) "Receiving"])
                     (snd s)))) as [Hd Hl].
  { destruct s as [[ ] ?]. exact Htotal. }
  rewrite Hd, Hl. destruct s as [? [ ]]. auto.
Qed.

Lemma X15_no_file_without_positive_count_witness :
  let frames :=
    map (fun c => text_packet (fst (fst c)) (chunk_frame (snd (fst c)) (snd c)))
      [("!s", 1, list_byte_of_string "ABC"); ("!t", 2, list_byte_of_string "DEF")] in
  disk (snd (deliver frames ex_receiver)) = disk (snd ex_receiver) /\
  log (snd (deliver frames ex_receiver)) = log (snd ex_receiver).
Proof.
  apply (X15_no_file_without_positive_count
           [("!s", 1, list_byte_of_string "ABC");
            ("!t", 2, list_byte_of_string "DEF")] ex_receiver).
  vm_compute. discriminate.
Defined.

(** X16. The buffer outlives the save, so a duplicate of the frame that
    completed it (sent again because its acknowledgment was lost, say)
    completes it again: [self] and the file are the same as after the
    first delivery, the file having been written a second time, which
    the log records. *)
Theorem X16_duplicate_after_completion_saves_again (sender : string) (i : Z)
    (raw : list byte) (a : App) (w : World) :
  let buf := <[i := raw]> (receive_buffer a) in
  let total := receiving_total_chunks a in
  let path := save_path_of (receiving_file_name a) in
  Z.of_nat (size buf) = total ->
  (forall k, 1 <= k <= total -> is_Some (buf !! k)) ->
  downloads_ok w = true ->
  let frame := on_packet_received (text_packet sender (chunk_frame i raw)) in
  let s1 := exec frame (a, w) in
  let s2 := exec frame s1 in
  fst s2 = fst s1 /\
  disk (snd s2) = disk (snd s1) /\
  disk (snd s2) !! path = Some (assemble buf total) /\
  log (snd s2) = (log w ++ [LogFileSaved path; LogFileSaved path])%list.
Proof.
  intros buf total path Hsize Hall Hok frame s1 s2. subst frame s1 s2.
  unfold exec. rewrite !deliver_chunk_frame. cbn [snd].
  rewrite (complete_delivery (Some sender) i raw a w) by assumption.
  fold buf total path.
  assert (<[i := raw]> (receive_buffer (set_receive_buffer buf a)) = buf)
    as Hsame.
  { cbn [receive_buffer set_receive_buffer]. subst buf.
    apply insert_insert_eq. }
  rewrite complete_delivery.
  - rewrite Hsame.
    cbn [receiving_total_chunks receiving_file_name set_receive_buffer].
    fold total path.
    destruct w; cbn. rewrite insert_insert_eq, lookup_insert_eq, <- app_assoc.
    destruct a; cbn. auto.
  - rewrite Hsame. exact Hsize.
  - rewrite Hsame. exact Hall.
  - destruct w; exact Hok.
Qed.

Lemma X16_duplicate_after_completion_saves_again_witness :
  let s := exec (on_packet_received (text_packet "!s" "ZD|2|REVG"))
             ex_receiving2 in
  let raw := list_byte_of_string "ABC" in
  let buf := <[1 := raw]> (receive_buffer (fst s)) in
  let total := receiving_total_chunks (fst s) in
  let path := save_path_of (receiving_file_name (fst s)) in
  let frame := on_packet_received (text_packet "!s" (chunk_frame 1 raw)) in
  let s1 := exec frame (fst s, snd s) in
  let s2 := exec frame s1 in
  fst s2 = fst s1 /\
  disk (snd s2) = disk (snd s1) /\
  disk (snd s2) !! path = Some (assemble buf total) /\
  log (snd s2) = (log (snd s) ++ [LogFileSaved path; LogFileSaved path])%list.
Proof.
  intros s raw.
  apply (X16_duplicate_after_completion_saves_again "!s" 1 raw (fst s) (snd s)).
  - vm_compute. reflexivity.
  - intros k Hk.
    assert (receiving_total_chunks (fst s) = 2) as Htotal
      by (vm_compute; reflexivity).
    rewrite Htotal in Hk.
    assert (k = 1 \/ k = 2) as [-> | ->] by lia; vm_compute; eauto.
  - vm_compute. reflexivity.
Defined.

(** ** What a packet can and cannot touch *)

(** X17. Packets that are not for the transfer are passed over in
    silence: a packet without [decoded], a packet of another port, and a
    text that starts with none of the four tags (ordinary chat) leave
    the whole state as it is; nothing is logged and nothing is sent. *)
Theorem X17_foreign_packets_ignored (p : Packet) (s : State) :
  decoded p = None \/
  (exists dec port, decoded p = Some dec /\ portnum dec = Some port /\
                    String.eqb port "TEXT_MESSAGE_APP" = false) \/
  (exists m, text_of p = Some m /\
             Py.startswith m "MESHZ_REQ" = false /\
             Py.startswith m "ZD|" = false /\
             String.eqb m "MESHZ_ACK" = false /\
             Py.startswith m "MESHZ_GOCONT|" = false) ->
  on_packet_received p s = (Ret tt, s).
Proof.
  unfold on_packet_received, try_except, packet_body, text_of.
  intros [H | [(dec & port & Hd & Hp & Hne) | (m & Ht & H1 & H2 & H3 & H4)]].
  - rewrite H. reflexivity.
  - rewrite Hd. mstep. rewrite Hp. mstep. rewrite Hne. reflexivity.
  - destruct (decoded p) as [dec|]; [|discriminate]. mstep.
    destruct (portnum dec) as [port|]; [|discriminate]. mstep.
    destruct (payload dec) as [[m'|]|]; try discriminate.
    destruct (String.eqb port "TEXT_MESSAGE_APP"); [|discriminate].
    injection Ht as ->. mstep. rewrite on_text_eq, H1, H2, H3, H4.
    reflexivity.
Qed.

Lemma X17_foreign_packets_ignored_witness :
  on_packet_received (text_packet "!x" "hello mesh") ex_sending1
  = (Ret tt, ex_sending1).
Proof.
  apply (X17_foreign_packets_ignored (text_packet "!x" "hello mesh")
           ex_sending1).
  right. right. exists "hello mesh". repeat split; reflexivity.
Defined.

Lemma after_save_disk (s : State) :
  disk (snd (after_save s)) = disk (snd s) \/
  exists bytes,
    disk (snd (after_save s))
    = <[save_path_of (receiving_file_name (fst s)) := bytes]> (disk (snd s)).
Proof.
  unfold after_save. destruct (downloads_ok (snd s)).
  - destruct (gather _ _ _) as [bytes ok]. right. exists bytes.
    destruct s as [? [ ]]. reflexivity.
  - left. destruct s as [? [ ]]. reflexivity.
Qed.

Lemma after_data_chunk_disk (sender : option string) (i : Z) (raw : list byte)
    (s : State) :
  disk (snd (after_data_chunk sender i raw s)) = disk (snd s) \/
  exists bytes,
    disk (snd (after_data_chunk sender i raw s))
    = <[save_path_of (receiving_file_name (fst s)) := bytes]> (disk (snd s)).
Proof.
  unfold after_data_chunk. destruct (_ =? _).
  - match goal with |- context [after_save ?x] =>
      destruct (after_save_disk x) as [H|[bytes H]];
      destruct (after_save x) as [a' w'] eqn:Hsave
    end; cbn [fst snd] in *.
    + left. destruct w'; cbn in *. rewrite H. destruct s as [a [ ]]. reflexivity.
    + right. exists bytes. destruct w'; cbn in *. rewrite H.
      destruct s as [[ ] [ ]]. reflexivity.
  - left. destruct s as [a [ ]]. reflexivity.
Qed.

Lemma after_send_world (s : State) :
  disk (snd (after_send s)) = disk (snd s) /\
  receiver_part (fst (after_send s)) = receiver_part (fst s) /\
  target_node_id (fst (after_send s)) = target_node_id (fst s) /\
  selected_file_path (fst (after_send s)) = selected_file_path (fst s) /\
  total_chunks (fst (after_send s)) = total_chunks (fst s).
Proof.
  unfold after_send. destruct (read_current_chunk s);
    destruct s as [[ ] [ ]]; cbn; auto.
Qed.

(** The inbound packets sorted by what they may touch. *)
Lemma packet_effect (p : Packet) (s : State) :
  let s' := exec (on_packet_received p) s in
  target_node_id (fst s') = target_node_id (fst s) /\
  selected_file_path (fst s') = selected_file_path (fst s) /\
  total_chunks (fst s') = total_chunks (fst s) /\
  ((sender_part (fst s') = sender_part (fst s) /\
    receiver_part (fst s') = receiver_part (fst s) /\
    disk (snd s') = disk (snd s)) \/
   (sender_part (fst s') = sender_part (fst s) /\
    (disk (snd s') = disk (snd s) \/
     exists bytes,
       disk (snd s')
       = <[save_path_of (receiving_file_name (fst s)) := bytes]> (disk (snd s))) /\
    exists m, text_of p = Some m /\
      (Py.startswith m "MESHZ_REQ" = true \/ Py.startswith m "ZD|" = true)) \/
   (receiver_part (fst s') = receiver_part (fst s) /\
    disk (snd s') = disk (snd s) /\
    accepts (fromId p) s = true /\
    exists m, text_of p = Some m /\
      (m = ack_frame \/ Py.startswith m "MESHZ_GOCONT|" = true))).
Proof.
  cbv zeta.
  unfold exec, on_packet_received, try_except, packet_body, text_of.
  destruct p as [[[[port|] [[m|]|]]|] from]; cbn [decoded portnum payload fromId];
    mstep;
    try (split; [|split; [|split; [|left]]]; destruct s as [? [ ]]; auto; fail).
  - destruct (String.eqb port "TEXT_MESSAGE_APP");
      [|split; [|split; [|split; [|left]]]; auto].
    mstep. rewrite on_text_eq.
    destruct (Py.startswith m "MESHZ_REQ") eqn:Hreq.
    { assert (exists a', fst (snd (after_request from m s)) = a' /\
                sender_part a' = sender_part (fst s)) as (a' & Ha & Hsp).
      { eexists. split; [reflexivity|]. unfold after_request.
        destruct (nth_error _ 1); [|reflexivity].
        destruct (nth_error _ 3); [|destruct s as [[ ] ?]; reflexivity].
        destruct (Py.int _); destruct s as [[ ] ?]; reflexivity. }
      assert (disk (snd (snd (after_request from m s))) = disk (snd s)) as Hdk.
      { unfold after_request.
        destruct (nth_error _ 1); [|reflexivity].
        destruct (nth_error _ 3); [|reflexivity].
        destruct (Py.int _); destruct s as [? [ ]]; reflexivity. }
      destruct (after_request from m s) as [[[]|e] [a1 w1]];
        cbn [fst snd] in *; subst a1; destruct w1; cbn [disk set_log] in *;
        unfold sender_part in Hsp; injection Hsp as H1 H2 H3 H4 H5 H6 H7;
        (split; [exact H1|]; split; [exact H2|]; split; [exact H4|]);
        right; left;
        (split; [unfold sender_part; congruence|]);
        (split; [left; exact Hdk|]);
        exists m; auto. }
    destruct (Py.startswith m "ZD|") eqn:Hzd.
    { destruct (parse_data_chunk m) as [[c raw]|e].
      - cbn [snd].
        pose proof (after_data_chunk_app from c raw s) as Hfst.
        pose proof (after_data_chunk_disk from c raw s) as Hdk.
        destruct (after_data_chunk from c raw s) as [a1 w1].
        cbn [fst snd] in *. subst a1.
        split; [destruct s as [[ ] ?]; reflexivity|].
        split; [destruct s as [[ ] ?]; reflexivity|].
        split; [destruct s as [[ ] ?]; reflexivity|].
        right. left. split; [destruct s as [[ ] ?]; reflexivity|].
        split; [exact Hdk|]. exists m. auto.
      - split; [|split; [|split; [|left]]]; destruct s as [? [ ]]; auto. }
    destruct (String.eqb m "MESHZ_ACK") eqn:Hack.
    { apply String.eqb_eq in Hack. subst m. cbn [snd]. unfold after_ack.
      destruct (accepts from s) eqn:Hacc;
        [|split; [|split; [|split; [|left]]]; auto].
      match goal with |- context [after_send ?x] =>
        destruct (after_send_world x) as (Hd & Hr & Ht & Hp & Hn)
      end.
      rewrite Hd, Hr, Ht, Hp, Hn.
      split; [destruct s as [[ ] ?]; reflexivity|].
      split; [destruct s as [[ ] ?]; reflexivity|].
      split; [destruct s as [[ ] ?]; reflexivity|].
      right. right.
      split; [destruct s as [[ ] ?]; reflexivity|].
      split; [destruct s as [? [ ]]; reflexivity|].
      split; [reflexivity|]. exists "MESHZ_ACK". auto. }
    destruct (Py.startswith m "MESHZ_GOCONT|") eqn:Hgo;
      [|split; [|split; [|split; [|left]]]; auto].
    destruct (accepts from s) eqn:Hacc;
      [|split; [|split; [|split; [|left]]]; auto].
    destruct (parse_chunk_ack m) as [ack|e];
      [|split; [|split; [|split; [|left]]]; destruct s as [? [ ]]; auto].
    cbn [snd]. unfold after_chunk_ack.
    destruct (ack =? current_chunk (fst s));
      [|split; [|split; [|split; [|left]]]; auto].
    destruct (_ <=? _).
    + match goal with |- context [after_send ?x] =>
        destruct (after_send_world x) as (Hd & Hr & Ht & Hp & Hn)
      end.
      rewrite Hd, Hr, Ht, Hp, Hn.
      split; [destruct s as [[ ] ?]; reflexivity|].
      split; [destruct s as [[ ] ?]; reflexivity|].
      split; [destruct s as [[ ] ?]; reflexivity|].
      right. right.
      split; [destruct s as [[ ] ?]; reflexivity|].
      split; [destruct s as [? [ ]]; reflexivity|].
      split; [reflexivity|]. exists m. auto.
    + split; [destruct s as [[ ] ?]; reflexivity|].
      split; [destruct s as [[ ] ?]; reflexivity|].
      split; [destruct s as [[ ] ?]; reflexivity|].
      right. right.
      split; [destruct s as [[ ] ?]; reflexivity|].
      split; [destruct s as [? [ ]]; reflexivity|].
      split; [reflexivity|]. exists m. auto.
  - destruct (String.eqb port "TEXT_MESSAGE_APP");
      split; [|split; [|split; [|left]]| |split; [|split; [|left]]];
      destruct s as [? [ ]]; auto.
  - destruct (String.eqb port "TEXT_MESSAGE_APP");
      split; [|split; [|split; [|left]]| |split; [|split; [|left]]];
      destruct s as [? [ ]]; auto.
Qed.

Lemma after_timeout_world (s : State) :
  disk (snd (after_timeout s)) = disk (snd s) /\
  receiver_part (fst (after_timeout s)) = receiver_part (fst s) /\
  target_node_id (fst (after_timeout s)) = target_node_id (fst s) /\
  selected_file_path (fst (after_timeout s)) = selected_file_path (fst s) /\
  total_chunks (fst (after_timeout s)) = total_chunks (fst s).
Proof.
  unfold after_timeout. destruct (_ <? _).
  - match goal with |- context [after_send ?x] =>
      destruct (after_send_world x) as (Hd & Hr & Ht & Hp & Hn)
    end.
    rewrite Hd, Hr, Ht, Hp, Hn. destruct s as [[ ] [ ]]. cbn. auto.
  - destruct s as [[ ] [ ]]. cbn. auto.
Qed.

(** X18. Only the user changes the selection.  No inbound packet and no
    round of the watchdog changes the selected target, the selected file
    or the sender's chunk count; and a round of the watchdog changes
    neither the receiving side of [self] nor the disk. *)
Theorem X18_selection_and_count_are_stable (p : Packet) (s : State) :
  let s1 := exec (on_packet_received p) s in
  let s2 := exec watch_tick s in
  (target_node_id (fst s1) = target_node_id (fst s) /\
   selected_file_path (fst s1) = selected_file_path (fst s) /\
   total_chunks (fst s1) = total_chunks (fst s)) /\
  (target_node_id (fst s2) = target_node_id (fst s) /\
   selected_file_path (fst s2) = selected_file_path (fst s) /\
   total_chunks (fst s2) = total_chunks (fst s) /\
   receiver_part (fst s2) = receiver_part (fst s) /\
   disk (snd s2) = disk (snd s)).
Proof.
  cbv zeta. split.
  - destruct (packet_effect p s) as (H1 & H2 & H3 & _). auto.
  - unfold exec. rewrite watch_tick_eq. cbn [snd].
    destruct (expired s); [|auto].
    destruct (after_timeout_world s) as (Hd & Hr & Ht & Hp & Hn). auto.
Qed.

(** X19. The two roles share one object and stay apart.  An inbound
    packet either changes neither side of [self] nor the disk; or it is
    a request or data text, and then the sending side is as before; or
    it is an accepted [MESHZ_ACK] or [MESHZ_GOCONT] text, and then the
    receiving side and the disk are as before. *)
Theorem X19_roles_do_not_interfere (p : Packet) (s : State) :
  let s' := exec (on_packet_received p) s in
  (sender_part (fst s') = sender_part (fst s) /\
   receiver_part (fst s') = receiver_part (fst s) /\
   disk (snd s') = disk (snd s)) \/
  (sender_part (fst s') = sender_part (fst s) /\
   exists m, text_of p = Some m /\
     (Py.startswith m "MESHZ_REQ" = true \/ Py.startswith m "ZD|" = true)) \/
  (receiver_part (fst s') = receiver_part (fst s) /\
   disk (snd s') = disk (snd s) /\
   accepts (fromId p) s = true /\
   exists m, text_of p = Some m /\
     (m = ack_frame \/ Py.startswith m "MESHZ_GOCONT|" = true)).
Proof.
  cbv zeta.
  destruct (packet_effect p s) as (_ & _ & _ & [H | [(H1 & _ & H3) | H]]);
    auto.
Qed.



(** ** A whole transfer *)

Lemma addressed_one (peer : string) (m : string) :
  addressed peer [(m, Some peer)] = [m].
Proof.
  unfold addressed. cbn. rewrite String.eqb_refl. reflexivity.
Qed.

Lemma fill_seqZ_next (content : list byte) (k : Z) :
  1 <= k ->
  <[k := chunk_of content k]> (fill content (seqZ 1 (k - 1)) ∅)
  = fill content (seqZ 1 k) ∅.
Proof.
  intros Hk. rewrite <- fill_snoc. f_equal.
  replace k with (Z.of_nat (S (Z.to_nat (k - 1)))) at 3 by lia.
  rewrite seqZ_S. rewrite Z2Nat.id by lia. f_equal. f_equal. lia.
Qed.

Lemma fill_seqZ_size (content : list byte) (k : Z) :
  0 <= k -> Z.of_nat (size (fill content (seqZ 1 k) ∅)) = k.
Proof.
  intros Hk. rewrite fill_size.
  - rewrite map_size_empty, length_seqZ. lia.
  - apply NoDup_seqZ.
  - intros i _. apply lookup_empty.
Qed.

(** The turn of the link that carries a chunk which is not the last. *)
Lemma turn_chunk (sid rid path : string) (content : list byte) (k : Z)
    (snd_st rcv_st : State) :
  in_step rid path content k snd_st rcv_st ->
  1 <= k < Z.of_nat (length content) / CHUNK_SIZE + 1 ->
  exists snd_st' rcv_st',
    turn sid rid (chunk_frame k (chunk_of content k)) snd_st rcv_st
    = ([chunk_frame (k + 1) (chunk_of content (k + 1))], snd_st', rcv_st') /\
    in_step rid path content (k + 1) snd_st' rcv_st' /\
    log (snd snd_st') = log (snd snd_st) /\
    log (snd rcv_st') = log (snd rcv_st).
Proof.
  intros (Hact & Htgt & Hpath & Hdisk & Htot & Hcur & Hbuf & Hrt & Hname & Hok)
    Hk.
  unfold turn. cbv zeta.
  assert (exec (on_packet_received
                  (text_packet sid (chunk_frame k (chunk_of content k))))
            rcv_st
          = (set_receive_buffer (fill content (seqZ 1 k) ∅) (fst rcv_st),
             set_outbox (outbox (snd rcv_st) ++ [(chunk_ack_frame k, Some sid)])
               (set_ui (ui (snd rcv_st) ++
                        [Progress k (receiving_total_chunks (fst rcv_st))
                           "Receiving"]) (snd rcv_st)))) as Hrcv.
  { unfold exec. rewrite deliver_chunk_frame. cbn [snd].
    destruct rcv_st as [ra rw]. cbn [fst snd] in *.
    rewrite incomplete_delivery.
    - rewrite Hbuf, fill_seqZ_next, fill_seqZ_size by lia. reflexivity.
    - rewrite Hbuf, fill_seqZ_next, fill_seqZ_size by lia. lia. }
  rewrite (emitted_app
             (on_packet_received
                (text_packet sid (chunk_frame k (chunk_of content k))))
             rcv_st [(chunk_ack_frame k, Some sid)])
    by (rewrite Hrcv; destruct rcv_st as [? [ ]]; reflexivity).
  rewrite addressed_one. rewrite Hrcv. cbn [map].
  assert (accepts (Some rid) snd_st = true) as Hacc.
  { unfold accepts. rewrite Hact, Htgt. cbn. apply String.eqb_refl. }
  assert (deliver [text_packet rid (chunk_ack_frame k)] snd_st
          = (set_current_chunk (k + 1)
               (set_retry_count 0
                  (set_last_ack_time (now (snd snd_st)) (fst snd_st))),
             set_outbox (outbox (snd snd_st) ++
                         [(chunk_frame (k + 1) (chunk_of content (k + 1)),
                           Some rid)])
               (set_ui (ui (snd snd_st) ++
                        [Progress (k + 1) (total_chunks (fst snd_st)) "Sending"])
                  (snd snd_st)))) as Hsnd.
  { unfold deliver. cbn [fold_left]. rewrite <- Hcur at 1.
    rewrite (chunk_ack_next rid path content snd_st Hacc Hpath Hdisk)
      by (rewrite Hcur, Htot; lia).
    rewrite Hcur, Htgt. reflexivity. }
  rewrite (emitted_app _ _
    [(chunk_frame (k + 1) (chunk_of content (k + 1)), Some rid)]).
  2:{ unfold exec. cbn [snd]. rewrite Hsnd.
      destruct snd_st as [? [ ]]. reflexivity. }
  rewrite addressed_one. unfold exec at 1. cbn [snd]. rewrite Hsnd.
  eexists _, _. split; [reflexivity|].
  split.
  - unfold in_step. cbn [fst snd].
    destruct snd_st as [[ ] [ ]], rcv_st as [[ ] [ ]]. cbn in *.
    replace (k + 1 - 1) with k by lia. repeat split; auto.
  - destruct snd_st as [? [ ]], rcv_st as [? [ ]]. cbn. auto.
Qed.

(** The turn that carries the last chunk. *)
Lemma turn_last (sid rid path : string) (content : list byte)
    (snd_st rcv_st : State) :
  let n := Z.of_nat (length content) / CHUNK_SIZE + 1 in
  in_step rid path content n snd_st rcv_st ->
  exists snd_st' rcv_st',
    turn sid rid (chunk_frame n (chunk_of content n)) snd_st rcv_st
    = ([], snd_st', rcv_st') /\
    transfer_active (fst snd_st') = false /\
    current_chunk (fst snd_st') = n + 1 /\
    log (snd snd_st') = (log (snd snd_st) ++ [LogTransferComplete])%list /\
    disk (snd rcv_st') !! save_path_of (Some (basename path)) = Some content /\
    log (snd rcv_st')
    = (log (snd rcv_st) ++
       [LogFileSaved (save_path_of (Some (basename path)))])%list.
Proof.
  intros n
    (Hact & Htgt & Hpath & Hdisk & Htot & Hcur & Hbuf & Hrt & Hname & Hok).
  fold n in Htot, Hrt.
  assert (1 <= n) as Hn.
  { subst n. assert (0 <= Z.of_nat (length content) / CHUNK_SIZE)
      by (apply Z.div_pos; unfold CHUNK_SIZE; lia). lia. }
  assert (Z.of_nat (length content) <= n * CHUNK_SIZE) as Hcover.
  { subst n. unfold CHUNK_SIZE.
    pose proof (Z.div_mod (Z.of_nat (length content)) 120 ltac:(lia)).
    pose proof (Z.mod_pos_bound (Z.of_nat (length content)) 120 ltac:(lia)).
    lia. }
  unfold turn. cbv zeta.
  assert (forall j, 1 <= j <= n ->
            fill content (seqZ 1 n) ∅ !! j = Some (chunk_of content j)) as Hget.
  { intros j Hj. rewrite fill_lookup, bool_decide_eq_true_2; [reflexivity|].
    apply elem_of_seqZ. lia. }
  assert (assemble (fill content (seqZ 1 n) ∅) n = content) as Hasm.
  { unfold assemble. rewrite (map_ext_in _ (chunk_of content)).
    - replace n with (Z.of_nat (Z.to_nat n)) at 1 by lia.
      rewrite concat_chunks. apply take_ge. unfold CHUNK_SIZE in *. lia.
    - intros j Hj. apply list_elem_of_In, elem_of_seqZ in Hj.
      rewrite Hget by lia. reflexivity. }
  assert (exec (on_packet_received
                  (text_packet sid (chunk_frame n (chunk_of content n))))
            rcv_st
          = (set_receive_buffer (fill content (seqZ 1 n) ∅) (fst rcv_st),
             set_ui (ui (snd rcv_st) ++
                     [Progress n n "Receiving"; HideProgress])
               (set_log (log (snd rcv_st) ++
                         [LogFileSaved (save_path_of (Some (basename path)))])
                  (set_disk (<[save_path_of (Some (basename path)) := content]>
                               (disk (snd rcv_st)))
                     (set_outbox (outbox (snd rcv_st) ++
                                  [(chunk_ack_frame n, Some sid)])
                        (snd rcv_st)))))) as Hrcv.
  { unfold exec. rewrite deliver_chunk_frame. cbn [snd].
    destruct rcv_st as [ra rw]. cbn [fst snd] in *.
    rewrite complete_delivery.
    - rewrite Hbuf, fill_seqZ_next, Hrt, Hname, Hasm by lia. reflexivity.
    - rewrite Hbuf, fill_seqZ_next, fill_seqZ_size by lia. congruence.
    - rewrite Hbuf, fill_seqZ_next, Hrt by lia.
      intros j Hj. rewrite Hget by lia. eauto.
    - exact Hok. }
  rewrite (emitted_app
             (on_packet_received
                (text_packet sid (chunk_frame n (chunk_of content n))))
             rcv_st [(chunk_ack_frame n, Some sid)])
    by (rewrite Hrcv; destruct rcv_st as [? [ ]]; reflexivity).
  rewrite addressed_one. rewrite Hrcv. cbn [map].
  assert (accepts (Some rid) snd_st = true) as Hacc.
  { unfold accepts. rewrite Hact, Htgt. cbn. apply String.eqb_refl. }
  assert (deliver [text_packet rid (chunk_ack_frame n)] snd_st
          = (set_transfer_active false
               (set_current_chunk (n + 1)
                  (set_retry_count 0
                     (set_last_ack_time (now (snd snd_st)) (fst snd_st)))),
             set_ui (ui (snd snd_st) ++ [HideProgress])
               (set_log (log (snd snd_st) ++ [LogTransferComplete])
                  (snd snd_st)))) as Hsnd.
  { unfold deliver. cbn [fold_left]. unfold exec.
    rewrite deliver_chunk_ack, Hacc. cbn [snd].
    unfold after_chunk_ack. rewrite Hcur, Z.eqb_refl, Htot.
    replace (n + 1 <=? n) with false by (symmetry; apply Z.leb_gt; lia).
    reflexivity. }
  rewrite (emitted_app _ _ []).
  2:{ unfold exec. cbn [snd]. rewrite Hsnd.
      destruct snd_st as [? [ ]]. cbn. rewrite app_nil_r. reflexivity. }
  unfold exec at 1. cbn [snd]. rewrite Hsnd.
  eexists _, _. split; [reflexivity|].
  destruct snd_st as [[ ] [ ]], rcv_st as [[ ] [ ]]. cbn in *.
  rewrite lookup_insert_eq. auto.
Qed.

(** An accepted [MESHZ_ACK], the file being readable. *)
Lemma ack_starts (sender path : string) (content : list byte) (s : State) :
  accepts (Some sender) s = true ->
  selected_file_path (fst s) = Some path ->
  disk (snd s) !! path = Some content ->
  exec (on_packet_received (text_packet sender ack_frame)) s =
  (set_retry_count 0
     (set_last_ack_time (now (snd s)) (set_current_chunk 1 (fst s))),
   set_outbox (outbox (snd s) ++
               [(chunk_frame 1 (chunk_of content 1), target_node_id (fst s))])
     (set_ui (ui (snd s) ++ [Progress 1 (total_chunks (fst s)) "Sending"])
        (snd s))).
Proof.
  intros Hacc Hpath Hdisk. rewrite deliver_ack. unfold after_ack.
  rewrite Hacc. rewrite (after_send_ok content path).
  - destruct s as [[ ] [ ]]; reflexivity.
  - destruct s as [[ ] ?]; exact Hpath.
  - destruct s as [? [ ]]; exact Hdisk.
  - destruct s as [[ ] ?]; cbn. lia.
Qed.

Lemma exchange_nil (fuel : nat) (sid rid : string) (snd_st rcv_st : State) :
  exchange fuel sid rid [] snd_st rcv_st = (snd_st, rcv_st).
Proof. destruct fuel; reflexivity. Qed.

(** The turn that carries the request. *)
Lemma turn_request (sid rid path : string) (content : list byte)
    (snd_st rcv_st : State) :
  let n := Z.of_nat (length content) / CHUNK_SIZE + 1 in
  let req := request_frame (basename path) (Z.of_nat (length content)) n in
  target_node_id (fst snd_st) = Some rid ->
  rid <> EmptyString ->
  selected_file_path (fst snd_st) = Some path ->
  disk (snd snd_st) !! path = Some content ->
  has_char "|" (basename path) = false ->
  downloads_ok (snd rcv_st) = true ->
  addressed rid (emitted handle_send_request snd_st) = [req] /\
  exists snd_st' rcv_st',
    turn sid rid req (exec handle_send_request snd_st) rcv_st
    = ([chunk_frame 1 (chunk_of content 1)], snd_st', rcv_st') /\
    in_step rid path content 1 snd_st' rcv_st' /\
    log (snd snd_st')
    = (log (snd snd_st) ++ [LogSending (basename path)])%list /\
    log (snd rcv_st')
    = (log (snd rcv_st) ++ [LogReq (Some sid) (basename path)])%list.
Proof.
  intros n req Htgt Hrid Hpath Hdisk Hname Hok.
  assert (truthy (target_node_id (fst snd_st)) = true) as Htruthy.
  { rewrite Htgt. cbn. apply negb_true_iff. apply String.eqb_neq. exact Hrid. }
  destruct snd_st as [sa sw]. cbn [fst snd] in *.
  pose proof (handle_send_request_ok sa sw path content Htruthy Hpath Hdisk)
    as Hreq.
  cbv zeta in Hreq. fold n in Hreq. fold req in Hreq.
  split.
  { rewrite (emitted_app _ _ [(req, Some rid)]).
    - apply addressed_one.
    - rewrite Hreq, Htgt. destruct sw; reflexivity. }
  rewrite Hreq. unfold turn. cbv zeta.
  pose proof (deliver_request_frame sid (basename path)
                (Z.of_nat (length content)) n rcv_st Hname) as Hrcv.
  fold req in Hrcv.
  rewrite (emitted_app (on_packet_received (text_packet sid req)) rcv_st
             [(ack_frame, Some sid)])
    by (rewrite Hrcv; destruct rcv_st as [? [ ]]; reflexivity).
  rewrite addressed_one, Hrcv. cbn [map].
  match goal with |- context [exec _ ?st] => set (s1 := st) end.
  assert (accepts (Some rid) s1 = true) as Hacc.
  { subst s1. unfold accepts. destruct sa; cbn in *. rewrite Htgt. cbn.
    apply String.eqb_refl. }
  assert (deliver [text_packet rid ack_frame] s1
          = (set_retry_count 0
               (set_last_ack_time (now (snd s1)) (set_current_chunk 1 (fst s1))),
             set_outbox (outbox (snd s1) ++
                         [(chunk_frame 1 (chunk_of content 1), Some rid)])
               (set_ui (ui (snd s1) ++
                        [Progress 1 (total_chunks (fst s1)) "Sending"])
                  (snd s1)))) as Hsnd.
  { unfold deliver. cbn [fold_left].
    rewrite (ack_starts rid path content s1 Hacc).
    - subst s1. destruct sa; cbn in *. rewrite Htgt. reflexivity.
    - subst s1. destruct sa; exact Hpath.
    - subst s1. destruct sw; exact Hdisk. }
  rewrite (emitted_app _ s1 [(chunk_frame 1 (chunk_of content 1), Some rid)]).
  2:{ unfold exec. cbn [snd]. rewrite Hsnd.
      destruct (snd s1). reflexivity. }
  rewrite addressed_one. unfold exec at 1. cbn [snd]. rewrite Hsnd.
  eexists _, _. split; [reflexivity|].
  subst s1. unfold in_step. fold n.
  destruct sa, sw, rcv_st as [[ ] [ ]]. cbn in *.
  repeat split; auto.
Qed.

Lemma exchange_chunks (sid rid path : string) (content : list byte)
    (m : nat) :
  let n := Z.of_nat (length content) / CHUNK_SIZE + 1 in
  forall k snd_st rcv_st fuel,
  in_step rid path content k snd_st rcv_st ->
  1 <= k ->
  n - k = Z.of_nat m ->
  (S m <= fuel)%nat ->
  exists snd_st' rcv_st',
    exchange fuel sid rid [chunk_frame k (chunk_of content k)] snd_st rcv_st
    = (snd_st', rcv_st') /\
    transfer_active (fst snd_st') = false /\
    current_chunk (fst snd_st') = n + 1 /\
    log (snd snd_st') = (log (snd snd_st) ++ [LogTransferComplete])%list /\
    disk (snd rcv_st') !! save_path_of (Some (basename path)) = Some content /\
    log (snd rcv_st')
    = (log (snd rcv_st) ++
       [LogFileSaved (save_path_of (Some (basename path)))])%list.
Proof.
  intros n. induction m as [|m IH]; intros k snd_st rcv_st fuel Hstep Hk Hm Hfuel.
  - assert (k = n) as -> by lia.
    destruct fuel as [|fuel]; [lia|].
    destruct (turn_last sid rid path content snd_st rcv_st Hstep)
      as (s' & r' & Hturn & Hrest).
    fold n in Hturn, Hrest.
    exists s', r'. split; [|exact Hrest].
    cbn [exchange]. rewrite Hturn. cbn [app]. apply exchange_nil.
  - destruct fuel as [|fuel]; [lia|].
    destruct (turn_chunk sid rid path content k snd_st rcv_st Hstep)
      as (s1 & r1 & Hturn & Hstep1 & Hl1 & Hl2); [fold n; lia|].
    destruct (IH (k + 1) s1 r1 fuel Hstep1) as (s' & r' & Hex & Hrest);
      [lia|lia|lia|].
    exists s', r'. split.
    + cbn [exchange]. rewrite Hturn. cbn [app]. exact Hex.
    + rewrite <- Hl1, <- Hl2. exact Hrest.
Qed.

(** X21. A whole transfer over a link that loses nothing.  A sender with
    a selected peer and a readable file whose name holds no [|], and a
    receiver in any state with a writable downloads directory: after the
    user presses SEND, and with the link carrying every text to the peer
    it is addressed to (at least [n + 1] turns, [n] being the declared
    count), the receiver's output file holds exactly the bytes of the
    sender's file, written once, and the sender's session has ended as
    complete, with the chunk index one past the count. *)
Theorem X21_transfer_over_lossless_link (sid rid path : string)
    (content : list byte) (snd_st rcv_st : State) (fuel : nat) :
  let n := Z.of_nat (length content) / CHUNK_SIZE + 1 in
  target_node_id (fst snd_st) = Some rid ->
  rid <> EmptyString ->
  selected_file_path (fst snd_st) = Some path ->
  disk (snd snd_st) !! path = Some content ->
  has_char "|" (basename path) = false ->
  downloads_ok (snd rcv_st) = true ->
  (Z.to_nat n + 1 <= fuel)%nat ->
  let final := transfer fuel sid rid snd_st rcv_st in
  disk (snd (snd final)) !! save_path_of (Some (basename path)) = Some content /\
  log (snd (snd final))
  = (log (snd rcv_st) ++
     [LogReq (Some sid) (basename path);
      LogFileSaved (save_path_of (Some (basename path)))])%list /\
  transfer_active (fst (fst final)) = false /\
  current_chunk (fst (fst final)) = n + 1 /\
  log (snd (fst final))
  = (log (snd snd_st) ++
     [LogSending (basename path); LogTransferComplete])%list.
Proof.
  intros n Htgt Hrid Hpath Hdisk Hname Hok Hfuel final. subst final.
  assert (1 <= n) as Hn.
  { subst n. assert (0 <= Z.of_nat (length content) / CHUNK_SIZE)
      by (apply Z.div_pos; unfold CHUNK_SIZE; lia). lia. }
  destruct (turn_request sid rid path content snd_st rcv_st
              Htgt Hrid Hpath Hdisk Hname Hok)
    as (Hfirst & s1 & r1 & Hturn & Hstep & Hl1 & Hl2).
  fold n in Hfirst, Hturn.
  unfold transfer. rewrite Hfirst.
  destruct fuel as [|fuel]; [lia|].
  cbn [exchange]. rewrite Hturn. cbn [app].
  destruct (exchange_chunks sid rid path content (Z.to_nat (n - 1))
              1 s1 r1 fuel Hstep)
    as (s' & r' & Hex & Hact & Hcur & Hls & Hd & Hlr); [lia|fold n; lia|lia|].
  fold n in Hcur. rewrite Hex. cbn [fst snd].
  rewrite Hlr, Hls, Hl1, Hl2, <- !app_assoc. auto.
Qed.

Lemma X21_transfer_over_lossless_link_witness :
  let n := Z.of_nat (length ex_content) / CHUNK_SIZE + 1 in
  let final := transfer 4 "!s" "!r" ex_sender ex_receiver in
  disk (snd (snd final)) !! save_path_of (Some (basename "docs/a.bin"))
  = Some ex_content /\
  log (snd (snd final))
  = (log (snd ex_receiver) ++
     [LogReq (Some "!s") (basename "docs/a.bin");
      LogFileSaved (save_path_of (Some (basename "docs/a.bin")))])%list /\
  transfer_active (fst (fst final)) = false /\
  current_chunk (fst (fst final)) = n + 1 /\
  log (snd (fst final))
  = (log (snd ex_sender) ++
     [LogSending (basename "docs/a.bin"); LogTransferComplete])%list.
Proof.
  apply (X21_transfer_over_lossless_link "!s" "!r" "docs/a.bin" ex_content
           ex_sender ex_receiver 4).
  - vm_compute. reflexivity.
  - discriminate.
  - vm_compute. reflexivity.
  - vm_compute. reflexivity.
  - vm_compute. reflexivity.
  - vm_compute. reflexivity.
  - vm_compute. lia.
Defined.

(** ** Edge cases of the two ends *)

(** X22. The request branch stores the file name before it reads the
    chunk count.  So a request text that has a name field but whose
    fourth field is missing or is not a number is reported as a packet
    error and yet replaces the stored file name; the declared count, the
    buffer and the sending side stay as they were, and no [MESHZ_ACK] is
    sent. *)
Theorem X22_failed_request_replaces_name (sender m name : string) (s : State) :
  Py.startswith m "MESHZ_REQ" = true ->
  nth_error (Py.split "|" m) 1 = Some name ->
  nth_error (Py.split "|" m) 3 = None \/
  (exists field, nth_error (Py.split "|" m) 3 = Some field /\
                 Py.int field = None) ->
  exists e,
    on_packet_received (text_packet sender m) s =
    (Ret tt,
     (set_receiving_file_name (Some name) (fst s),
      set_log (log (snd s) ++ [LogPacketError e]) (snd s))).
Proof.
  intros Hreq Hname Hbad.
  unfold on_packet_received, try_except.
  rewrite text_packet_body, on_text_eq, Hreq.
  unfold after_request. rewrite Hname.
  destruct Hbad as [H3 | (field & H3 & Hint)]; rewrite H3.
  - exists IndexError. reflexivity.
  - rewrite Hint. exists ValueError. reflexivity.
Qed.

Lemma X22_failed_request_replaces_name_witness :
  exists e,
    on_packet_received (text_packet "!x" "MESHZ_REQ|other.bin|12") ex_receiving2 =
    (Ret tt,
     (set_receiving_file_name (Some "other.bin") (fst ex_receiving2),
      set_log (log (snd ex_receiving2) ++ [LogPacketError e])
        (snd ex_receiving2))).
Proof.
  apply (X22_failed_request_replaces_name "!x" "MESHZ_REQ|other.bin|12"
           "other.bin" ex_receiving2).
  - reflexivity.
  - reflexivity.
  - left. reflexivity.
Defined.

Lemma chunk_of_length (content : list byte) (i : Z) :
  1 <= i ->
  Z.of_nat (length (chunk_of content i))
  = Z.max 0 (Z.min CHUNK_SIZE
               (Z.of_nat (length content) - (i - 1) * CHUNK_SIZE)).
Proof.
  intros Hi. unfold chunk_of. rewrite length_take, length_drop.
  unfold CHUNK_SIZE. lia.
Qed.

(** X23. How long the chunks are.  In a sending session
    [send_next_chunk] emits the frame of the current chunk, and the
    chunk holds the bytes of the file from offset [(cur - 1) * 120] on,
    120 of them or as many as are left, none when the offset is at or
    past the end.  In particular, for a file whose size is a multiple of
    120, the empty file included, the last declared chunk is empty: its
    frame is [ZD|n|] with nothing after the second bar. *)
Theorem X23_chunk_lengths (content : list byte) (s : State) :
  sending content s ->
  let cur := current_chunk (fst s) in
  let size := Z.of_nat (length content) in
  let raw := chunk_of content cur in
  emitted send_next_chunk s = [(chunk_frame cur raw, target_node_id (fst s))] /\
  Z.of_nat (length raw)
  = Z.max 0 (Z.min CHUNK_SIZE (size - (cur - 1) * CHUNK_SIZE)) /\
  (size mod CHUNK_SIZE = 0 -> cur = size / CHUNK_SIZE + 1 ->
   chunk_frame cur raw = "ZD|" ++ Py.str cur ++ "|").
Proof.
  intros Hs cur size raw. subst cur size raw.
  pose proof Hs as (_ & Hcur & _).
  split; [exact (send_next_chunk_emits content s Hs)|].
  split; [apply chunk_of_length; exact Hcur|].
  intros Hmod Hlast.
  assert (chunk_of content (current_chunk (fst s)) = []) as ->.
  { apply length_zero_iff_nil.
    pose proof (chunk_of_length content _ Hcur) as Hlen.
    pose proof (Z.div_mod (Z.of_nat (length content)) CHUNK_SIZE
                  ltac:(unfold CHUNK_SIZE; lia)) as Hdm.
    unfold CHUNK_SIZE in *. lia. }
  reflexivity.
Qed.

Lemma X23_chunk_lengths_witness :
  let s := exec (on_packet_received (text_packet "!r" (chunk_ack_frame 2)))
             (exec (on_packet_received (text_packet "!r" (chunk_ack_frame 1)))
                (exec (on_packet_received (text_packet "!r" ack_frame))
                   (exec handle_send_request ex_sender_exact))) in
  let cur := current_chunk (fst s) in
  let size := Z.of_nat (length ex_exact) in
  let raw := chunk_of ex_exact cur in
  emitted send_next_chunk s = [(chunk_frame cur raw, target_node_id (fst s))] /\
  Z.of_nat (length raw)
  = Z.max 0 (Z.min CHUNK_SIZE (size - (cur - 1) * CHUNK_SIZE)) /\
  (size mod CHUNK_SIZE = 0 -> cur = size / CHUNK_SIZE + 1 ->
   chunk_frame cur raw = "ZD|" ++ Py.str cur ++ "|").
Proof.
  intros s.
  apply (X23_chunk_lengths ex_exact s).
  split; [vm_compute; reflexivity|]. split; [vm_compute; discriminate|].
  exists "docs/b.bin". split; vm_compute; reflexivity.
Defined.
